(** * cmdty_storage: the Python interface of the commodity storage model

    A shallow embedding of [cmdty_storage/cmdty_storage.py]: the period
    marshalling helpers, the [CmdtyStorage] wrapper class and
    [intrinsic_value].  The Python module is a thin layer over a .NET
    engine ([Cmdty.Storage]); the parts of the engine that the wrapper
    calls are modelled here next to it, each marked as such.

    Numbers: Python floats and .NET doubles are idealised as canonical
    rationals ([Qc]), so that equalities between rates are exact. *)

From Stdlib Require Import ZArith QArith Qcanon Lia.
From stdpp Require Import base option list strings gmap.

Local Open Scope string_scope.
Local Open Scope list_scope.
Local Open Scope Z_scope.

(** ** Exceptions and the state-and-error monad *)

(** Exceptions raised by the .NET side. *)
Inductive NetException :=
  | ArgumentException (msg : string)
  | ArgumentOutOfRangeException (msg : string)
  | InvalidOperationException (msg : string).

(** Exceptions seen by the Python caller. *)
Inductive exn :=
  | ValueError (msg : string)
  | KeyError (key : string)
  | DotNet (e : NetException).

Inductive result (A : Type) :=
  | Ok (a : A)
  | Raise (e : exn).
Arguments Ok {A} a.
Arguments Raise {A} e.

Definition is_raise {A} (r : result A) : bool :=
  match r with Ok _ => false | Raise _ => true end.

(** A computation over a mutable object of type [S]: the object survives
    an exception. *)
Definition M (S A : Type) : Type := S -> result A * S.

Definition ret {S A} (a : A) : M S A := fun s => (Ok a, s).
Definition raise {S A} (e : exn) : M S A := fun s => (Raise e, s).
Definition bind {S A B} (m : M S A) (k : A -> M S B) : M S B :=
  fun s => match m s with
           | (Ok a, s') => k a s'
           | (Raise e, s') => (Raise e, s')
           end.
Definition get {S} : M S S := fun s => (Ok s, s).
Definition put {S} (s : S) : M S unit := fun _ => (Ok tt, s).
Definition lift {S A} (r : result A) : M S A := fun s => (r, s).

Declare Scope py_scope.
Delimit Scope py_scope with py.
Notation "x <- m ;; k" := (bind m (fun x => k))
  (at level 100, m at next level, right associativity) : py_scope.
Notation "'call' m ;; k" := (bind m (fun _ => k))
  (at level 100, m at next level, right associativity) : py_scope.

(** The pure fragment: no object at all. *)
Definition rbind {A B} (r : result A) (k : A -> result B) : result B :=
  match r with Ok a => k a | Raise e => Raise e end.
Notation "'let?' x := r 'in' k" := (rbind r (fun x => k))
  (at level 100, x pattern, r at next level, right associativity) : py_scope.

Fixpoint mapR {A B} (f : A -> result B) (l : list A) : result (list B) :=
  match l with
  | [] => Ok []
  | a :: l' =>
      match f a with
      | Raise e => Raise e
      | Ok b => match mapR f l' with
                | Raise e => Raise e
                | Ok bs => Ok (b :: bs)
                end
      end
  end.

(** ** Numbers *)

Definition Qcleb (x y : Qc) : bool :=
  match (x ?= y)%Qc with Gt => false | _ => true end.
Definition Qcltb (x y : Qc) : bool :=
  match (x ?= y)%Qc with Lt => true | _ => false end.

(** A decimal literal: [dec 2552 10] is 255.2. *)
Definition dec (n : Z) (d : positive) : Qc := Q2Qc (n # d).

(** ** The calendar *)

Definition is_leap_year (y : Z) : bool :=
  (y mod 4 =? 0) && (negb (y mod 100 =? 0) || (y mod 400 =? 0)).

Definition days_in_month (y m : Z) : Z :=
  match m with
  | 1 | 3 | 5 | 7 | 8 | 10 | 12 => 31
  | 4 | 6 | 9 | 11 => 30
  | 2 => if is_leap_year y then 29 else 28
  | _ => 0
  end.

(** [System.DateTime], to the millisecond. *)
Module DateTime.
Record t := mk {
  Year : Z; Month : Z; Day : Z;
  Hour : Z; Minute : Z; Second : Z; Millisecond : Z }.

Definition in_range (y m d h mi s : Z) : bool :=
  (1 <=? y) && (y <=? 9999) && (1 <=? m) && (m <=? 12) &&
  (1 <=? d) && (d <=? days_in_month y m) &&
  (0 <=? h) && (h <? 24) && (0 <=? mi) && (mi <? 60) &&
  (0 <=? s) && (s <? 60).

(** The constructor [DateTime(year, month, day, hour, minute, second)]:
    it throws on a field out of range. *)
Definition new (y m d h mi s : Z) : result t :=
  if in_range y m d h mi s then Ok (mk y m d h mi s 0)
  else Raise (DotNet (ArgumentOutOfRangeException
                "Year, Month, and Day parameters describe an un-representable DateTime.")).

Definition lex (c1 c2 : comparison) : comparison :=
  match c1 with Eq => c2 | _ => c1 end.

Definition compare (a b : t) : comparison :=
  lex (Year a ?= Year b) (lex (Month a ?= Month b) (lex (Day a ?= Day b)
    (lex (Hour a ?= Hour b) (lex (Minute a ?= Minute b)
      (lex (Second a ?= Second b) (Millisecond a ?= Millisecond b)))))).
End DateTime.

(** ** Time periods of the .NET side

    [Cmdty.TimePeriodValueTypes] is a package the module imports.  A time
    period of a given type is identified by the instant at which it
    starts; [TimePeriodFactory.FromDateTime] gives the period of that type
    which contains the instant. *)

Inductive PeriodType := QuarterHour | HalfHour | Hour | Day | Month | Quarter.

Global Instance PeriodType_eq_dec : EqDecision PeriodType.
Proof. solve_decision. Defined.

Record TimePeriod := mkTimePeriod { ptype : PeriodType; Start : DateTime.t }.

Definition floor_to (ty : PeriodType) (dt : DateTime.t) : DateTime.t :=
  let 'DateTime.mk y m d h mi s ms := dt in
  match ty with
  | QuarterHour => DateTime.mk y m d h (mi - mi mod 15) 0 0
  | HalfHour => DateTime.mk y m d h (mi - mi mod 30) 0 0
  | Hour => DateTime.mk y m d h 0 0 0
  | Day => DateTime.mk y m d 0 0 0 0
  | Month => DateTime.mk y m 1 0 0 0 0
  | Quarter => DateTime.mk y (m - (m - 1) mod 3) 1 0 0 0 0
  end.

Module TimePeriodFactory.
Definition FromDateTime (ty : PeriodType) (dt : DateTime.t) : TimePeriod :=
  mkTimePeriod ty (floor_to ty dt).
End TimePeriodFactory.

(** [a.CompareTo(b)]: periods of one type are ordered by their start. *)
Definition CompareTo (a b : TimePeriod) : comparison :=
  DateTime.compare (Start a) (Start b).

(** ** Dates and periods of the Python side *)

(** [datetime.datetime]; its constructor raises [ValueError] on a field
    out of range. *)
Module datetime.
Record t := mk {
  year : Z; month : Z; day : Z;
  hour : Z; minute : Z; second : Z; microsecond : Z }.

Definition new (y m d h mi s us : Z) : result t :=
  if DateTime.in_range y m d h mi s && (0 <=? us) && (us <? 1000000)
  then Ok (mk y m d h mi s us)
  else Raise (ValueError "datetime field is out of range").
End datetime.

(** [pandas.Period] at one of the supported frequencies.  A period is the
    span that starts at the recorded instant and lasts one unit of [freq];
    a period of a multiple of a base unit (["15min"], ["30min"]) starts at
    any minute, not only on a multiple. *)
Record Period := mkPeriod {
  freq : string;
  start_year : Z; start_month : Z; start_day : Z;
  start_hour : Z; start_minute : Z }.

Global Instance Period_eq_dec : EqDecision Period.
Proof. solve_decision. Defined.

(** The calendar attributes of a period are those of its last day, so for
    a month or a quarter [day] is the last day of the span. *)
Definition Period_year (p : Period) : Z := start_year p.
Definition Period_month (p : Period) : Z :=
  if String.eqb (freq p) "Q" then start_month p + 2 else start_month p.
Definition Period_day (p : Period) : Z :=
  if String.eqb (freq p) "M" || String.eqb (freq p) "Q"
  then days_in_month (Period_year p) (Period_month p)
  else start_day p.
Definition Period_hour (p : Period) : Z := start_hour p.
Definition Period_minute (p : Period) : Z := start_minute p.
Definition Period_second (p : Period) : Z := 0.

(** [pd.Period(dt, freq=freq)]: the period of that frequency in which the
    instant falls.  The module calls it with ['D'] and with the frequency
    of a storage, a key of [FREQ_TO_PERIOD_TYPE]; these six frequencies
    are the ones the model has.  pandas knows more frequencies, which the
    module does not use: at any other string the error below stands for
    what is outside the model, and no property rests on it. *)
Definition pd_Period (dt : datetime.t) (freq : string) : result Period :=
  let 'datetime.mk y m d h mi s us := dt in
  if String.eqb freq "15min" || String.eqb freq "30min" then Ok (mkPeriod freq y m d h mi)
  else if String.eqb freq "H" then Ok (mkPeriod freq y m d h 0)
  else if String.eqb freq "D" then Ok (mkPeriod freq y m d 0 0)
  else if String.eqb freq "M" then Ok (mkPeriod freq y m 1 0 0)
  else if String.eqb freq "Q" then Ok (mkPeriod freq y (m - (m - 1) mod 3) 1 0 0)
  else Raise (ValueError ("Invalid frequency: " ++ freq)%string).

(** What the module accepts as a point in time: "either a pandas Period,
    datetime or date". *)
Inductive datetime_like :=
  | a_date (year month day : Z)
  | a_datetime (dt : datetime.t)
  | a_period (p : Period).

Definition hasattr_hour (x : datetime_like) : bool :=
  match x with a_date _ _ _ => false | _ => true end.

Definition attr_year (x : datetime_like) : Z :=
  match x with
  | a_date y _ _ => y | a_datetime dt => datetime.year dt | a_period p => Period_year p
  end.
Definition attr_month (x : datetime_like) : Z :=
  match x with
  | a_date _ m _ => m | a_datetime dt => datetime.month dt | a_period p => Period_month p
  end.
Definition attr_day (x : datetime_like) : Z :=
  match x with
  | a_date _ _ d => d | a_datetime dt => datetime.day dt | a_period p => Period_day p
  end.
Definition attr_hour (x : datetime_like) : Z :=
  match x with
  | a_date _ _ _ => 0 | a_datetime dt => datetime.hour dt | a_period p => Period_hour p
  end.
Definition attr_minute (x : datetime_like) : Z :=
  match x with
  | a_date _ _ _ => 0 | a_datetime dt => datetime.minute dt | a_period p => Period_minute p
  end.
Definition attr_second (x : datetime_like) : Z :=
  match x with
  | a_date _ _ _ => 0 | a_datetime dt => datetime.second dt | a_period p => Period_second p
  end.

(** ** The marshalling helpers of the module *)

Definition _from_datetime_like (datetime_like : datetime_like)
    (time_period_type : PeriodType) : result TimePeriod :=
  let time_args :=
    if hasattr_hour datetime_like
    then (attr_hour datetime_like, attr_minute datetime_like, attr_second datetime_like)
    else (0, 0, 0) in
  let '(h, mi, s) := time_args in
  match DateTime.new (attr_year datetime_like) (attr_month datetime_like)
          (attr_day datetime_like) h mi s with
  | Raise e => Raise e
  | Ok date_time => Ok (TimePeriodFactory.FromDateTime time_period_type date_time)
  end.

Definition _net_datetime_to_py_datetime (net_datetime : DateTime.t) : result datetime.t :=
  datetime.new (DateTime.Year net_datetime) (DateTime.Month net_datetime)
    (DateTime.Day net_datetime) (DateTime.Hour net_datetime)
    (DateTime.Minute net_datetime) (DateTime.Second net_datetime)
    (DateTime.Millisecond net_datetime * 1000).

Definition _net_time_period_to_pandas_period (net_time_period : TimePeriod)
    (freq : string) : result Period :=
  match _net_datetime_to_py_datetime (Start net_time_period) with
  | Raise e => Raise e
  | Ok start_datetime => pd_Period start_datetime freq
  end.

Definition FREQ_TO_PERIOD_TYPE : gmap string PeriodType :=
  list_to_map
    [ ("15min", QuarterHour); ("30min", HalfHour); ("H", Hour);
      ("D", Day); ("M", Month); ("Q", Quarter) ].


(** ** The storage engine ([Cmdty.Storage])

    The wrapper class delegates to the .NET storage object and its
    builder, whose sources are not part of the Python package.  What the
    wrapper relies on is modelled below. *)

(** Modelled from the spec: the engine's [InjectWithdrawRange], "{minRate
    (negative, withdrawal), maxRate (positive, injection)}, valid at a
    specific (period, inventory)". *)
Record NetInjectWithdrawRange := mkNetRange {
  MinInjectWithdrawRate : Qc;
  MaxInjectWithdrawRate : Qc }.

(** Modelled from the spec: the constructor of the engine's
    [InjectWithdrawRange].  "Fails with a validation error if ... min > max
    at any breakpoint." *)
Definition NetInjectWithdrawRange_new (min_rate max_rate : Qc) : result NetInjectWithdrawRange :=
  if Qcltb max_rate min_rate
  then Raise (DotNet (ArgumentException
         "minInjectWithdrawRate is greater than maxInjectWithdrawRate"))
  else Ok (mkNetRange min_rate max_rate).

(** Modelled from the spec: a breakpoint of a ratchet, an "(inventory
    breakpoint, min rate, max rate)" triple. *)
Record InjectWithdrawRangeByInventory := mkByInventory {
  Inventory : Qc;
  Rates : NetInjectWithdrawRange }.

(** Modelled from the spec: a ratchet, "a period plus a set of (inventory
    breakpoint, min rate, max rate) triples"; the breakpoints are in force
    from [RatchetPeriod] on. *)
Record InjectWithdrawRangeByInventoryAndPeriod := mkByInventoryAndPeriod {
  RatchetPeriod : TimePeriod;
  InjectWithdrawRanges : list InjectWithdrawRangeByInventory }.

(** Modelled from the spec: the terminal-value rule of the engine, "either
    inventory must be zero at end or an arbitrary function of (terminal
    price, terminal inventory)". *)
Inductive TerminalRule :=
  | MustBeEmpty
  | TerminalInventoryNpv (f : Qc -> Qc -> Qc).

(** Modelled from the spec: the engine's storage object, the spec's
    StorageModel: "start period, end period", the ratchets, "per-unit
    injection/withdrawal cost", "percentage of commodity consumed on
    inject/withdraw, percentage inventory lost per period, per-unit
    inventory holding cost, and a terminal-value rule". *)
Record NetCmdtyStorage := mkNetStorage {
  StartPeriod : TimePeriod;
  EndPeriod : TimePeriod;
  Ratchets : list InjectWithdrawRangeByInventoryAndPeriod;
  PerUnitInjectionCost : Qc;
  PercentCmdtyConsumedOnInject : option Qc;
  PerUnitWithdrawalCost : Qc;
  PercentCmdtyConsumedOnWithdraw : option Qc;
  PercentCmdtyInventoryLoss : option Qc;
  PerUnitInventoryCost : option Qc;
  Terminal : TerminalRule }.

(** Modelled from the spec: the breakpoints of a ratchet are "sorted
    ascending by inventory", and they are "unsorted" when an inventory is
    below the one before it.  [x0] is the inventory before those of [l]. *)
Fixpoint ascending_from (x0 : Qc) (l : list InjectWithdrawRangeByInventory) : bool :=
  match l with
  | [] => true
  | b :: l' => Qcleb x0 (Inventory b) && ascending_from (Inventory b) l'
  end.

(** Modelled from the spec: the breakpoints of a ratchet, "sorted
    ascending by inventory". *)
Definition ascending (l : list InjectWithdrawRangeByInventory) : bool :=
  match l with
  | [] => true
  | b :: l' => ascending_from (Inventory b) l'
  end.

(** *** Piecewise-linear lookup *)

(** Modelled from the spec: the value at [x] on the line through the
    breakpoints [(x0, y0)] and [(x1, y1)], for "linearly interpolate
    between the two bracketing breakpoints".  It is written as the mean of
    the two values weighted by the position [t] of [x] in the bracket: at
    the two ends the weights are 0 and 1, so that the stored value comes
    back by [a / a = 1], [y * 1 = y], [y * 0 = 0] and [0 + y = y] alone. *)
Definition lerp (x0 y0 x1 y1 x : Qc) : Qc :=
  let t := ((x - x0) / (x1 - x0))%Qc in
  (y0 * (1 - t) + y1 * t)%Qc.

Section Interpolation.
Variable value : NetInjectWithdrawRange -> Qc.

(** Modelled from the spec: the lookup above the lowest breakpoint.  [b0]
    is a breakpoint below [x]; the value is interpolated in the first
    bracket that reaches [x], and is that of the highest breakpoint when
    none does. *)
Fixpoint interpolate_from (b0 : InjectWithdrawRangeByInventory)
    (rest : list InjectWithdrawRangeByInventory) (x : Qc) : Qc :=
  match rest with
  | [] => value (Rates b0)
  | b1 :: rest' =>
      if Qcleb x (Inventory b1)
      then lerp (Inventory b0) (value (Rates b0)) (Inventory b1) (value (Rates b1)) x
      else interpolate_from b1 rest' x
  end.

(** Modelled from the spec: "All inventory-dependent lookups linearly
    interpolate between the two bracketing breakpoints of the ratchet
    effective at that period; values below the lowest or above the highest
    breakpoint clamp to the boundary breakpoint's value."  A ratchet
    without a breakpoint has no value. *)
Definition interpolate (l : list InjectWithdrawRangeByInventory) (x : Qc) : option Qc :=
  match l with
  | [] => None
  | b0 :: rest =>
      Some (if Qcleb x (Inventory b0) then value (Rates b0)
            else interpolate_from b0 rest x)
  end.
End Interpolation.

(** [a] is at or before [b]. *)
Definition not_after (a b : TimePeriod) : bool :=
  match CompareTo a b with Gt => false | _ => true end.

(** Modelled from the spec: "a ratchet's rates remain in force for every
    subsequent period until superseded by the next chronological ratchet".
    The ratchet in force at [p] is the latest one that starts at or before
    [p]; [best] is the candidate found so far. *)
Fixpoint effective_ratchet_from (best : option InjectWithdrawRangeByInventoryAndPeriod)
    (l : list InjectWithdrawRangeByInventoryAndPeriod) (p : TimePeriod)
    : option InjectWithdrawRangeByInventoryAndPeriod :=
  match l with
  | [] => best
  | r :: l' =>
      if not_after (RatchetPeriod r) p
      then match best with
           | Some b =>
               if not_after (RatchetPeriod b) (RatchetPeriod r)
               then effective_ratchet_from (Some r) l' p
               else effective_ratchet_from best l' p
           | None => effective_ratchet_from (Some r) l' p
           end
      else effective_ratchet_from best l' p
  end.

(** Modelled from the spec: "the ratchet effective at that period". *)
Definition effective_ratchet (l : list InjectWithdrawRangeByInventoryAndPeriod)
    (p : TimePeriod) : option InjectWithdrawRangeByInventoryAndPeriod :=
  effective_ratchet_from None l p.

(** Modelled from the spec: the engine's [GetInjectWithdrawRange], which
    is not in the sources: both rates are looked up in the breakpoints of
    the ratchet in force at the period.  It throws where no ratchet is in
    force. *)
Definition GetInjectWithdrawRange (s : NetCmdtyStorage) (period : TimePeriod)
    (inventory : Qc) : result NetInjectWithdrawRange :=
  match effective_ratchet (Ratchets s) period with
  | None => Raise (DotNet (ArgumentException "no inject/withdraw constraint at the period"))
  | Some r =>
      match interpolate MinInjectWithdrawRate (InjectWithdrawRanges r) inventory,
            interpolate MaxInjectWithdrawRate (InjectWithdrawRanges r) inventory with
      | Some lo, Some hi => Ok (mkNetRange lo hi)
      | _, _ => Raise (DotNet (ArgumentException "no inject/withdraw breakpoint"))
      end
  end.

(** Modelled from the spec: the engine's [MustBeEmptyAtEnd] property,
    which is not in the sources; it tells which of the two terminal rules
    the storage has. *)
Definition MustBeEmptyAtEnd (s : NetCmdtyStorage) : bool :=
  match Terminal s with MustBeEmpty => true | TerminalInventoryNpv _ => false end.

(** Modelled from the spec: the engine's [TerminalStorageNpv], which is
    not in the sources: the "arbitrary function of (terminal price,
    terminal inventory)" where there is one.  Under the must-be-empty rule
    the store ends empty and its terminal value is taken as zero. *)
Definition TerminalStorageNpv (s : NetCmdtyStorage) (cmdty_price terminal_inventory : Qc) : Qc :=
  match Terminal s with
  | MustBeEmpty => 0%Qc
  | TerminalInventoryNpv f => f cmdty_price terminal_inventory
  end.

(** *** The builder *)

(** Modelled from the spec: the engine's fluent builder, which is not in
    the sources.  It is one object that the constructor of the wrapper
    fills call by call; "validation errors are raised eagerly at
    model-construction time", so each call checks what it is given. *)
Record NetBuilder := mkBuilder {
  b_active : option (TimePeriod * TimePeriod);
  b_ratchets : option (list InjectWithdrawRangeByInventoryAndPeriod);
  b_injection_cost : option Qc;
  b_consumed_inject : option (option Qc);
  b_withdrawal_cost : option Qc;
  b_consumed_withdraw : option (option Qc);
  b_inventory_loss : option (option Qc);
  b_inventory_cost : option (option Qc);
  b_terminal : option TerminalRule }.

Module Builder.
(** Modelled from the spec: the builder before any call. *)
Definition Builder : NetBuilder :=
  mkBuilder None None None None None None None None None.

Definition modify (f : NetBuilder -> NetBuilder) : M NetBuilder unit :=
  fun b => (Ok tt, f b).

(** Modelled from the spec: "commitment window, start < end"; it "fails
    with a validation error if ... start >= end". *)
Definition WithActiveTimePeriod (start_period end_period : TimePeriod) : M NetBuilder unit :=
  match CompareTo start_period end_period with
  | Lt => modify (fun '(mkBuilder _ r ic ci wc cw il ivc t) =>
                    mkBuilder (Some (start_period, end_period)) r ic ci wc cw il ivc t)
  | _ => raise (DotNet (ArgumentException
                  "Storage start period must be earlier than the end period"))
  end.

(** Modelled from the spec: it "fails with a validation error if ratchet
    breakpoints are unsorted". *)
Definition WithTimeAndInventoryVaryingInjectWithdrawRatesPiecewiseLinear
    (net_constraints : list InjectWithdrawRangeByInventoryAndPeriod) : M NetBuilder unit :=
  if forallb (fun r => ascending (InjectWithdrawRanges r)) net_constraints
  then modify (fun '(mkBuilder a _ ic ci wc cw il ivc t) =>
                 mkBuilder a (Some net_constraints) ic ci wc cw il ivc t)
  else raise (DotNet (ArgumentException
                "Inject/withdraw breakpoints must be sorted by ascending inventory")).

(** Modelled from the spec: the calls that record a cost, a percentage
    or the terminal rule; they check nothing. *)
Definition WithPerUnitInjectionCost (c : Qc) : M NetBuilder unit :=
  modify (fun '(mkBuilder a r _ ci wc cw il ivc t) => mkBuilder a r (Some c) ci wc cw il ivc t).
Definition WithFixedPercentCmdtyConsumedOnInject (p : Qc) : M NetBuilder unit :=
  modify (fun '(mkBuilder a r ic _ wc cw il ivc t) => mkBuilder a r ic (Some (Some p)) wc cw il ivc t).
Definition WithNoCmdtyConsumedOnInject : M NetBuilder unit :=
  modify (fun '(mkBuilder a r ic _ wc cw il ivc t) => mkBuilder a r ic (Some None) wc cw il ivc t).
Definition WithPerUnitWithdrawalCost (c : Qc) : M NetBuilder unit :=
  modify (fun '(mkBuilder a r ic ci _ cw il ivc t) => mkBuilder a r ic ci (Some c) cw il ivc t).
Definition WithFixedPercentCmdtyConsumedOnWithdraw (p : Qc) : M NetBuilder unit :=
  modify (fun '(mkBuilder a r ic ci wc _ il ivc t) => mkBuilder a r ic ci wc (Some (Some p)) il ivc t).
Definition WithNoCmdtyConsumedOnWithdraw : M NetBuilder unit :=
  modify (fun '(mkBuilder a r ic ci wc _ il ivc t) => mkBuilder a r ic ci wc (Some None) il ivc t).
Definition WithFixedPercentCmdtyInventoryLoss (p : Qc) : M NetBuilder unit :=
  modify (fun '(mkBuilder a r ic ci wc cw _ ivc t) => mkBuilder a r ic ci wc cw (Some (Some p)) ivc t).
Definition WithNoCmdtyInventoryLoss : M NetBuilder unit :=
  modify (fun '(mkBuilder a r ic ci wc cw _ ivc t) => mkBuilder a r ic ci wc cw (Some None) ivc t).
Definition WithFixedPerUnitCost (c : Qc) : M NetBuilder unit :=
  modify (fun '(mkBuilder a r ic ci wc cw il _ t) => mkBuilder a r ic ci wc cw il (Some (Some c)) t).
Definition WithNoCmdtyInventoryCost : M NetBuilder unit :=
  modify (fun '(mkBuilder a r ic ci wc cw il _ t) => mkBuilder a r ic ci wc cw il (Some None) t).
Definition MustBeEmptyAtEnd : M NetBuilder unit :=
  modify (fun '(mkBuilder a r ic ci wc cw il ivc _) => mkBuilder a r ic ci wc cw il ivc (Some MustBeEmpty)).
Definition WithTerminalInventoryNpv (f : Qc -> Qc -> Qc) : M NetBuilder unit :=
  modify (fun '(mkBuilder a r ic ci wc cw il ivc _) =>
            mkBuilder a r ic ci wc cw il ivc (Some (TerminalInventoryNpv f))).

(** Modelled from the spec: the storage object made of what the calls
    have recorded. *)
Definition Build : M NetBuilder NetCmdtyStorage :=
  fun b =>
    match b with
    | mkBuilder (Some (s, e)) (Some r) (Some ic) (Some ci) (Some wc) (Some cw)
        (Some il) (Some ivc) (Some t) =>
        (Ok (mkNetStorage s e r ic ci wc cw il ivc t), b)
    | _ => (Raise (DotNet (InvalidOperationException "the builder is incomplete")), b)
    end.
End Builder.

(** *** The remaining accessors

    The other read accessors of the engine's storage object are not
    described closely enough to be computed here; the wrapper is modelled
    over any implementation of them.  Each is a function of the storage
    object and its arguments, and may throw. *)
Record DomesticCashFlow := mkCashFlow { Date : TimePeriod; Amount : Qc }.

Record NetAccessors := mkNetAccessors {
  MinInventory : NetCmdtyStorage -> TimePeriod -> NetException + Qc;
  MaxInventory : NetCmdtyStorage -> TimePeriod -> NetException + Qc;
  InjectionCost :
    NetCmdtyStorage -> TimePeriod -> Qc -> Qc -> NetException + list DomesticCashFlow;
  CmdtyVolumeConsumedOnInject :
    NetCmdtyStorage -> TimePeriod -> Qc -> Qc -> NetException + Qc;
  WithdrawalCost :
    NetCmdtyStorage -> TimePeriod -> Qc -> Qc -> NetException + list DomesticCashFlow;
  CmdtyVolumeConsumedOnWithdraw :
    NetCmdtyStorage -> TimePeriod -> Qc -> Qc -> NetException + Qc;
  CmdtyInventoryPercentLoss : NetCmdtyStorage -> TimePeriod -> NetException + Qc;
  CmdtyInventoryCost :
    NetCmdtyStorage -> TimePeriod -> Qc -> NetException + list DomesticCashFlow }.

(** A .NET exception surfaces in Python as it is. *)
Definition of_net {A} (r : NetException + A) : result A :=
  match r with inl e => Raise (DotNet e) | inr a => Ok a end.

(** ** The wrapper class [CmdtyStorage] *)

(** The named tuples of the module. *)
Definition InjectWithdrawByInventory (inventory min_rate max_rate : Qc) : Qc * Qc * Qc :=
  (inventory, min_rate, max_rate).
Definition InjectWithdrawByInventoryAndPeriod (period : datetime_like)
    (rates_by_inventory : list (Qc * Qc * Qc)) : datetime_like * list (Qc * Qc * Qc) :=
  (period, rates_by_inventory).

Record InjectWithdrawRange := mkInjectWithdrawRange {
  min_inject_withdraw_rate : Qc;
  max_inject_withdraw_rate : Qc }.

Local Open Scope py_scope.

(** The inner loop of the constructor: one breakpoint of a ratchet. *)
Definition net_rate_by_inventory (row : Qc * Qc * Qc) : result InjectWithdrawRangeByInventory :=
  let '(inventory, min_rate, max_rate) := row in
  let? range := NetInjectWithdrawRange_new min_rate max_rate in
  Ok (mkByInventory inventory range).

(** The outer loop: one ratchet. *)
Definition net_constraint (time_period_type : PeriodType)
    (item : datetime_like * list (Qc * Qc * Qc))
    : result InjectWithdrawRangeByInventoryAndPeriod :=
  let '(period, rates_by_inventory) := item in
  let? net_period := _from_datetime_like period time_period_type in
  let? net_rates_by_inventory := mapR net_rate_by_inventory rates_by_inventory in
  Ok (mkByInventoryAndPeriod net_period net_rates_by_inventory).

Module CmdtyStorage.

(** The attributes of an instance. *)
Record t := mk {
  _net_storage : NetCmdtyStorage;
  _freq : string }.

Definition __init__ (freq : string) (storage_start storage_end : datetime_like)
    (constraints : list (datetime_like * list (Qc * Qc * Qc)))
    (injection_cost withdrawal_cost : Qc)
    (cmdty_consumed_inject cmdty_consumed_withdraw : option Qc)
    (terminal_storage_npv : option (Qc -> Qc -> Qc))
    (inventory_loss inventory_cost : option Qc) : result t :=
  match FREQ_TO_PERIOD_TYPE !! freq with
  | None => Raise (ValueError ("freq parameter value of '" ++ freq ++
      "' not supported. The allowable values can be found in the keys of the dict curves.FREQ_TO_PERIOD_TYPE.")%string)
  | Some time_period_type =>
      let? start_period := _from_datetime_like storage_start time_period_type in
      let? end_period := _from_datetime_like storage_end time_period_type in
      fst ((call Builder.WithActiveTimePeriod start_period end_period ;;
            net_constraints <- lift (mapR (net_constraint time_period_type) constraints) ;;
            call Builder.WithTimeAndInventoryVaryingInjectWithdrawRatesPiecewiseLinear
                   net_constraints ;;
            call Builder.WithPerUnitInjectionCost injection_cost ;;
            call match cmdty_consumed_inject with
                 | Some pcnt => Builder.WithFixedPercentCmdtyConsumedOnInject pcnt
                 | None => Builder.WithNoCmdtyConsumedOnInject
                 end ;;
            call Builder.WithPerUnitWithdrawalCost withdrawal_cost ;;
            call match cmdty_consumed_withdraw with
                 | Some pcnt => Builder.WithFixedPercentCmdtyConsumedOnWithdraw pcnt
                 | None => Builder.WithNoCmdtyConsumedOnWithdraw
                 end ;;
            call match inventory_loss with
                 | Some pcnt => Builder.WithFixedPercentCmdtyInventoryLoss pcnt
                 | None => Builder.WithNoCmdtyInventoryLoss
                 end ;;
            call match inventory_cost with
                 | Some cost => Builder.WithFixedPerUnitCost cost
                 | None => Builder.WithNoCmdtyInventoryCost
                 end ;;
            call match terminal_storage_npv with
                 | None => Builder.MustBeEmptyAtEnd
                 | Some f => Builder.WithTerminalInventoryNpv f
                 end ;;
            net_storage <- Builder.Build ;;
            ret (mk net_storage freq)) Builder.Builder)
  end.

(** Running a method on an instance: its result, and the instance after. *)
Definition eval {A} (m : M t A) (self : t) : result A := fst (m self).
Definition exec {A} (m : M t A) (self : t) : t := snd (m self).

Definition _net_time_period (period : datetime_like) : M t TimePeriod :=
  self <- get ;;
  match FREQ_TO_PERIOD_TYPE !! _freq self with
  | None => raise (KeyError (_freq self))
  | Some time_period_type => lift (_from_datetime_like period time_period_type)
  end.

Definition net_storage : M t NetCmdtyStorage :=
  self <- get ;; ret (_net_storage self).

Definition freq : M t string :=
  self <- get ;; ret (_freq self).

Definition must_be_empty_at_end : M t bool :=
  self <- get ;; ret (MustBeEmptyAtEnd (_net_storage self)).

Definition start_period : M t Period :=
  self <- get ;;
  lift (_net_time_period_to_pandas_period (StartPeriod (_net_storage self)) (_freq self)).

Definition end_period : M t Period :=
  self <- get ;;
  lift (_net_time_period_to_pandas_period (EndPeriod (_net_storage self)) (_freq self)).

Definition inject_withdraw_range (period : datetime_like) (inventory : Qc)
    : M t InjectWithdrawRange :=
  net_time_period <- _net_time_period period ;;
  self <- get ;;
  net_inject_withdraw <-
    lift (GetInjectWithdrawRange (_net_storage self) net_time_period inventory) ;;
  ret (mkInjectWithdrawRange (MinInjectWithdrawRate net_inject_withdraw)
         (MaxInjectWithdrawRate net_inject_withdraw)).

Definition terminal_storage_npv (cmdty_price terminal_inventory : Qc) : M t Qc :=
  self <- get ;;
  ret (TerminalStorageNpv (_net_storage self) cmdty_price terminal_inventory).

Section Accessors.
Variable net : NetAccessors.

(** [costs[0].Amount] if there is a cash flow, [0.0] otherwise. *)
Definition first_amount (costs : list DomesticCashFlow) : Qc :=
  match costs with
  | c :: _ => Amount c
  | [] => 0%Qc
  end.

Definition min_inventory (period : datetime_like) : M t Qc :=
  net_time_period <- _net_time_period period ;;
  self <- get ;;
  lift (of_net (MinInventory net (_net_storage self) net_time_period)).

Definition max_inventory (period : datetime_like) : M t Qc :=
  net_time_period <- _net_time_period period ;;
  self <- get ;;
  lift (of_net (MaxInventory net (_net_storage self) net_time_period)).

Definition injection_cost (period : datetime_like) (inventory injected_volume : Qc)
    : M t Qc :=
  net_time_period <- _net_time_period period ;;
  self <- get ;;
  net_inject_costs <-
    lift (of_net (InjectionCost net (_net_storage self) net_time_period
                    inventory injected_volume)) ;;
  ret (first_amount net_inject_costs).

Definition cmdty_consumed_inject (period : datetime_like) (inventory injected_volume : Qc)
    : M t Qc :=
  net_time_period <- _net_time_period period ;;
  self <- get ;;
  lift (of_net (CmdtyVolumeConsumedOnInject net (_net_storage self) net_time_period
                  inventory injected_volume)).

Definition withdrawal_cost (period : datetime_like) (inventory withdrawn_volume : Qc)
    : M t Qc :=
  net_time_period <- _net_time_period period ;;
  self <- get ;;
  net_withdrawal_costs <-
    lift (of_net (WithdrawalCost net (_net_storage self) net_time_period
                    inventory withdrawn_volume)) ;;
  ret (first_amount net_withdrawal_costs).

Definition cmdty_consumed_withdraw (period : datetime_like) (inventory withdrawn_volume : Qc)
    : M t Qc :=
  net_time_period <- _net_time_period period ;;
  self <- get ;;
  lift (of_net (CmdtyVolumeConsumedOnWithdraw net (_net_storage self) net_time_period
                  inventory withdrawn_volume)).

Definition inventory_pcnt_loss (period : datetime_like) : M t Qc :=
  net_time_period <- _net_time_period period ;;
  self <- get ;;
  lift (of_net (CmdtyInventoryPercentLoss net (_net_storage self) net_time_period)).

Definition inventory_cost (period : datetime_like) (inventory : Qc) : M t Qc :=
  net_time_period <- _net_time_period period ;;
  self <- get ;;
  net_inventory_cost <-
    lift (of_net (CmdtyInventoryCost net (_net_storage self) net_time_period inventory)) ;;
  ret (first_amount net_inventory_cost).

(** The public operations of an instance, and what they return. *)
Inductive operation :=
  | get_net_storage
  | get_freq
  | get_must_be_empty_at_end
  | get_start_period
  | get_end_period
  | call_inject_withdraw_range (period : datetime_like) (inventory : Qc)
  | call_min_inventory (period : datetime_like)
  | call_max_inventory (period : datetime_like)
  | call_injection_cost (period : datetime_like) (inventory injected_volume : Qc)
  | call_cmdty_consumed_inject (period : datetime_like) (inventory injected_volume : Qc)
  | call_withdrawal_cost (period : datetime_like) (inventory withdrawn_volume : Qc)
  | call_cmdty_consumed_withdraw (period : datetime_like) (inventory withdrawn_volume : Qc)
  | call_terminal_storage_npv (cmdty_price terminal_inventory : Qc)
  | call_inventory_pcnt_loss (period : datetime_like)
  | call_inventory_cost (period : datetime_like) (inventory : Qc).

Inductive value :=
  | v_net_storage (s : NetCmdtyStorage)
  | v_str (s : string)
  | v_bool (b : bool)
  | v_period (p : Period)
  | v_range (r : InjectWithdrawRange)
  | v_float (x : Qc).

Definition fmap {A B} (f : A -> B) (m : M t A) : M t B :=
  a <- m ;; ret (f a).

Definition perform (op : operation) : M t value :=
  match op with
  | get_net_storage => fmap v_net_storage net_storage
  | get_freq => fmap v_str freq
  | get_must_be_empty_at_end => fmap v_bool must_be_empty_at_end
  | get_start_period => fmap v_period start_period
  | get_end_period => fmap v_period end_period
  | call_inject_withdraw_range p i => fmap v_range (inject_withdraw_range p i)
  | call_min_inventory p => fmap v_float (min_inventory p)
  | call_max_inventory p => fmap v_float (max_inventory p)
  | call_injection_cost p i v => fmap v_float (injection_cost p i v)
  | call_cmdty_consumed_inject p i v => fmap v_float (cmdty_consumed_inject p i v)
  | call_withdrawal_cost p i v => fmap v_float (withdrawal_cost p i v)
  | call_cmdty_consumed_withdraw p i v => fmap v_float (cmdty_consumed_withdraw p i v)
  | call_terminal_storage_npv c i => fmap v_float (terminal_storage_npv c i)
  | call_inventory_pcnt_loss p => fmap v_float (inventory_pcnt_loss p)
  | call_inventory_cost p i => fmap v_float (inventory_cost p i)
  end.

(** A sequence of operations on one instance, an exception of one
    operation caught before the next; the instance after the last. *)
Fixpoint perform_all (ops : list operation) (self : t) : t :=
  match ops with
  | [] => self
  | op :: ops' => perform_all ops' (exec (perform op) self)
  end.
End Accessors.

End CmdtyStorage.

(** ** Series *)

(** [Cmdty.TimeSeries.TimeSeries]: values indexed by time periods. *)
Definition TimeSeries := list (TimePeriod * Qc).

(** A pandas Series over a PeriodIndex, with the frequency of the index:
    the [freq] that the index was built with. *)
Record Series := mkSeries {
  index_freq : string;
  items : list (Period * Qc) }.

Definition _series_to_time_series (series : Series) (time_period_type : PeriodType)
    : result TimeSeries :=
  mapR (fun '(idx, v) =>
          let? net_index := _from_datetime_like (a_period idx) time_period_type in
          Ok (net_index, v))
       (items series).

(** The period after [p], of the same frequency. *)
Definition next_day (y m d : Z) : Z * Z * Z :=
  if d <? days_in_month y m then (y, m, d + 1)
  else if m <? 12 then (y, m + 1, 1) else (y + 1, 1, 1).

Definition add_minutes (n : Z) (p : Period) : Period :=
  let 'mkPeriod f y m d h mi := p in
  if mi + n <? 60 then mkPeriod f y m d h (mi + n)
  else if h + 1 <? 24 then mkPeriod f y m d (h + 1) (mi + n - 60)
  else let '(y', m', d') := next_day y m d in mkPeriod f y' m' d' 0 (mi + n - 60).

Definition add_months (n : Z) (p : Period) : Period :=
  let 'mkPeriod f y m d h mi := p in
  if m + n <=? 12 then mkPeriod f y (m + n) d h mi
  else mkPeriod f (y + 1) (m + n - 12) d h mi.

Definition Period_next (p : Period) : Period :=
  let f := freq p in
  if String.eqb f "15min" then add_minutes 15 p
  else if String.eqb f "30min" then add_minutes 30 p
  else if String.eqb f "H" then add_minutes 60 p
  else if String.eqb f "D" then
    let '(y, m, d) := next_day (start_year p) (start_month p) (start_day p) in
    mkPeriod f y m d 0 0
  else if String.eqb f "M" then add_months 1 p
  else add_months 3 p.

Fixpoint periods_from (p : Period) (periods : nat) : list Period :=
  match periods with
  | O => []
  | S n => p :: periods_from (Period_next p) n
  end.

(** [pd.period_range(start=dt, freq=freq, periods=n)]. *)
Definition pd_period_range (start : datetime.t) (freq : string) (periods : nat)
    : result (list Period) :=
  let? first := pd_Period start freq in
  Ok (periods_from first periods).

Definition _net_time_series_to_pandas_series (net_time_series : TimeSeries) (freq : string)
    : result Series :=
  match net_time_series with
  | [] => Raise (DotNet (ArgumentOutOfRangeException "Index was out of range."))
  | (first, _) :: _ =>
      let curve_start := Start first in
      let? curve_start_datetime := _net_datetime_to_py_datetime curve_start in
      let? index := pd_period_range curve_start_datetime freq (length net_time_series) in
      let prices := map snd net_time_series in
      Ok (mkSeries freq (zip index prices))
  end.

(** ** Intrinsic valuation *)

Record IntrinsicValuationResults := mkIntrinsicValuationResults {
  npv : Qc;
  decision_profile : Series;
  cmdty_consumed : Series }.

(** A Python value held in a field of a result. *)
Inductive field_value :=
  | scalar (x : Qc)
  | series (s : Series).

(** The result as the tuple it is: [namedtuple('IntrinsicValuationResults',
    'npv, decision_profile, cmdty_consumed')]. *)
Definition IntrinsicValuationResults_asdict (r : IntrinsicValuationResults)
    : list (string * field_value) :=
  [ ("npv", scalar (npv r));
    ("decision_profile", series (decision_profile r));
    ("cmdty_consumed", series (cmdty_consumed r)) ].

(** What the engine's intrinsic calculation returns. *)
Record NetValResults := mkNetValResults {
  NetPresentValue : Qc;
  DecisionProfile : TimeSeries;
  CmdtyVolumeConsumed : TimeSeries }.

(** The calls the valuation makes on the engine's calculation object. *)
Inductive NetCall :=
  | ForStorage (s : NetCmdtyStorage)
  | WithStartingInventory (inventory : Qc)
  | ForCurrentPeriod (p : TimePeriod)
  | WithForwardCurve (c : TimeSeries)
  | WithCmdtySettlementRule (f : TimePeriod -> result TimePeriod)
  | WithAct365ContinuouslyCompoundedInterestRate (f : TimePeriod -> result Qc)
  | WithFixedNumberOfPointsOnGlobalInventoryRange (n : Z)
  | WithLinearInventorySpaceInterpolation
  | WithNumericalTolerance (tol : Qc)
  | Calculate.

(** [interest_rates[p]]: the value at an index, [KeyError] without one. *)
Fixpoint Series_getitem (l : list (Period * Qc)) (p : Period) : result Qc :=
  match l with
  | [] => Raise (KeyError "period")
  | (q, v) :: l' => if decide (q = p) then Ok v else Series_getitem l' p
  end.

Section IntrinsicValue.
(** The engine: the calculation object records the calls made on it;
    [accepts] is the engine's own check of a call, given the calls
    before, and [calculate] the valuation proper. *)
Variable accepts : list NetCall -> NetCall -> option NetException.
Variable calculate : list NetCall -> NetException + NetValResults.

(** [index.freqstr]: the name under which pandas reports the frequency of
    an index.  It is not always the name that the index was built with:
    a quarterly index built with [freq='Q'] reports ['Q-DEC'], and the
    names of other frequencies have changed between versions of pandas.
    The naming is a parameter. *)
Variable freqstr : string -> string.

Definition net_call (c : NetCall) : M (list NetCall) unit :=
  fun calls =>
    match accepts calls c with
    | Some e => (Raise (DotNet e), calls ++ [c])
    | None => (Ok tt, calls ++ [c])
    end.

Definition net_calculate : M (list NetCall) NetValResults :=
  fun calls => (of_net (calculate calls), calls ++ [Calculate]).

Definition frequency_mismatch : string :=
  "cmdty_storage and forward_curve have different frequencies.".

Definition intrinsic_value (cmdty_storage : CmdtyStorage.t) (val_date : datetime_like)
    (inventory : Qc) (forward_curve : Series)
    (settlement_rule : TimePeriod -> result TimePeriod) (interest_rates : Series)
    (num_inventory_grid_points : Z) (numerical_tolerance : Qc)
    : M (list NetCall) IntrinsicValuationResults :=
  storage_freq <- lift (CmdtyStorage.eval CmdtyStorage.freq cmdty_storage) ;;
  if negb (String.eqb storage_freq (freqstr (index_freq forward_curve)))
  then raise (ValueError frequency_mismatch)
  else
    match FREQ_TO_PERIOD_TYPE !! storage_freq with
    | None => raise (KeyError storage_freq)
    | Some time_period_type =>
        net_storage <- lift (CmdtyStorage.eval CmdtyStorage.net_storage cmdty_storage) ;;
        call net_call (ForStorage net_storage) ;;
        call net_call (WithStartingInventory inventory) ;;
        current_period <- lift (_from_datetime_like val_date time_period_type) ;;
        call net_call (ForCurrentPeriod current_period) ;;
        net_forward_curve <- lift (_series_to_time_series forward_curve time_period_type) ;;
        call net_call (WithForwardCurve net_forward_curve) ;;
        call net_call (WithCmdtySettlementRule settlement_rule) ;;
        let interest_rate_func := fun cashFlowDate =>
          let? p := _net_time_period_to_pandas_period cashFlowDate "D" in
          Series_getitem (items interest_rates) p in
        call net_call (WithAct365ContinuouslyCompoundedInterestRate interest_rate_func) ;;
        call net_call (WithFixedNumberOfPointsOnGlobalInventoryRange
                         num_inventory_grid_points) ;;
        call net_call WithLinearInventorySpaceInterpolation ;;
        call net_call (WithNumericalTolerance numerical_tolerance) ;;
        net_val_results <- net_calculate ;;
        decision_profile <-
          lift (_net_time_series_to_pandas_series (DecisionProfile net_val_results)
                  storage_freq) ;;
        cmdty_consumed <-
          lift (_net_time_series_to_pandas_series (CmdtyVolumeConsumed net_val_results)
                  storage_freq) ;;
        ret (mkIntrinsicValuationResults (NetPresentValue net_val_results)
               decision_profile cmdty_consumed)
    end.
End IntrinsicValue.


(** ** Vocabulary of the properties *)

(** The terminal rule that the constructor selects. *)
Definition terminal_rule (terminal_storage_npv : option (Qc -> Qc -> Qc)) : TerminalRule :=
  match terminal_storage_npv with
  | None => MustBeEmpty
  | Some f => TerminalInventoryNpv f
  end.

(** Marshalling a period to the engine and back. *)
Definition marshal_roundtrip (p : Period) (time_period_type : PeriodType) : result Period :=
  let? n := _from_datetime_like (a_period p) time_period_type in
  _net_time_period_to_pandas_period n (freq p).

(** A period of a supported frequency: a calendar instant, cut to the
    resolution of the frequency. *)
Definition Period_valid (p : Period) : bool :=
  let 'mkPeriod f y m d h mi := p in
  (1 <=? m) && (m <=? 12) && (1 <=? d) && (d <=? days_in_month y m) &&
  (0 <=? h) && (h <? 24) && (0 <=? mi) && (mi <? 60) &&
  (if String.eqb f "15min" || String.eqb f "30min" then true
   else if String.eqb f "H" then (mi =? 0)
   else if String.eqb f "D" then (h =? 0) && (mi =? 0)
   else if String.eqb f "M" then (d =? 1) && (h =? 0) && (mi =? 0)
   else if String.eqb f "Q" then ((m - 1) mod 3 =? 0) && (d =? 1) && (h =? 0) && (mi =? 0)
   else false).

(** The years a [DateTime] can hold. *)
Definition representable (p : Period) : bool :=
  (1 <=? start_year p) && (start_year p <=? 9999).

(** A period that starts on a boundary of the engine's period type: a
    quarter-hour on a multiple of 15 minutes, a half-hour on a multiple
    of 30. *)
Definition aligned (p : Period) : bool :=
  if String.eqb (freq p) "15min" then start_minute p mod 15 =? 0
  else if String.eqb (freq p) "30min" then start_minute p mod 30 =? 0
  else true.

(** The breakpoints of some ratchet are out of order. *)
Definition breakpoints_unsorted (constraints : list (datetime_like * list (Qc * Qc * Qc)))
    : Prop :=
  exists period front a b back,
    (period, front ++ a :: b :: back) ∈ constraints /\ (b.1.1 < a.1.1)%Qc.

(** Some breakpoint has its minimum rate above its maximum rate. *)
Definition min_exceeds_max (constraints : list (datetime_like * list (Qc * Qc * Qc)))
    : Prop :=
  exists period rates inventory min_rate max_rate,
    (period, rates) ∈ constraints /\ (inventory, min_rate, max_rate) ∈ rates /\
    (max_rate < min_rate)%Qc.

(** The start period is not before the end period, at the granularity of
    the storage. *)
Definition start_not_before_end (freq : string) (storage_start storage_end : datetime_like)
    : Prop :=
  exists ty sp ep,
    FREQ_TO_PERIOD_TYPE !! freq = Some ty /\
    _from_datetime_like storage_start ty = Ok sp /\
    _from_datetime_like storage_end ty = Ok ep /\
    CompareTo sp ep <> Lt.

(** The shape of a result: how many scalars and how many series. *)
Definition is_scalar (v : field_value) : bool :=
  match v with scalar _ => true | series _ => false end.
Definition count_scalars (fields : list (string * field_value)) : nat :=
  length (List.filter (fun kv => is_scalar kv.2) fields).
Definition count_series (fields : list (string * field_value)) : nat :=
  length (List.filter (fun kv => negb (is_scalar kv.2)) fields).

(** A pandas series that carries an engine series: it starts at the period
    of the first index of the engine series, runs over as many consecutive
    periods as the engine series has entries, and holds its values in
    order. *)
Definition carries (f : string) (net_series : TimeSeries) (s : Series) : Prop :=
  exists first_index first,
    map fst net_series !! 0%nat = Some first_index /\
    _net_time_period_to_pandas_period first_index f = Ok first /\
    map fst (items s) = periods_from first (length net_series) /\
    map snd (items s) = map snd net_series.

(** A computation that leaves the object as it found it. *)
Definition read_only {S A} (m : M S A) : Prop := forall s, snd (m s) = s.

(** An exception other than the frequency mismatch. *)
Definition other_error (e : exn) : Prop := e <> ValueError frequency_mismatch.

(** The ratchet in force at a period, in the words of the spec: "a
    ratchet's rates remain in force for every subsequent period until
    superseded by the next chronological ratchet".  Of the constraints
    given to the constructor it is the one that starts at or before the
    period, and after every other one that does. *)
Definition in_force (time_period_type : PeriodType)
    (constraints : list (datetime_like * list (Qc * Qc * Qc))) (np : TimePeriod)
    (ratchet : datetime_like * list (Qc * Qc * Qc)) : Prop :=
  exists front back start,
    constraints = front ++ ratchet :: back /\
    _from_datetime_like ratchet.1 time_period_type = Ok start /\
    not_after start np = true /\
    forall other start',
      other ∈ front ++ back ->
      _from_datetime_like other.1 time_period_type = Ok start' ->
      not_after start' np = true -> CompareTo start' start = Lt.

(** The breakpoint of the engine that the constructor makes of a row
    [(inventory, min_rate, max_rate)]. *)
Definition breakpoint_of_row (row : Qc * Qc * Qc) : InjectWithdrawRangeByInventory :=
  mkByInventory row.1.1 (mkNetRange row.1.2 row.2).

(** A series at the granularity [f]: a series over a [PeriodIndex] of
    frequency [f]. *)
Definition at_frequency (f : string) (s : Series) : Prop :=
  index_freq s = f /\ Forall (fun item => freq item.1 = f) (items s).

(** Modelled from the spec: "TimePeriod: interval at fixed granularity;
    total order with a successor operation".  The successor of a period
    of the engine, whose type is not in the sources: the next quarter of
    an hour, half-hour, hour, day, month or quarter. *)
Definition DateTime_add_minutes (n : Z) (dt : DateTime.t) : DateTime.t :=
  let 'DateTime.mk y m d h mi s ms := dt in
  if mi + n <? 60 then DateTime.mk y m d h (mi + n) s ms
  else if h + 1 <? 24 then DateTime.mk y m d (h + 1) (mi + n - 60) s ms
  else let '(y', m', d') := next_day y m d in DateTime.mk y' m' d' 0 (mi + n - 60) s ms.

(** Modelled from the spec: the same successor, by months. *)
Definition DateTime_add_months (n : Z) (dt : DateTime.t) : DateTime.t :=
  let 'DateTime.mk y m d h mi s ms := dt in
  if m + n <=? 12 then DateTime.mk y (m + n) d h mi s ms
  else DateTime.mk (y + 1) (m + n - 12) d h mi s ms.

(** Modelled from the spec: the "successor operation" of a period, by the
    length of a period of its type. *)
Definition TimePeriod_next (p : TimePeriod) : TimePeriod :=
  let 'mkTimePeriod ty dt := p in
  mkTimePeriod ty
    match ty with
    | QuarterHour => DateTime_add_minutes 15 dt
    | HalfHour => DateTime_add_minutes 30 dt
    | Hour => DateTime_add_minutes 60 dt
    | Day =>
        let '(y, m, d) :=
          next_day (DateTime.Year dt) (DateTime.Month dt) (DateTime.Day dt) in
        DateTime.mk y m d 0 0 (DateTime.Second dt) (DateTime.Millisecond dt)
    | Month => DateTime_add_months 1 dt
    | Quarter => DateTime_add_months 3 dt
    end.

(** Modelled from the spec: so many consecutive periods, from [p] on. *)
Fixpoint time_periods_from (p : TimePeriod) (periods : nat) : list TimePeriod :=
  match periods with
  | O => []
  | S n => p :: time_periods_from (TimePeriod_next p) n
  end.

(** Modelled from the spec: the series of a valuation result are
    "period-indexed series spanning exactly the storage's active range";
    the valuation that makes them is not in the sources.  The index of
    such a series runs over the consecutive periods from the start period
    of the storage to its end period. *)
Definition spans_active_range (s : NetCmdtyStorage) (net_series : TimeSeries) : Prop :=
  exists n,
    map fst net_series = time_periods_from (StartPeriod s) (S n) /\
    last (map fst net_series) = Some (EndPeriod s).

(** The same of the index of a pandas series: consecutive periods from
    [first] to [final]. *)
Definition spans_periods (first final : Period) (index : list Period) : Prop :=
  exists n, index = periods_from first (S n) /\ last index = Some final.

(** The pandas period of frequency [f] that starts where a period of the
    engine starts. *)
Definition Period_of (f : string) (p : TimePeriod) : Period :=
  mkPeriod f (DateTime.Year (Start p)) (DateTime.Month (Start p)) (DateTime.Day (Start p))
    (DateTime.Hour (Start p)) (DateTime.Minute (Start p)).

(** ** The test case of the repository ([test_initializer]) *)

Module TestCmdtyStorage.
Definition constraints : list (datetime_like * list (Qc * Qc * Qc)) :=
  [ InjectWithdrawByInventoryAndPeriod (a_date 2019 8 28)
      [ InjectWithdrawByInventory 0 (dec (-150) 1) (dec 2552 10);
        InjectWithdrawByInventory (dec 2000 1) (dec (-200) 1) (dec 175 1) ] ].

Definition constant_injection_cost : Qc := dec 15 1000.
Definition constant_pcnt_consumed_inject : Qc := dec 1 10000.
Definition constant_withdrawal_cost : Qc := dec 2 100.
Definition constant_pcnt_consumed_withdraw : Qc := dec 88 1000000.

Definition construct : result CmdtyStorage.t :=
  CmdtyStorage.__init__ "D" (a_date 2019 8 28) (a_date 2019 9 25) constraints
    constant_injection_cost constant_withdrawal_cost
    (Some constant_pcnt_consumed_inject) (Some constant_pcnt_consumed_withdraw)
    None None None.

(** The object that the constructor yields. *)
Definition storage : CmdtyStorage.t :=
  CmdtyStorage.mk
    (mkNetStorage
       (mkTimePeriod Day (DateTime.mk 2019 8 28 0 0 0 0))
       (mkTimePeriod Day (DateTime.mk 2019 9 25 0 0 0 0))
       [ mkByInventoryAndPeriod (mkTimePeriod Day (DateTime.mk 2019 8 28 0 0 0 0))
           [ mkByInventory 0 (mkNetRange (dec (-150) 1) (dec 2552 10));
             mkByInventory (dec 2000 1) (mkNetRange (dec (-200) 1) (dec 175 1)) ] ]
       constant_injection_cost (Some constant_pcnt_consumed_inject)
       constant_withdrawal_cost (Some constant_pcnt_consumed_withdraw)
       None None MustBeEmpty)
    "D".
End TestCmdtyStorage.

(** ** A sample valuation *)

Module Sample.
(** The names under which pandas reports the frequencies of the examples,
    ['D'], ['M'] and ['Q']: the first two as they are, the third as
    ['Q-DEC']. *)
Definition freqstr (freq : string) : string :=
  if String.eqb freq "Q" then "Q-DEC" else freq.

(** An engine that accepts every call and returns a two-day profile. *)
Definition accepts (calls : list NetCall) (c : NetCall) : option NetException := None.

Definition profile : TimeSeries :=
  [ (mkTimePeriod Day (DateTime.mk 2019 8 28 0 0 0 0), dec 5 1);
    (mkTimePeriod Day (DateTime.mk 2019 8 29 0 0 0 0), dec (-5) 1) ].

Definition calculate (calls : list NetCall) : NetException + NetValResults :=
  inr (mkNetValResults (dec 12 1) profile profile).

Definition daily_curve : Series :=
  mkSeries "D" [ (mkPeriod "D" 2019 8 28 0 0, dec 50 1); (mkPeriod "D" 2019 8 29 0 0, dec 51 1) ].

Definition monthly_curve : Series :=
  mkSeries "M" [ (mkPeriod "M" 2019 8 1 0 0, dec 50 1) ].

Definition settlement_rule (p : TimePeriod) : result TimePeriod := Ok p.

Definition interest_rates : Series :=
  mkSeries "D" [ (mkPeriod "D" 2019 8 28 0 0, dec 5 1000); (mkPeriod "D" 2019 8 29 0 0, dec 5 1000) ].

Definition valuation (forward_curve : Series) (num_inventory_grid_points : Z)
    : result IntrinsicValuationResults * list NetCall :=
  intrinsic_value accepts calculate freqstr TestCmdtyStorage.storage (a_date 2019 8 28) 0
    forward_curve settlement_rule interest_rates num_inventory_grid_points
    (dec 1 1000000000000) [].
(** What the valuation of the daily curve returns. *)
Definition results : IntrinsicValuationResults :=
  mkIntrinsicValuationResults (dec 12 1)
    (mkSeries "D" [ (mkPeriod "D" 2019 8 28 0 0, dec 5 1);
                    (mkPeriod "D" 2019 8 29 0 0, dec (-5) 1) ])
    (mkSeries "D" [ (mkPeriod "D" 2019 8 28 0 0, dec 5 1);
                    (mkPeriod "D" 2019 8 29 0 0, dec (-5) 1) ]).
End Sample.

(** ** A storage with two ratchets *)

Module TwoRatchets.
Definition constraints : list (datetime_like * list (Qc * Qc * Qc)) :=
  [ InjectWithdrawByInventoryAndPeriod (a_date 2019 8 28)
      [ InjectWithdrawByInventory 0 (dec (-150) 1) (dec 2552 10);
        InjectWithdrawByInventory (dec 2000 1) (dec (-200) 1) (dec 175 1) ];
    InjectWithdrawByInventoryAndPeriod (a_date 2019 9 10)
      [ InjectWithdrawByInventory 0 (dec (-130) 1) (dec 260 1);
        InjectWithdrawByInventory (dec 1000 1) (dec (-170) 1) (dec 210 1);
        InjectWithdrawByInventory (dec 2000 1) (dec (-190) 1) (dec 180 1) ] ].

(** The object that the constructor yields for these constraints, daily
    from 2019-08-28 to 2019-09-25. *)
Definition storage : CmdtyStorage.t :=
  CmdtyStorage.mk
    (mkNetStorage
       (mkTimePeriod Day (DateTime.mk 2019 8 28 0 0 0 0))
       (mkTimePeriod Day (DateTime.mk 2019 9 25 0 0 0 0))
       [ mkByInventoryAndPeriod (mkTimePeriod Day (DateTime.mk 2019 8 28 0 0 0 0))
           [ mkByInventory 0 (mkNetRange (dec (-150) 1) (dec 2552 10));
             mkByInventory (dec 2000 1) (mkNetRange (dec (-200) 1) (dec 175 1)) ];
         mkByInventoryAndPeriod (mkTimePeriod Day (DateTime.mk 2019 9 10 0 0 0 0))
           [ mkByInventory 0 (mkNetRange (dec (-130) 1) (dec 260 1));
             mkByInventory (dec 1000 1) (mkNetRange (dec (-170) 1) (dec 210 1));
             mkByInventory (dec 2000 1) (mkNetRange (dec (-190) 1) (dec 180 1)) ] ]
       (dec 15 1000) None (dec 2 100) None None None MustBeEmpty)
    "D".
End TwoRatchets.

(** ** A quarterly storage and a quarterly curve *)

Module Quarterly.
(** The object that the constructor yields at [freq='Q'] from 2019-07-01
    to 2020-07-01. *)
Definition storage : CmdtyStorage.t :=
  CmdtyStorage.mk
    (mkNetStorage
       (mkTimePeriod Quarter (DateTime.mk 2019 7 1 0 0 0 0))
       (mkTimePeriod Quarter (DateTime.mk 2020 7 1 0 0 0 0))
       [ mkByInventoryAndPeriod (mkTimePeriod Quarter (DateTime.mk 2019 7 1 0 0 0 0))
           [ mkByInventory 0 (mkNetRange (dec (-150) 1) (dec 2552 10));
             mkByInventory (dec 2000 1) (mkNetRange (dec (-200) 1) (dec 175 1)) ] ]
       (dec 15 1000) None (dec 2 100) None None None MustBeEmpty)
    "Q".

(** A curve over [pd.period_range('2019Q3', periods=2, freq='Q')]. *)
Definition curve : Series :=
  mkSeries "Q"
    [ (mkPeriod "Q" 2019 7 1 0 0, dec 50 1); (mkPeriod "Q" 2019 10 1 0 0, dec 51 1) ].
End Quarterly.

(** ** A valuation over three days *)

Module ThreeDays.
(** The object that the constructor yields, daily from 2019-08-28 to
    2019-08-30. *)
Definition storage : CmdtyStorage.t :=
  CmdtyStorage.mk
    (mkNetStorage
       (mkTimePeriod Day (DateTime.mk 2019 8 28 0 0 0 0))
       (mkTimePeriod Day (DateTime.mk 2019 8 30 0 0 0 0))
       [ mkByInventoryAndPeriod (mkTimePeriod Day (DateTime.mk 2019 8 28 0 0 0 0))
           [ mkByInventory 0 (mkNetRange (dec (-150) 1) (dec 2552 10));
             mkByInventory (dec 2000 1) (mkNetRange (dec (-200) 1) (dec 175 1)) ] ]
       (dec 15 1000) None (dec 2 100) None None None MustBeEmpty)
    "D".

Definition day (d : Z) : TimePeriod := mkTimePeriod Day (DateTime.mk 2019 8 d 0 0 0 0).

(** An engine whose result runs over the three days of the storage. *)
Definition calculate (calls : list NetCall) : NetException + NetValResults :=
  inr (mkNetValResults (dec 12 1)
         [ (day 28, dec 5 1); (day 29, 0%Qc); (day 30, dec (-5) 1) ]
         [ (day 28, dec 1 100); (day 29, 0%Qc); (day 30, dec 2 100) ]).

Definition curve : Series :=
  mkSeries "D"
    [ (mkPeriod "D" 2019 8 28 0 0, dec 50 1); (mkPeriod "D" 2019 8 29 0 0, dec 51 1);
      (mkPeriod "D" 2019 8 30 0 0, dec 52 1) ].

Definition valuation : result IntrinsicValuationResults * list NetCall :=
  intrinsic_value Sample.accepts calculate Sample.freqstr storage (a_date 2019 8 28) 0 curve
    Sample.settlement_rule Sample.interest_rates 100 (dec 1 1000000000000) [].

(** What the valuation returns. *)
Definition results : IntrinsicValuationResults :=
  mkIntrinsicValuationResults (dec 12 1)
    (mkSeries "D" [ (mkPeriod "D" 2019 8 28 0 0, dec 5 1);
                    (mkPeriod "D" 2019 8 29 0 0, 0%Qc);
                    (mkPeriod "D" 2019 8 30 0 0, dec (-5) 1) ])
    (mkSeries "D" [ (mkPeriod "D" 2019 8 28 0 0, dec 1 100);
                    (mkPeriod "D" 2019 8 29 0 0, 0%Qc);
                    (mkPeriod "D" 2019 8 30 0 0, dec 2 100) ]).
End ThreeDays.

(** ** Vocabulary of the further properties *)

(** The period argument of an operation, where it takes one. *)
Definition operation_period (op : CmdtyStorage.operation) : option datetime_like :=
  match op with
  | CmdtyStorage.call_inject_withdraw_range p _
  | CmdtyStorage.call_min_inventory p
  | CmdtyStorage.call_max_inventory p
  | CmdtyStorage.call_injection_cost p _ _
  | CmdtyStorage.call_cmdty_consumed_inject p _ _
  | CmdtyStorage.call_withdrawal_cost p _ _
  | CmdtyStorage.call_cmdty_consumed_withdraw p _ _
  | CmdtyStorage.call_inventory_pcnt_loss p
  | CmdtyStorage.call_inventory_cost p _ => Some p
  | _ => None
  end.

(** The fields of a time of day are in range. *)
Definition time_in_range (h mi s : Z) : bool :=
  (0 <=? h) && (h <? 24) && (0 <=? mi) && (mi <? 60) && (0 <=? s) && (s <? 60).

(** The interest-rate function that [intrinsic_value] hands to the
    engine: the rate at the day of the cash flow. *)
Definition interest_rate_func (interest_rates : Series) (cashFlowDate : TimePeriod)
    : result Qc :=
  let? p := _net_time_period_to_pandas_period cashFlowDate "D" in
  Series_getitem (items interest_rates) p.

(** An engine for the examples: no injection cost cash flow, two
    withdrawal cost cash flows. *)
Module SampleEngine.
Definition day (y m d : Z) : TimePeriod := mkTimePeriod Day (DateTime.mk y m d 0 0 0 0).

Definition net : NetAccessors :=
  mkNetAccessors
    (fun _ _ => inr 0%Qc)
    (fun _ _ => inr (dec 2000 1))
    (fun _ _ _ _ => inr [])
    (fun _ _ _ v => inr v)
    (fun _ p _ v => inr [mkCashFlow p (dec 2 100 * v)%Qc; mkCashFlow p (dec 1 100 * v)%Qc])
    (fun _ _ _ v => inr v)
    (fun _ _ => inr 0%Qc)
    (fun _ _ _ => inl (ArgumentException "inventory"))%string.
End SampleEngine.

(** ** The sample notebook ([samples/python/storage_gui.py])

    The helpers of the notebook that read the ratchet sheet and give the
    settlement date.  A cell of a sheet holds [''] ([None] here) or what
    was entered: in a numeric cell a number, in a date cell a text in the
    format of the sheet, [YYYY-MM-DD], kept here as its three numbers: a
    year, a month from 01 to 12 and a day from 01 to 31, which need not be
    a date of the calendar (2019-02-30). *)

Module storage_gui.

Definition num_ratch_rows : nat := 20.

(** A row of [ratch_input_sheet], by column.  The headers of the columns
    are 'date', 'inventory', 'inject_rate', 'withdraw_rate'. *)
Record sheet_row := mk_row {
  column0 : option (Z * Z * Z);
  column1 : option Qc;
  column2 : option Qc;
  column3 : option Qc }.

(** [ratch_input_sheet[row, column]] for the rows of the sheet. *)
Definition Sheet := nat -> sheet_row.

Definition blank_row : sheet_row := mk_row None None None None.

(** The sheet whose first rows are [rows], the others blank. *)
Definition sheet_of (rows : list sheet_row) : Sheet :=
  fun i => default blank_row (rows !! i).

Record RatchetRow := mkRatchetRow {
  date : option (Z * Z * Z);
  inventory : option Qc;
  inject_rate : option Qc;
  withdraw_rate : option Qc }.

(** The generator [enumerate_ratchets], as the list of what it yields.
    [remaining] is [num_ratch_rows - ratchet_row]. *)
Fixpoint enumerate_ratchets_from (ratch_input_sheet : Sheet) (remaining ratchet_row : nat)
    : list RatchetRow :=
  match remaining with
  | O => []
  | S remaining' =>
      match column1 (ratch_input_sheet ratchet_row) with
      | None => []
      | Some _ =>
          mkRatchetRow (column0 (ratch_input_sheet ratchet_row))
                       (column1 (ratch_input_sheet ratchet_row))
                       (column3 (ratch_input_sheet ratchet_row))
                       (column2 (ratch_input_sheet ratchet_row))
          :: enumerate_ratchets_from ratch_input_sheet remaining' (S ratchet_row)
      end
  end.

Definition enumerate_ratchets (ratch_input_sheet : Sheet) : list RatchetRow :=
  enumerate_ratchets_from ratch_input_sheet num_ratch_rows 0.

(** The exceptions of the helpers. *)
Inductive gui_exn :=
  | UnboundLocalError (name : string)
  | TypeError (msg : string)
  | DateParseError (msg : string).

(** The three numbers are those of a text in the format of the sheet. *)
Definition in_format (ymd : Z * Z * Z) : bool :=
  let '(y, m, d) := ymd in
  (1 <=? y) && (y <=? 9999) && (1 <=? m) && (m <=? 12) && (1 <=? d) && (d <=? 31).

(** The text of a date cell is a date of the calendar. *)
Definition is_date (ymd : Z * Z * Z) : bool :=
  let '(y, m, d) := ymd in DateTime.in_range y m d 0 0 0.

(** [pd.Period(ratch.date, freq=freq)] with the [freq = 'D'] of the
    notebook, for a text in the format of the sheet: the day that the
    text names; pandas raises [DateParseError] when the text names no
    day, its day being out of range for its month. *)
Definition parse_period (ymd : Z * Z * Z) : gui_exn + Period :=
  let '(y, m, d) := ymd in
  if is_date ymd then inr (mkPeriod "D" y m d 0 0)
  else inl (DateParseError "day is out of range for month").

(** A breakpoint as [read_ratchets] writes it:
    [(ratch.inventory, -ratch.inject_rate, ratch.withdraw_rate)]. *)
Definition breakpoint : Type := option Qc * Qc * option Qc.

(** The list objects: [read_ratchets] appends to a list that a tuple
    already in [ratchets] refers to. *)
Record store := mkStore {
  lists : gmap nat (list breakpoint);
  next : nat }.

(** A tuple [(period, list)], the list by reference. *)
Definition item : Type := Period * nat.

(** The unary minus fails on the [''] of a blank cell. *)
Definition new_breakpoint (ratch : RatchetRow) : gui_exn + breakpoint :=
  match inject_rate ratch with
  | None => inl (TypeError "bad operand type for unary -: 'str'")
  | Some x => inr (inventory ratch, (- x)%Qc, withdraw_rate ratch)
  end.

(** The body of the loop of [read_ratchets]; the state is the store, the
    list [ratchets] and the variable [dt_item], unbound at first.  In the
    tuple of a dated row the period is evaluated before the breakpoint. *)
Definition read_ratchets_step (st : store * list item * option item) (ratch : RatchetRow)
    : gui_exn + (store * list item * option item) :=
  let '(h, ratchets, dt_item) := st in
  match date ratch with
  | Some ymd =>
      match parse_period ymd with
      | inl e => inl e
      | inr period =>
          match new_breakpoint ratch with
          | inl e => inl e
          | inr bp =>
              let l := next h in
              let dt_item := (period, l) in
              inr (mkStore (<[l := [bp]]> (lists h)) (S l), ratchets ++ [dt_item],
                   Some dt_item)
          end
      end
  | None =>
      match dt_item with
      | None => inl (UnboundLocalError "dt_item")
      | Some (p, l) =>
          match new_breakpoint ratch with
          | inl e => inl e
          | inr bp =>
              inr (mkStore (alter (fun x => x ++ [bp]) l (lists h)) (next h),
                   ratchets, dt_item)
          end
      end
  end.

Fixpoint read_ratchets_loop (st : store * list item * option item)
    (rows : list RatchetRow) : gui_exn + (store * list item * option item) :=
  match rows with
  | [] => inr st
  | ratch :: rows' =>
      match read_ratchets_step st ratch with
      | inl e => inl e
      | inr st' => read_ratchets_loop st' rows'
      end
  end.

(** [read_ratchets]: the returned list, with the store its tuples refer
    to. *)
Definition read_ratchets (ratch_input_sheet : Sheet) : gui_exn + (store * list item) :=
  match read_ratchets_loop (mkStore ∅ 0, [], None) (enumerate_ratchets ratch_input_sheet) with
  | inl e => inl e
  | inr (h, ratchets, _) => inr (h, ratchets)
  end.

(** The returned list as values: each period with the content of its
    list. *)
Definition contents (h : store) (ratchets : list item)
    : list (Period * list breakpoint) :=
  map (fun it : item => (it.1, default [] (lists h !! it.2))) ratchets.

(** The breakpoint that a row gives. *)
Definition breakpoint_of (bp : breakpoint) (ratch : RatchetRow) : Prop :=
  bp.1.1 = inventory ratch /\ inject_rate ratch = Some (- bp.1.2)%Qc /\
  bp.2 = withdraw_rate ratch.

(** The rows of one ratchet: a row with the date of the ratchet, then
    rows without a date, and a breakpoint for each. *)
Definition group_of (c : Period * list breakpoint) (g : list RatchetRow) : Prop :=
  match g with
  | [] => False
  | ratch :: rest =>
      (exists y m d, date ratch = Some (y, m, d) /\ c.1 = mkPeriod "D" y m d 0 0) /\
      Forall (fun r => date r = None) rest /\
      Forall2 breakpoint_of c.2 g
  end.

(** The rows are cut into groups, one for each ratchet, in order. *)
Definition grouped (cs : list (Period * list breakpoint)) (rows : list RatchetRow) : Prop :=
  exists groups, concat groups = rows /\ Forall2 group_of cs groups.

(** The date cell of a row is blank or holds a text in the format of the
    sheet. *)
Definition date_in_format (ratch : RatchetRow) : Prop :=
  match date ratch with
  | Some ymd => in_format ymd = true
  | None => True
  end.

(** A row that the loop can read: its date cell is blank or names a day,
    and the cell that is negated holds a number. *)
Definition row_readable (ratch : RatchetRow) : Prop :=
  inject_rate ratch <> None /\
  match date ratch with
  | Some ymd => is_date ymd = true
  | None => True
  end.

(** What the loop of [read_ratchets] keeps: the lists are numbered in the
    order of [ratchets], [dt_item] is the last tuple of [ratchets], and
    the lists hold the rows read so far, grouped. *)
Definition read_ratchets_invariant (st : store * list item * option item)
    (done : list RatchetRow) : Prop :=
  let '(h, ratchets, dt_item) := st in
  map snd ratchets = seq 0 (next h) /\
  dt_item = last ratchets /\
  grouped (contents h ratchets) done.

(** [pd.Period.asfreq('M')]: the month in which the period ends, which
    for a period of a day or less is the month it is in. *)
Definition asfreq_M (p : Period) : Period :=
  mkPeriod "M" (Period_year p) (Period_month p) 1 0 0.

(** [asfreq('D', 'end')] of a monthly period: its last day. *)
Definition asfreq_D_end (p : Period) : Period :=
  mkPeriod "D" (start_year p) (start_month p)
    (days_in_month (start_year p) (start_month p)) 0 0.

(** [p + n] for a period and a count. *)
Fixpoint Period_add (p : Period) (n : nat) : Period :=
  match n with
  | O => p
  | S n' => Period_add (Period_next p) n'
  end.

Definition twentieth_of_next_month (period : Period) : Period :=
  Period_add (asfreq_D_end (asfreq_M period)) 20.

(** The ratchet rows that [test_data_btn] fills in, with a start date. *)
Definition test_rows : list sheet_row :=
  [ mk_row (Some (2019, 8, 28)) (Some 0%Qc) (Some (dec 650 1)) (Some (dec 7027 10));
    mk_row None (Some (dec 25000 1)) (Some (dec 5525 10)) (Some (dec 785 1));
    mk_row None (Some (dec 50000 1)) (Some (dec 5128 10)) (Some (dec 7906 10));
    mk_row None (Some (dec 60000 1)) (Some (dec 4986 10)) (Some (dec 8256 10));
    mk_row None (Some (dec 65000 1)) (Some (dec 480 1)) (Some (dec 8504 10));
    mk_row (Some (2020, 1, 25)) (Some 0%Qc) (Some (dec 6458 10)) (Some (dec 7525 10));
    mk_row None (Some (dec 24000 1)) (Some (dec 59365 100)) (Some (dec 8137 10));
    mk_row None (Some (dec 48000 1)) (Some (dec 56855 100)) (Some (dec 83645 100));
    mk_row None (Some (dec 61000 1)) (Some (dec 5608 10)) (Some (dec 85478 100));
    mk_row None (Some (dec 65000 1)) (Some (dec 550 1)) (Some (dec 8729 10)) ].
End storage_gui.

(** * Properties *)

(** ** Comparisons and linear interpolation *)

Lemma Qcleb_le (x y : Qc) : Qcleb x y = true <-> (x <= y)%Qc.
Proof.
  unfold Qcleb. rewrite Qcle_alt.
  destruct (x ?= y)%Qc; split; intros H; try discriminate; try reflexivity; congruence.
Qed.

Lemma Qcltb_lt (x y : Qc) : Qcltb x y = true <-> (x < y)%Qc.
Proof.
  unfold Qcltb. rewrite Qclt_alt.
  destruct (x ?= y)%Qc; split; intros H; try discriminate; try reflexivity.
Qed.

Lemma Qcleb_gt (x y : Qc) : (y < x)%Qc -> Qcleb x y = false.
Proof.
  intros H. destruct (Qcleb x y) eqn:E; [|reflexivity].
  apply Qcleb_le in E. exfalso. eapply Qclt_not_le; eauto.
Qed.

Lemma Qcleb_false (x y : Qc) : Qcleb x y = false -> (y < x)%Qc.
Proof.
  intros H. apply Qcnot_le_lt. intros Hle. apply Qcleb_le in Hle. congruence.
Qed.

(** At the upper end of a bracket the weights are 0 and 1. *)
Lemma lerp_right (x0 y0 x1 y1 : Qc) : (x0 < x1)%Qc -> lerp x0 y0 x1 y1 x1 = y1.
Proof.
  intros H. unfold lerp. cbv zeta.
  assert (x1 - x0 <> 0)%Qc as Hne.
  { intros E. apply Qclt_not_eq in H. apply H.
    symmetry. rewrite <- (Qcplus_0_l x0), <- E. ring. }
  unfold Qcdiv. rewrite (Qcmult_inv_r _ Hne). ring.
Qed.

(** The weighted mean is the point on the line through the two
    breakpoints. *)
Lemma lerp_line (x0 y0 x1 y1 x : Qc) :
  (x0 < x1)%Qc ->
  lerp x0 y0 x1 y1 x = (y0 + (x - x0) * ((y1 - y0) / (x1 - x0)))%Qc.
Proof.
  intros H. unfold lerp. cbv zeta.
  assert (x1 - x0 <> 0)%Qc as Hne.
  { intros E. apply Qclt_not_eq in H. apply H.
    symmetry. rewrite <- (Qcplus_0_l x0), <- E. ring. }
  field. exact Hne.
Qed.

Section InterpolationFacts.
Variable value : NetInjectWithdrawRange -> Qc.

Lemma ascending_from_elem x0 l b :
  ascending_from x0 l = true -> b ∈ l -> (x0 <= Inventory b)%Qc.
Proof.
  revert x0. induction l as [|a l IH]; intros x0 H Hin.
  - by apply elem_of_nil in Hin.
  - simpl in H. apply andb_prop in H as [H1 H2]. apply Qcleb_le in H1.
    apply elem_of_cons in Hin as [-> | Hin]; [exact H1|].
    eapply Qcle_trans; [exact H1 | by apply IH].
Qed.

Lemma ascending_from_app_r x0 front b back :
  ascending_from x0 (front ++ b :: back) = true ->
  ascending_from (Inventory b) back = true.
Proof.
  revert x0. induction front as [|f front IH]; intros x0 H; simpl in H.
  - by apply andb_prop in H as [_ H].
  - apply andb_prop in H as [_ H]. by eapply IH.
Qed.

(** Below the lowest breakpoint: its value. *)
Lemma interpolate_below b0 rest x :
  (x <= Inventory b0)%Qc ->
  interpolate value (b0 :: rest) x = Some (value (Rates b0)).
Proof. intros H. simpl. apply Qcleb_le in H. by rewrite H. Qed.

Lemma interpolate_from_node b0 rest b :
  (Inventory b0 < Inventory b)%Qc ->
  ascending_from (Inventory b0) rest = true -> b ∈ rest ->
  (forall b', b' ∈ rest -> Inventory b' = Inventory b -> Rates b' = Rates b) ->
  interpolate_from value b0 rest (Inventory b) = value (Rates b).
Proof.
  revert b0. induction rest as [|b1 rest IH]; intros b0 Hlt Hasc Hin Hone.
  - by apply elem_of_nil in Hin.
  - simpl in Hasc |- *. apply andb_prop in Hasc as [_ Hasc].
    destruct (Qcleb (Inventory b) (Inventory b1)) eqn:E.
    + apply Qcleb_le in E.
      assert (Inventory b1 <= Inventory b)%Qc as E'.
      { apply elem_of_cons in Hin as [-> | Hin]; [apply Qcle_refl|].
        by eapply ascending_from_elem. }
      pose proof (Qcle_antisym _ _ E' E) as Heq.
      rewrite <- (Hone b1 (list_elem_of_here _ _) Heq), <- Heq.
      apply lerp_right. by rewrite Heq.
    + apply Qcleb_false in E.
      apply elem_of_cons in Hin as [-> | Hin]; [by apply Qclt_not_eq in E|].
      apply IH; [exact E | exact Hasc | exact Hin |].
      intros b' Hb'. apply Hone. by right.
Qed.

(** At an inventory that has a breakpoint: the value stored there. *)
Lemma interpolate_node l b :
  ascending l = true -> b ∈ l ->
  (forall b', b' ∈ l -> Inventory b' = Inventory b -> Rates b' = Rates b) ->
  interpolate value l (Inventory b) = Some (value (Rates b)).
Proof.
  intros Hasc Hin Hone. destruct l as [|b0 rest]; [by apply elem_of_nil in Hin|].
  simpl in Hasc |- *. f_equal.
  destruct (Qcleb (Inventory b) (Inventory b0)) eqn:E.
  - apply Qcleb_le in E.
    assert (Inventory b0 <= Inventory b)%Qc as E'.
    { apply elem_of_cons in Hin as [-> | Hin]; [apply Qcle_refl|].
      by eapply ascending_from_elem. }
    by rewrite (Hone b0 (list_elem_of_here _ _) (Qcle_antisym _ _ E' E)).
  - apply Qcleb_false in E.
    apply elem_of_cons in Hin as [-> | Hin]; [by apply Qclt_not_eq in E|].
    apply interpolate_from_node; [exact E | exact Hasc | exact Hin |].
    intros b' Hb'. apply Hone. by right.
Qed.

Lemma interpolate_from_above f0 front hi x :
  ascending_from (Inventory f0) (front ++ [hi]) = true ->
  (Inventory hi < x)%Qc ->
  interpolate_from value f0 (front ++ [hi]) x = value (Rates hi).
Proof.
  revert f0. induction front as [|f1 front IH]; intros f0 H Hx.
  - simpl. by rewrite (Qcleb_gt _ _ Hx).
  - simpl in H |- *. apply andb_prop in H as [_ H].
    rewrite Qcleb_gt; [by apply IH|].
    eapply Qcle_lt_trans; [|exact Hx].
    eapply ascending_from_elem; [exact H|]. apply elem_of_app. right. by left.
Qed.

(** Above the highest breakpoint: its value. *)
Lemma interpolate_above front hi x :
  ascending (front ++ [hi]) = true ->
  (Inventory hi < x)%Qc ->
  interpolate value (front ++ [hi]) x = Some (value (Rates hi)).
Proof.
  intros Hasc Hx. destruct front as [|f0 front]; simpl in *.
  - by rewrite (Qcleb_gt _ _ Hx).
  - rewrite Qcleb_gt.
    + f_equal. by apply interpolate_from_above.
    + eapply Qcle_lt_trans; [|exact Hx].
      eapply ascending_from_elem; [exact Hasc|]. apply elem_of_app. right. by left.
Qed.

Lemma interpolate_from_between f0 front b0 b1 back x :
  ascending_from (Inventory f0) (front ++ b0 :: b1 :: back) = true ->
  (Inventory b0 < x)%Qc -> (x < Inventory b1)%Qc ->
  interpolate_from value f0 (front ++ b0 :: b1 :: back) x =
  lerp (Inventory b0) (value (Rates b0)) (Inventory b1) (value (Rates b1)) x.
Proof.
  revert f0. induction front as [|f1 front IH]; intros f0 H H0 H1.
  - simpl in *. rewrite (Qcleb_gt _ _ H0).
    assert (Qcleb x (Inventory b1) = true) as ->
      by (apply Qcleb_le, Qclt_le_weak, H1).
    reflexivity.
  - simpl in *. apply andb_prop in H as [_ H].
    rewrite Qcleb_gt; [by apply IH|].
    eapply Qcle_lt_trans; [|exact H0].
    eapply ascending_from_elem; [exact H|]. apply elem_of_app. right. by left.
Qed.

(** Strictly between two neighbouring breakpoints: the point on the line
    through them. *)
Lemma interpolate_between front b0 b1 back x :
  ascending (front ++ b0 :: b1 :: back) = true ->
  (Inventory b0 < x)%Qc -> (x < Inventory b1)%Qc ->
  interpolate value (front ++ b0 :: b1 :: back) x =
  Some (lerp (Inventory b0) (value (Rates b0)) (Inventory b1) (value (Rates b1)) x).
Proof.
  intros Hasc H0 H1. destruct front as [|f0 front]; simpl in *.
  - rewrite (Qcleb_gt _ _ H0).
    assert (Qcleb x (Inventory b1) = true) as ->
      by (apply Qcleb_le, Qclt_le_weak, H1).
    reflexivity.
  - rewrite Qcleb_gt.
    + f_equal. by apply interpolate_from_between.
    + eapply Qcle_lt_trans; [|exact H0].
      eapply ascending_from_elem; [exact Hasc|]. apply elem_of_app. right. by left.
Qed.
End InterpolationFacts.

Lemma interpolate_from_at b0 rest x :
  (Inventory b0 < x)%Qc -> ascending_from (Inventory b0) rest = true ->
  (exists b, b ∈ rest /\ Inventory b = x) ->
  exists b, b ∈ rest /\ Inventory b = x /\
    forall value, interpolate_from value b0 rest x = value (Rates b).
Proof.
  revert b0. induction rest as [|b1 rest IH]; intros b0 Hlt Hasc (b & Hin & Hb).
  - by apply elem_of_nil in Hin.
  - simpl in Hasc. apply andb_prop in Hasc as [_ Hasc].
    destruct (Qcleb x (Inventory b1)) eqn:E.
    + assert (Inventory b1 <= x)%Qc as E'.
      { subst x. apply elem_of_cons in Hin as [-> | Hin]; [apply Qcle_refl|].
        by eapply ascending_from_elem. }
      pose proof (Qcle_antisym _ _ E' (proj1 (Qcleb_le _ _) E)) as Heq.
      exists b1. split; [by left|]. split; [exact Heq|].
      intros value. simpl. rewrite E, <- Heq. apply lerp_right. by rewrite Heq.
    + destruct (IH b1 (Qcleb_false _ _ E) Hasc) as (b' & Hin' & Hb' & Hval).
      { exists b. split; [|exact Hb].
        apply elem_of_cons in Hin as [-> | Hin]; [|exact Hin].
        apply Qcleb_false in E. subst x. by apply Qclt_not_eq in E. }
      exists b'. split; [by right|]. split; [exact Hb'|].
      intros value. simpl. rewrite E. apply Hval.
Qed.

(** At an inventory that has a breakpoint, each lookup gives the value
    stored at a breakpoint with that inventory, the same for every
    lookup. *)
Lemma interpolate_at l x :
  ascending l = true -> (exists b, b ∈ l /\ Inventory b = x) ->
  exists b, b ∈ l /\ Inventory b = x /\
    forall value, interpolate value l x = Some (value (Rates b)).
Proof.
  intros Hasc (b & Hin & Hb). destruct l as [|b0 rest]; [by apply elem_of_nil in Hin|].
  simpl in Hasc. destruct (Qcleb x (Inventory b0)) eqn:E.
  - assert (Inventory b0 <= x)%Qc as E'.
    { subst x. apply elem_of_cons in Hin as [-> | Hin]; [apply Qcle_refl|].
      by eapply ascending_from_elem. }
    exists b0. split; [by left|].
    split; [exact (Qcle_antisym _ _ E' (proj1 (Qcleb_le _ _) E))|].
    intros value. simpl. by rewrite E.
  - destruct (interpolate_from_at b0 rest x (Qcleb_false _ _ E) Hasc)
      as (b' & Hin' & Hb' & Hval).
    { exists b. split; [|exact Hb].
      apply elem_of_cons in Hin as [-> | Hin]; [|exact Hin].
      apply Qcleb_false in E. subst x. by apply Qclt_not_eq in E. }
    exists b'. split; [by right|]. split; [exact Hb'|].
    intros value. simpl. rewrite E. by rewrite Hval.
Qed.

(** ** What a successful construction yields *)

Lemma init_Ok freq storage_start storage_end constraints injection_cost withdrawal_cost
    cmdty_consumed_inject cmdty_consumed_withdraw terminal_storage_npv
    inventory_loss inventory_cost self :
  CmdtyStorage.__init__ freq storage_start storage_end constraints injection_cost
    withdrawal_cost cmdty_consumed_inject cmdty_consumed_withdraw terminal_storage_npv
    inventory_loss inventory_cost = Ok self ->
  exists ty sp ep rs,
    FREQ_TO_PERIOD_TYPE !! freq = Some ty /\
    _from_datetime_like storage_start ty = Ok sp /\
    _from_datetime_like storage_end ty = Ok ep /\
    CompareTo sp ep = Lt /\
    mapR (net_constraint ty) constraints = Ok rs /\
    forallb (fun r => ascending (InjectWithdrawRanges r)) rs = true /\
    self = CmdtyStorage.mk
             (mkNetStorage sp ep rs injection_cost cmdty_consumed_inject withdrawal_cost
                cmdty_consumed_withdraw inventory_loss inventory_cost
                (terminal_rule terminal_storage_npv)) freq.
Proof.
  unfold CmdtyStorage.__init__.
  destruct (FREQ_TO_PERIOD_TYPE !! freq) as [ty|] eqn:Hty; [|discriminate].
  destruct (_from_datetime_like storage_start ty) as [sp|] eqn:Hsp; [|discriminate].
  destruct (_from_datetime_like storage_end ty) as [ep|] eqn:Hep; [|discriminate].
  cbn [rbind]. unfold bind at 1, Builder.WithActiveTimePeriod.
  destruct (CompareTo sp ep) eqn:Hcmp; try discriminate.
  unfold bind at 1, lift.
  destruct (mapR (net_constraint ty) constraints) as [rs|] eqn:Hrs; [|discriminate].
  unfold Builder.modify at 1. unfold bind at 1.
  unfold Builder.WithTimeAndInventoryVaryingInjectWithdrawRatesPiecewiseLinear.
  destruct (forallb _ rs) eqn:Hasc; [|discriminate].
  intros H. exists ty, sp, ep, rs. do 6 (split; [first [reflexivity | assumption]|]).
  destruct cmdty_consumed_inject, cmdty_consumed_withdraw, terminal_storage_npv,
    inventory_loss, inventory_cost; simpl in H; inversion H; reflexivity.
Qed.

(** The converse: what the constructor needs to succeed. *)
Lemma init_intro freq storage_start storage_end constraints injection_cost withdrawal_cost
    cmdty_consumed_inject cmdty_consumed_withdraw terminal_storage_npv
    inventory_loss inventory_cost ty sp ep rs :
  FREQ_TO_PERIOD_TYPE !! freq = Some ty ->
  _from_datetime_like storage_start ty = Ok sp ->
  _from_datetime_like storage_end ty = Ok ep ->
  CompareTo sp ep = Lt ->
  mapR (net_constraint ty) constraints = Ok rs ->
  forallb (fun r => ascending (InjectWithdrawRanges r)) rs = true ->
  CmdtyStorage.__init__ freq storage_start storage_end constraints injection_cost
    withdrawal_cost cmdty_consumed_inject cmdty_consumed_withdraw terminal_storage_npv
    inventory_loss inventory_cost
  = Ok (CmdtyStorage.mk
          (mkNetStorage sp ep rs injection_cost cmdty_consumed_inject withdrawal_cost
             cmdty_consumed_withdraw inventory_loss inventory_cost
             (terminal_rule terminal_storage_npv)) freq).
Proof.
  intros Hty Hsp Hep Hcmp Hrs Hasc.
  unfold CmdtyStorage.__init__. rewrite Hty, Hsp, Hep.
  cbn [rbind]. unfold bind at 1, Builder.WithActiveTimePeriod. rewrite Hcmp.
  unfold bind at 1, lift. rewrite Hrs.
  unfold Builder.modify at 1. unfold bind at 1.
  unfold Builder.WithTimeAndInventoryVaryingInjectWithdrawRatesPiecewiseLinear.
  rewrite Hasc.
  destruct cmdty_consumed_inject, cmdty_consumed_withdraw, terminal_storage_npv,
    inventory_loss, inventory_cost; reflexivity.
Qed.

Lemma mapR_elem_of {A B} (f : A -> result B) l l' x :
  mapR f l = Ok l' -> x ∈ l -> exists y, f x = Ok y /\ y ∈ l'.
Proof.
  revert l'. induction l as [|a l IH]; intros l' H Hin.
  - by apply elem_of_nil in Hin.
  - simpl in H. destruct (f a) as [b|] eqn:Hfa; [|discriminate].
    destruct (mapR f l) as [bs|] eqn:Hl; [|discriminate].
    inversion H; subst l'. apply elem_of_cons in Hin as [->|Hin].
    + exists b. split; [done | by left].
    + destruct (IH bs eq_refl Hin) as (y & Hy & Hin'). exists y. split; [done | by right].
Qed.

Lemma mapR_elem_of_inv {A B} (f : A -> result B) l l' y :
  mapR f l = Ok l' -> y ∈ l' -> exists x, x ∈ l /\ f x = Ok y.
Proof.
  revert l'. induction l as [|a l IH]; intros l' H Hin; simpl in H.
  - inversion H; subst l'. by apply elem_of_nil in Hin.
  - destruct (f a) as [b|] eqn:Hfa; [|discriminate].
    destruct (mapR f l) as [bs|] eqn:Hl; [|discriminate].
    inversion H; subst l'. apply elem_of_cons in Hin as [->|Hin].
    + exists a. split; [by left | done].
    + destruct (IH bs eq_refl Hin) as (x & Hx & Hfx). exists x. split; [by right | done].
Qed.

Lemma mapR_app_inv {A B} (f : A -> result B) l1 l2 l' :
  mapR f (l1 ++ l2) = Ok l' ->
  exists l1' l2', l' = l1' ++ l2' /\ mapR f l1 = Ok l1' /\ mapR f l2 = Ok l2'.
Proof.
  revert l'. induction l1 as [|a l1 IH]; intros l' H; simpl in H.
  - exists [], l'. by repeat split.
  - destruct (f a) as [b|] eqn:Hfa; [|discriminate].
    destruct (mapR f (l1 ++ l2)) as [bs|] eqn:Hl; [|discriminate].
    inversion H; subst l'. destruct (IH bs eq_refl) as (l1' & l2' & -> & H1 & H2).
    exists (b :: l1'), l2'. simpl. rewrite Hfa, H1. by repeat split.
Qed.

(** The constructor keeps the rows of a ratchet as they are. *)
Lemma net_rates_by_inventory_Ok rates bs :
  mapR net_rate_by_inventory rates = Ok bs -> bs = map breakpoint_of_row rates.
Proof.
  revert bs. induction rates as [|[[i lo] hi] rates IH]; intros bs H; simpl in H.
  - by inversion H.
  - unfold NetInjectWithdrawRange_new in H.
    destruct (Qcltb hi lo); [discriminate|]. simpl in H.
    destruct (mapR net_rate_by_inventory rates) as [bs'|]; [|discriminate].
    inversion H; subst bs. by rewrite (IH bs' eq_refl).
Qed.

Lemma net_constraint_inv ty period rates r :
  net_constraint ty (period, rates) = Ok r ->
  _from_datetime_like period ty = Ok (RatchetPeriod r) /\
  InjectWithdrawRanges r = map breakpoint_of_row rates.
Proof.
  unfold net_constraint.
  destruct (_from_datetime_like period ty) as [np|]; [|discriminate]. simpl.
  destruct (mapR net_rate_by_inventory rates) as [nrs|] eqn:Hrates; [|discriminate].
  simpl. intros H. inversion H; subst r. simpl.
  split; [reflexivity | by apply net_rates_by_inventory_Ok].
Qed.

(** ** The ratchet in force *)

Lemma lex_opp c1 c2 : DateTime.lex (CompOpp c1) (CompOpp c2) = CompOpp (DateTime.lex c1 c2).
Proof. by destruct c1. Qed.

Lemma CompareTo_antisym a b : CompareTo b a = CompOpp (CompareTo a b).
Proof.
  unfold CompareTo, DateTime.compare.
  rewrite !(Z.compare_antisym (_ (Start a)) (_ (Start b))).
  by rewrite !lex_opp.
Qed.

Lemma not_after_Lt a b : CompareTo a b = Lt -> not_after a b = true /\ not_after b a = false.
Proof.
  intros H. unfold not_after. rewrite (CompareTo_antisym a b), H. by split.
Qed.

(** A ratchet stays the candidate while the ratchets that follow in the
    list and have started all started before it. *)
Lemma effective_ratchet_from_kept r l p :
  Forall (fun r' => not_after (RatchetPeriod r') p = true ->
                    CompareTo (RatchetPeriod r') (RatchetPeriod r) = Lt) l ->
  effective_ratchet_from (Some r) l p = Some r.
Proof.
  induction 1 as [|r' l Hr' _ IH]; simpl; [reflexivity|].
  destruct (not_after (RatchetPeriod r') p); [|exact IH].
  destruct (not_after_Lt _ _ (Hr' eq_refl)) as [_ ->]. exact IH.
Qed.

Lemma effective_ratchet_from_latest best front r back p :
  not_after (RatchetPeriod r) p = true ->
  (forall b, best = Some b -> CompareTo (RatchetPeriod b) (RatchetPeriod r) = Lt) ->
  Forall (fun r' => not_after (RatchetPeriod r') p = true ->
                    CompareTo (RatchetPeriod r') (RatchetPeriod r) = Lt) (front ++ back) ->
  effective_ratchet_from best (front ++ r :: back) p = Some r.
Proof.
  intros Hr Hbest Hall. apply Forall_app in Hall as [Hfront Hback].
  revert best Hbest. induction Hfront as [|r0 front Hr0 _ IH]; intros best Hbest; simpl.
  - rewrite Hr. destruct best as [b|]; [|by apply effective_ratchet_from_kept].
    destruct (not_after_Lt _ _ (Hbest b eq_refl)) as [-> _].
    by apply effective_ratchet_from_kept.
  - destruct (not_after (RatchetPeriod r0) p); [|by apply IH].
    assert (forall b, Some r0 = Some b ->
                      CompareTo (RatchetPeriod b) (RatchetPeriod r) = Lt) as H0
      by (intros b E; inversion E; subst b; by apply Hr0).
    destruct best as [b|]; [|by apply IH].
    destruct (not_after (RatchetPeriod b) (RatchetPeriod r0)); by apply IH.
Qed.

(** The ratchet that the engine looks the rates up in is the one made of
    the constraint in force. *)
Lemma in_force_effective ty constraints rs np period rates :
  mapR (net_constraint ty) constraints = Ok rs ->
  in_force ty constraints np (period, rates) ->
  exists r,
    effective_ratchet rs np = Some r /\
    InjectWithdrawRanges r = map breakpoint_of_row rates.
Proof.
  intros Hrs (front & back & start & -> & Hstart & Hna & Hothers).
  apply mapR_app_inv in Hrs as (rsf & rs2 & -> & Hfront & H2). cbn [mapR] in H2.
  destruct (net_constraint ty (period, rates)) as [r|] eqn:Hr; [|discriminate].
  destruct (mapR (net_constraint ty) back) as [rsb|] eqn:Hback; [|discriminate].
  inversion H2; subst rs2; clear H2.
  apply net_constraint_inv in Hr as [Hperiod Hrates].
  simpl in Hstart. rewrite Hstart in Hperiod. inversion Hperiod as [Es].
  exists r. split; [|exact Hrates].
  apply effective_ratchet_from_latest; [by rewrite <- Es | discriminate |].
  apply Forall_forall. intros r' Hin Hna'.
  assert (exists c, c ∈ front ++ back /\ net_constraint ty c = Ok r') as ([p' rates'] & Hc & Hr').
  { apply elem_of_app in Hin as [Hin|Hin].
    - destruct (mapR_elem_of_inv _ _ _ _ Hfront Hin) as (c & Hc & Hfc).
      exists c. split; [apply elem_of_app; by left | done].
    - destruct (mapR_elem_of_inv _ _ _ _ Hback Hin) as (c & Hc & Hfc).
      exists c. split; [apply elem_of_app; by right | done]. }
  apply net_constraint_inv in Hr' as [Hp' _].
  rewrite <- Es. by eapply Hothers.
Qed.

(** Every ratchet of a constructed storage has ascending breakpoints. *)
Lemma init_ascending freq storage_start storage_end constraints injection_cost
    withdrawal_cost cmdty_consumed_inject cmdty_consumed_withdraw terminal_storage_npv
    inventory_loss inventory_cost self r :
  CmdtyStorage.__init__ freq storage_start storage_end constraints injection_cost
    withdrawal_cost cmdty_consumed_inject cmdty_consumed_withdraw terminal_storage_npv
    inventory_loss inventory_cost = Ok self ->
  r ∈ Ratchets (CmdtyStorage._net_storage self) ->
  ascending (InjectWithdrawRanges r) = true.
Proof.
  intros H Hin. apply init_Ok in H as (ty & sp & ep & rs & _ & _ & _ & _ & _ & Hasc & ->).
  simpl in Hin. rewrite forallb_forall in Hasc. apply Hasc.
  by apply list_elem_of_In.
Qed.

Lemma effective_ratchet_from_elem_of best l p r :
  effective_ratchet_from best l p = Some r -> best = Some r \/ r ∈ l.
Proof.
  revert best. induction l as [|r0 l IH]; intros best H; simpl in H.
  - by left.
  - assert (forall b, effective_ratchet_from b l p = Some r ->
                      b = best \/ b = Some r0 -> best = Some r \/ r ∈ r0 :: l) as Hstep.
    { intros b Hb [->| ->].
      - destruct (IH _ Hb); [by left | right; by right].
      - destruct (IH _ Hb) as [E|E]; [inversion E; right; by left | right; by right]. }
    destruct (not_after (RatchetPeriod r0) p).
    + destruct best as [b|].
      * destruct (not_after (RatchetPeriod b) (RatchetPeriod r0));
          eapply Hstep; eauto.
      * eapply Hstep; eauto.
    + eapply Hstep; eauto.
Qed.

Lemma effective_ratchet_elem_of l p r :
  effective_ratchet l p = Some r -> r ∈ l.
Proof.
  intros H. apply effective_ratchet_from_elem_of in H as [H|H]; [discriminate | done].
Qed.

Lemma net_time_period_Ok self period time_period_type np :
  FREQ_TO_PERIOD_TYPE !! CmdtyStorage._freq self = Some time_period_type ->
  _from_datetime_like period time_period_type = Ok np ->
  CmdtyStorage._net_time_period period self = (Ok np, self).
Proof.
  intros Hty Hp. unfold CmdtyStorage._net_time_period, bind, get, lift.
  by rewrite Hty, Hp.
Qed.

(** The lookup of the wrapper, once the period is marshalled. *)
Lemma inject_withdraw_range_eval self period inventory time_period_type np :
  FREQ_TO_PERIOD_TYPE !! CmdtyStorage._freq self = Some time_period_type ->
  _from_datetime_like period time_period_type = Ok np ->
  CmdtyStorage.eval (CmdtyStorage.inject_withdraw_range period inventory) self =
  (let? r := GetInjectWithdrawRange (CmdtyStorage._net_storage self) np inventory in
   Ok (mkInjectWithdrawRange (MinInjectWithdrawRate r) (MaxInjectWithdrawRate r))).
Proof.
  intros Hty Hp.
  unfold CmdtyStorage.eval, CmdtyStorage.inject_withdraw_range.
  unfold bind at 1. rewrite (net_time_period_Ok _ _ _ _ Hty Hp).
  unfold bind, get, lift, ret.
  destruct (GetInjectWithdrawRange _ np inventory); reflexivity.
Qed.

(** ** The test case *)

Example test_construct : TestCmdtyStorage.construct = Ok TestCmdtyStorage.storage.
Proof. reflexivity. Qed.

Example test_properties :
  CmdtyStorage.eval CmdtyStorage.must_be_empty_at_end TestCmdtyStorage.storage = Ok true /\
  CmdtyStorage.eval CmdtyStorage.freq TestCmdtyStorage.storage = Ok "D" /\
  CmdtyStorage.eval CmdtyStorage.start_period TestCmdtyStorage.storage
    = Ok (mkPeriod "D" 2019 8 28 0 0) /\
  CmdtyStorage.eval CmdtyStorage.end_period TestCmdtyStorage.storage
    = Ok (mkPeriod "D" 2019 9 25 0 0).
Proof. repeat split; reflexivity. Qed.

Lemma range_eq (r : result InjectWithdrawRange) (lo hi : Qc) :
  match r with
  | Ok x => Qc_eq_bool (min_inject_withdraw_rate x) lo &&
            Qc_eq_bool (max_inject_withdraw_rate x) hi
  | Raise _ => false
  end = true ->
  r = Ok (mkInjectWithdrawRange lo hi).
Proof.
  destruct r as [[a b]|]; [|discriminate]. simpl. intros H.
  apply andb_prop in H as [Ha Hb].
  by rewrite (Qc_eq_bool_correct _ _ Ha), (Qc_eq_bool_correct _ _ Hb).
Qed.

(** C1.  The storage of the test, daily from 2019-08-28 to 2019-09-25 with
    the breakpoints (0: -150, 255.2) and (2000: -200, 175) in force from
    2019-08-28, is constructed, and at period 2019-08-29 and inventory
    1000 [inject_withdraw_range] returns the minimum rate -175 and the
    maximum rate (255.2 + 175) / 2, which is 215.1. *)
Theorem test_initializer_inject_withdraw_range :
  (let? storage := TestCmdtyStorage.construct in
   CmdtyStorage.eval
     (CmdtyStorage.inject_withdraw_range (a_date 2019 8 29) (dec 1000 1)) storage)
  = Ok (mkInjectWithdrawRange (dec (-175) 1) ((dec 2552 10 + dec 175 1) / dec 2 1)%Qc) /\
  ((dec 2552 10 + dec 175 1) / dec 2 1)%Qc = dec 2151 10.
Proof.
  split.
  - apply range_eq. vm_compute. reflexivity.
  - apply Qc_is_canon. vm_compute. reflexivity.
Qed.

(** ** A constructed storage *)

Example two_ratchets_construct :
  CmdtyStorage.__init__ "D" (a_date 2019 8 28) (a_date 2019 9 25) TwoRatchets.constraints
    (dec 15 1000) (dec 2 100) None None None None None
  = Ok TwoRatchets.storage.
Proof. reflexivity. Qed.

(** The two ratchets answer differently at one inventory: the period
    decides. *)
Example two_ratchets_lookup :
  CmdtyStorage.eval
    (CmdtyStorage.inject_withdraw_range (a_date 2019 9 9) (dec 2000 1)) TwoRatchets.storage
  = Ok (mkInjectWithdrawRange (dec (-200) 1) (dec 175 1)) /\
  CmdtyStorage.eval
    (CmdtyStorage.inject_withdraw_range (a_date 2019 9 10) (dec 2000 1)) TwoRatchets.storage
  = Ok (mkInjectWithdrawRange (dec (-190) 1) (dec 180 1)).
Proof. split; reflexivity. Qed.

Section Constructed.
Variables (freq : string) (storage_start storage_end : datetime_like).
Variable constraints : list (datetime_like * list (Qc * Qc * Qc)).
Variables (injection_cost withdrawal_cost : Qc).
Variables (cmdty_consumed_inject cmdty_consumed_withdraw : option Qc).
Variable terminal_storage_npv : option (Qc -> Qc -> Qc).
Variables (inventory_loss inventory_cost : option Qc).
Variable self : CmdtyStorage.t.

Hypothesis constructed :
  CmdtyStorage.__init__ freq storage_start storage_end constraints injection_cost
    withdrawal_cost cmdty_consumed_inject cmdty_consumed_withdraw terminal_storage_npv
    inventory_loss inventory_cost = Ok self.

(** C6.  The terminal rule has two variants, chosen by the constructor,
    and the choice does not bear on whether the storage is constructed: a
    configuration that is accepted is accepted without a terminal-value
    function, and then the storage must be empty at the end
    ([must_be_empty_at_end] is [True]), and it is accepted with any
    function of (price, inventory), and then that function is the terminal
    value and [must_be_empty_at_end] is [False]. *)
Theorem terminal_value_rule :
  Terminal (CmdtyStorage._net_storage self) = terminal_rule terminal_storage_npv /\
  (exists storage,
     CmdtyStorage.__init__ freq storage_start storage_end constraints injection_cost
       withdrawal_cost cmdty_consumed_inject cmdty_consumed_withdraw None
       inventory_loss inventory_cost = Ok storage /\
     CmdtyStorage.eval CmdtyStorage.must_be_empty_at_end storage = Ok true) /\
  (forall f : Qc -> Qc -> Qc,
     exists storage,
       CmdtyStorage.__init__ freq storage_start storage_end constraints injection_cost
         withdrawal_cost cmdty_consumed_inject cmdty_consumed_withdraw (Some f)
         inventory_loss inventory_cost = Ok storage /\
       CmdtyStorage.eval CmdtyStorage.must_be_empty_at_end storage = Ok false /\
       forall cmdty_price terminal_inventory,
         CmdtyStorage.eval
           (CmdtyStorage.terminal_storage_npv cmdty_price terminal_inventory) storage
         = Ok (f cmdty_price terminal_inventory)).
Proof.
  destruct (init_Ok _ _ _ _ _ _ _ _ _ _ _ _ constructed)
    as (ty & sp & ep & rs & Hty & Hsp & Hep & Hcmp & Hrs & Hasc & ->).
  split; [reflexivity|]. split.
  - eexists. split; [by apply (init_intro _ _ _ _ _ _ _ _ None _ _ ty sp ep rs)|].
    reflexivity.
  - intros f. eexists.
    split; [by apply (init_intro _ _ _ _ _ _ _ _ (Some f) _ _ ty sp ep rs)|].
    split; reflexivity.
Qed.


End Constructed.

Lemma terminal_value_rule_witness :
  exists storage,
    CmdtyStorage.__init__ "D" (a_date 2019 8 28) (a_date 2019 9 25)
      TestCmdtyStorage.constraints TestCmdtyStorage.constant_injection_cost
      TestCmdtyStorage.constant_withdrawal_cost
      (Some TestCmdtyStorage.constant_pcnt_consumed_inject)
      (Some TestCmdtyStorage.constant_pcnt_consumed_withdraw)
      (Some (fun cmdty_price terminal_inventory => cmdty_price * terminal_inventory)%Qc)
      None None = Ok storage /\
    CmdtyStorage.eval CmdtyStorage.must_be_empty_at_end storage = Ok false /\
    CmdtyStorage.eval (CmdtyStorage.terminal_storage_npv (dec 50 1) (dec 10 1)) storage
    = Ok (dec 50 1 * dec 10 1)%Qc.
Proof.
  destruct (proj2 (proj2
    (terminal_value_rule "D" (a_date 2019 8 28) (a_date 2019 9 25)
       TestCmdtyStorage.constraints TestCmdtyStorage.constant_injection_cost
       TestCmdtyStorage.constant_withdrawal_cost
       (Some TestCmdtyStorage.constant_pcnt_consumed_inject)
       (Some TestCmdtyStorage.constant_pcnt_consumed_withdraw)
       None None None TestCmdtyStorage.storage eq_refl))
    (fun cmdty_price terminal_inventory => cmdty_price * terminal_inventory)%Qc)
    as (storage & Hinit & Hempty & Hnpv).
  exists storage. split; [exact Hinit|]. split; [exact Hempty|]. apply Hnpv.
Defined.

Lemma two_ratchets_in_force :
  in_force Day TwoRatchets.constraints (mkTimePeriod Day (DateTime.mk 2019 9 15 0 0 0 0))
    (a_date 2019 9 10,
     [ (0%Qc, dec (-130) 1, dec 260 1); (dec 1000 1, dec (-170) 1, dec 210 1);
       (dec 2000 1, dec (-190) 1, dec 180 1) ]).
Proof.
  exists [ (a_date 2019 8 28,
            [ (0%Qc, dec (-150) 1, dec 2552 10); (dec 2000 1, dec (-200) 1, dec 175 1) ]) ],
    [], (mkTimePeriod Day (DateTime.mk 2019 9 10 0 0 0 0)).
  split; [reflexivity|]. split; [reflexivity|]. split; [reflexivity|].
  intros other start' Hin Hstart _.
  apply list_elem_of_singleton in Hin. subst other.
  inversion Hstart. reflexivity.
Defined.



Example two_ratchets_interpolated :
  lerp (dec 1000 1) (dec (-170) 1) (dec 2000 1) (dec (-190) 1) (dec 1500 1) = dec (-180) 1 /\
  lerp (dec 1000 1) (dec 210 1) (dec 2000 1) (dec 180 1) (dec 1500 1) = dec 195 1.
Proof. split; apply Qc_is_canon; vm_compute; reflexivity. Qed.

(** ** Read-only computations *)

Lemma read_only_ret {S A} (a : A) : read_only (@ret S A a).
Proof. intros s. reflexivity. Qed.

Lemma read_only_raise {S A} e : read_only (@raise S A e).
Proof. intros s. reflexivity. Qed.

Lemma read_only_get {S} : read_only (@get S).
Proof. intros s. reflexivity. Qed.

Lemma read_only_lift {S A} (r : result A) : read_only (@lift S A r).
Proof. intros s. reflexivity. Qed.

Lemma read_only_bind {S A B} (m : M S A) (k : A -> M S B) :
  read_only m -> (forall a, read_only (k a)) -> read_only (bind m k).
Proof.
  intros Hm Hk s. unfold bind. specialize (Hm s).
  destruct (m s) as [[a|e] s']; simpl in *; subst s'; [apply Hk | reflexivity].
Qed.

Create HintDb read_only.
#[local] Hint Resolve read_only_ret read_only_raise read_only_get read_only_lift : read_only.

Ltac solve_read_only :=
  repeat first
    [ apply read_only_bind; [|intros ?]
    | solve [auto with read_only]
    | match goal with |- read_only (match ?x with _ => _ end) => destruct x end ].

Lemma read_only_net_time_period period :
  read_only (CmdtyStorage._net_time_period period).
Proof. unfold CmdtyStorage._net_time_period. solve_read_only. Qed.

#[local] Hint Resolve read_only_net_time_period : read_only.

Lemma read_only_perform net op : read_only (CmdtyStorage.perform net op).
Proof.
  destruct op; unfold CmdtyStorage.perform, CmdtyStorage.fmap,
    CmdtyStorage.net_storage, CmdtyStorage.freq, CmdtyStorage.must_be_empty_at_end,
    CmdtyStorage.start_period, CmdtyStorage.end_period,
    CmdtyStorage.inject_withdraw_range, CmdtyStorage.min_inventory,
    CmdtyStorage.max_inventory, CmdtyStorage.injection_cost,
    CmdtyStorage.cmdty_consumed_inject, CmdtyStorage.withdrawal_cost,
    CmdtyStorage.cmdty_consumed_withdraw, CmdtyStorage.terminal_storage_npv,
    CmdtyStorage.inventory_pcnt_loss, CmdtyStorage.inventory_cost;
    solve_read_only.
Qed.

(** C9.  No public operation of a [CmdtyStorage] changes the instance:
    after any sequence of accessor calls and property reads the instance
    is what it was after construction, and every operation returns what
    it returned then. *)
Theorem storage_is_immutable net (ops : list CmdtyStorage.operation) self :
  CmdtyStorage.perform_all net ops self = self /\
  forall op,
    CmdtyStorage.eval (CmdtyStorage.perform net op) (CmdtyStorage.perform_all net ops self)
    = CmdtyStorage.eval (CmdtyStorage.perform net op) self.
Proof.
  assert (CmdtyStorage.perform_all net ops self = self) as E.
  { induction ops as [|op ops IH]; simpl; [reflexivity|].
    unfold CmdtyStorage.exec. by rewrite read_only_perform. }
  split; [exact E|]. intros op. by rewrite E.
Qed.

(** ** The frequency check of [intrinsic_value] *)

Lemma from_datetime_like_raises x ty e :
  _from_datetime_like x ty = Raise e -> other_error e.
Proof.
  unfold _from_datetime_like, DateTime.new.
  destruct (hasattr_hour x); simpl;
    match goal with |- context [if ?c then _ else _] => destruct c end;
    intros H; inversion H; discriminate.
Qed.

Lemma series_to_time_series_raises series ty e :
  _series_to_time_series series ty = Raise e -> other_error e.
Proof.
  unfold _series_to_time_series. induction (items series) as [|[idx v] l IH]; simpl.
  - discriminate.
  - destruct (_from_datetime_like (a_period idx) ty) eqn:E; simpl.
    + destruct (mapR _ l); [discriminate|]. intros H; inversion H; subst. by apply IH.
    + intros H; inversion H; subst. by eapply from_datetime_like_raises.
Qed.

Lemma net_time_series_to_pandas_series_raises ts f e :
  _net_time_series_to_pandas_series ts f = Raise e -> other_error e.
Proof.
  unfold _net_time_series_to_pandas_series, _net_datetime_to_py_datetime,
    pd_period_range, datetime.new.
  destruct ts as [|[first v] ts]; [intros H; inversion H; discriminate|].
  match goal with |- context [if ?c then _ else _] => destruct c end; simpl;
    [|intros H; inversion H; discriminate].
  unfold pd_Period.
  repeat match goal with |- context [if ?c then _ else _] => destruct c end; simpl;
    intros H; inversion H; discriminate.
Qed.

Lemma net_call_result accepts c calls :
  (exists e, net_call accepts c calls = (Raise (DotNet e), calls ++ [c])) \/
  net_call accepts c calls = (Ok tt, calls ++ [c]).
Proof. unfold net_call. destruct (accepts calls c); eauto. Qed.

(** One step of a computation that cannot raise the mismatch. *)
Lemma bind_other_error {S A B} (m : M S A) (k : A -> M S B) s :
  (forall e, fst (m s) = Raise e -> other_error e) ->
  (forall a s', m s = (Ok a, s') -> fst (k a s') <> Raise (ValueError frequency_mismatch)) ->
  fst (bind m k s) <> Raise (ValueError frequency_mismatch).
Proof.
  intros Hm Hk. unfold bind. destruct (m s) as [[a|e] s'] eqn:E; simpl.
  - by apply Hk.
  - intros H. inversion H; subst. by apply (Hm _ eq_refl).
Qed.

Lemma net_call_other_error accepts c calls e :
  fst (net_call accepts c calls) = Raise e -> other_error e.
Proof.
  destruct (net_call_result accepts c calls) as [[ne ->]| ->]; simpl;
    intros H; inversion H; discriminate.
Qed.

Lemma lift_other_error {S A} (r : result A) (s : S) :
  (forall e, r = Raise e -> other_error e) ->
  forall e, fst (lift r s) = Raise e -> other_error e.
Proof. intros H e. simpl. apply H. Qed.



Example quarterly_construct :
  CmdtyStorage.__init__ "Q" (a_date 2019 7 1) (a_date 2020 7 1)
    TestCmdtyStorage.constraints (dec 15 1000) (dec 2 100) None None None None None
  = Ok Quarterly.storage.
Proof. reflexivity. Qed.


(** ** Validation at construction *)

Lemma ascending_adjacent front a b back :
  ascending (front ++ a :: b :: back) = true -> (Inventory a <= Inventory b)%Qc.
Proof.
  intros H. assert (ascending_from (Inventory a) (b :: back) = true) as Hab.
  { destruct front as [|f0 front]; simpl in H; [exact H|].
    by eapply ascending_from_app_r. }
  simpl in Hab. apply andb_prop in Hab as [Hab _]. by apply Qcleb_le.
Qed.

Lemma net_constraint_Ok ty period rates r :
  net_constraint ty (period, rates) = Ok r ->
  mapR net_rate_by_inventory rates = Ok (InjectWithdrawRanges r).
Proof.
  unfold net_constraint.
  destruct (_from_datetime_like period ty) as [np|]; [|discriminate]. simpl.
  destruct (mapR net_rate_by_inventory rates) as [nrs|]; [|discriminate]. simpl.
  intros H. by inversion H.
Qed.

Lemma net_rate_by_inventory_Ok inventory min_rate max_rate b :
  net_rate_by_inventory (inventory, min_rate, max_rate) = Ok b ->
  Inventory b = inventory /\ (min_rate <= max_rate)%Qc.
Proof.
  unfold net_rate_by_inventory, NetInjectWithdrawRange_new.
  destruct (Qcltb max_rate min_rate) eqn:E; [discriminate|]. simpl.
  intros H. inversion H. split; [reflexivity|].
  apply Qcnot_lt_le. intros Hlt. apply Qcltb_lt in Hlt. congruence.
Qed.

(** C5 (as the code has it).  Constructing a storage raises, at
    construction, whenever the breakpoints of a ratchet are out of order,
    the minimum rate of a breakpoint exceeds its maximum rate, or the
    start period is not before the end period. *)
Theorem construction_validates freq storage_start storage_end constraints injection_cost
    withdrawal_cost cmdty_consumed_inject cmdty_consumed_withdraw terminal_storage_npv
    inventory_loss inventory_cost :
  breakpoints_unsorted constraints \/ min_exceeds_max constraints \/
  start_not_before_end freq storage_start storage_end ->
  is_raise (CmdtyStorage.__init__ freq storage_start storage_end constraints
              injection_cost withdrawal_cost cmdty_consumed_inject
              cmdty_consumed_withdraw terminal_storage_npv inventory_loss
              inventory_cost) = true.
Proof.
  intros Hbad.
  destruct (CmdtyStorage.__init__ _ _ _ _ _ _ _ _ _ _ _) as [self|] eqn:E;
    [exfalso | reflexivity].
  apply init_Ok in E as (ty & sp & ep & rs & Hty & Hsp & Hep & Hlt & Hrs & Hasc & _).
  destruct Hbad as [Hbad | [Hbad | Hbad]].
  - destruct Hbad as (period & front & a & b & back & Hin & Hab).
    destruct (mapR_elem_of _ _ _ _ Hrs Hin) as (r & Hr & Hrin).
    apply net_constraint_Ok in Hr.
    rewrite forallb_forall in Hasc.
    specialize (Hasc r (proj1 (list_elem_of_In _ _) Hrin)).
    apply mapR_app_inv in Hr as (front' & tail' & Etail & _ & Htail).
    simpl in Htail.
    destruct (net_rate_by_inventory a) as [a'|] eqn:Ha; [|discriminate].
    destruct (net_rate_by_inventory b) as [b'|] eqn:Hb; [|discriminate].
    destruct (mapR net_rate_by_inventory back) as [back'|]; [|discriminate].
    inversion Htail; subst tail'. rewrite Etail in Hasc.
    apply ascending_adjacent in Hasc.
    destruct a as [[ai alo] ahi], b as [[bi blo] bhi].
    apply net_rate_by_inventory_Ok in Ha as [Ea _], Hb as [Eb _].
    rewrite Ea, Eb in Hasc. simpl in Hab.
    eapply Qclt_not_le; [exact Hab | exact Hasc].
  - destruct Hbad as (period & rates & inventory & lo & hi & Hin & Hrow & Hlohi).
    destruct (mapR_elem_of _ _ _ _ Hrs Hin) as (r & Hr & _).
    apply net_constraint_Ok in Hr.
    destruct (mapR_elem_of _ _ _ _ Hr Hrow) as (b & Hb & _).
    apply net_rate_by_inventory_Ok in Hb as [_ Hle].
    eapply Qclt_not_le; eauto.
  - destruct Hbad as (ty' & sp' & ep' & Hty' & Hsp' & Hep' & Hcmp).
    rewrite Hty in Hty'. inversion Hty'; subst ty'.
    rewrite Hsp in Hsp'. rewrite Hep in Hep'. inversion Hsp'; inversion Hep'; subst.
    contradiction.
Qed.

Lemma construction_validates_witness :
  is_raise (CmdtyStorage.__init__ "D" (a_date 2019 9 25) (a_date 2019 8 28)
              TestCmdtyStorage.constraints TestCmdtyStorage.constant_injection_cost
              TestCmdtyStorage.constant_withdrawal_cost None None None None None) = true.
Proof.
  apply construction_validates. right. right.
  exists Day, (mkTimePeriod Day (DateTime.mk 2019 9 25 0 0 0 0)),
    (mkTimePeriod Day (DateTime.mk 2019 8 28 0 0 0 0)).
  repeat split; try reflexivity. discriminate.
Defined.

(** C5, as stated, fails: the grid point count is no input of the
    constructor (it is an argument of [intrinsic_value]), so a storage is
    constructed whatever the count is. *)
Lemma construction_validates_counterexample :
  ~ (forall freq storage_start storage_end constraints injection_cost withdrawal_cost
       cmdty_consumed_inject cmdty_consumed_withdraw terminal_storage_npv
       inventory_loss inventory_cost (num_inventory_grid_points : Z),
       breakpoints_unsorted constraints \/ min_exceeds_max constraints \/
       start_not_before_end freq storage_start storage_end \/
       num_inventory_grid_points < 2 ->
       is_raise (CmdtyStorage.__init__ freq storage_start storage_end constraints
                   injection_cost withdrawal_cost cmdty_consumed_inject
                   cmdty_consumed_withdraw terminal_storage_npv inventory_loss
                   inventory_cost) = true).
Proof.
  intros H.
  specialize (H "D" (a_date 2019 8 28) (a_date 2019 9 25) TestCmdtyStorage.constraints
                TestCmdtyStorage.constant_injection_cost
                TestCmdtyStorage.constant_withdrawal_cost
                (Some TestCmdtyStorage.constant_pcnt_consumed_inject)
                (Some TestCmdtyStorage.constant_pcnt_consumed_withdraw)
                None None None 1).
  discriminate H. right. right. right. lia.
Qed.

(** ** Marshalling of periods *)

Lemma FREQ_TO_PERIOD_TYPE_cases f ty :
  FREQ_TO_PERIOD_TYPE !! f = Some ty ->
  (f, ty) ∈ [ ("15min", QuarterHour); ("30min", HalfHour); ("H", Hour);
              ("D", Day); ("M", Month); ("Q", Quarter) ].
Proof. unfold FREQ_TO_PERIOD_TYPE. apply elem_of_list_to_map_2. Qed.

Lemma days_in_month_bounds y m : 1 <= m <= 12 -> 28 <= days_in_month y m <= 31.
Proof.
  intros H.
  assert (m = 1 \/ m = 2 \/ m = 3 \/ m = 4 \/ m = 5 \/ m = 6 \/ m = 7 \/ m = 8 \/
          m = 9 \/ m = 10 \/ m = 11 \/ m = 12) as Hm by lia.
  repeat destruct Hm as [-> | Hm]; try subst m; simpl;
    try destruct (is_leap_year y); lia.
Qed.

Lemma in_range_intro y m d h mi s :
  1 <= y <= 9999 -> 1 <= m <= 12 -> 1 <= d <= days_in_month y m ->
  0 <= h < 24 -> 0 <= mi < 60 -> 0 <= s < 60 ->
  DateTime.in_range y m d h mi s = true.
Proof.
  intros. unfold DateTime.in_range.
  repeat (apply andb_true_intro; split); first [apply Z.leb_le | apply Z.ltb_lt]; lia.
Qed.

Ltac to_props :=
  repeat match goal with
    | H : _ && _ = true |- _ => apply andb_prop in H; destruct H
    | H : (_ <=? _) = true |- _ => apply Z.leb_le in H
    | H : (_ <? _) = true |- _ => apply Z.ltb_lt in H
    | H : (_ =? _) = true |- _ => apply Z.eqb_eq in H
    end.

Ltac closed_mod :=
  repeat match goal with
    | |- context [Z.modulo ?a ?b] =>
        let v := eval vm_compute in (Z.modulo a b) in change (Z.modulo a b) with v
    end.

(** C10 (as the code has it).  A period of a supported frequency, within
    the years 1 to 9999 and starting on a boundary of the engine's period
    type, is marshalled to the engine and back to itself. *)
Theorem marshal_roundtrip_aligned (p : Period) (time_period_type : PeriodType) :
  FREQ_TO_PERIOD_TYPE !! freq p = Some time_period_type ->
  Period_valid p = true -> representable p = true -> aligned p = true ->
  marshal_roundtrip p time_period_type = Ok p.
Proof.
  destruct p as [f y m d h mi]. simpl. intros Hty Hvalid Hrep Hal.
  apply FREQ_TO_PERIOD_TYPE_cases in Hty.
  unfold representable, aligned in *. simpl in Hrep, Hal.
  unfold marshal_roundtrip, _from_datetime_like, _net_time_period_to_pandas_period,
    _net_datetime_to_py_datetime, DateTime.new, datetime.new, hasattr_hour,
    attr_year, attr_month, attr_day, attr_hour, attr_minute, attr_second,
    Period_year, Period_month, Period_day, Period_hour, Period_minute, Period_second,
    TimePeriodFactory.FromDateTime, pd_Period.
  repeat (apply elem_of_cons in Hty as [Hty|Hty]);
    [inversion Hty; subst f time_period_type; clear Hty .. | by apply elem_of_nil in Hty];
    cbn in Hvalid, Hal; to_props;
    cbn -[DateTime.in_range days_in_month Z.modulo Z.sub Z.add].
  - (* 15min *)
    rewrite in_range_intro by lia. cbn -[DateTime.in_range Z.modulo Z.sub].
    rewrite in_range_intro by lia. cbn. do 2 f_equal. lia.
  - (* 30min *)
    rewrite in_range_intro by lia. cbn -[DateTime.in_range Z.modulo Z.sub].
    rewrite in_range_intro by lia. cbn. do 2 f_equal. lia.
  - (* H *)
    rewrite in_range_intro by lia. cbn -[DateTime.in_range].
    rewrite in_range_intro by lia. cbn. do 2 f_equal. lia.
  - (* D *)
    rewrite in_range_intro by lia. cbn -[DateTime.in_range].
    rewrite in_range_intro by lia. cbn. do 2 f_equal; lia.
  - (* M *)
    pose proof (days_in_month_bounds y m ltac:(lia)).
    rewrite in_range_intro by lia. cbn -[DateTime.in_range days_in_month].
    rewrite in_range_intro; [|lia..]. cbn. do 2 f_equal; lia.
  - (* Q *)
    assert (m = 1 \/ m = 4 \/ m = 7 \/ m = 10) as Hm
      by (Z.to_euclidean_division_equations; lia).
    pose proof (days_in_month_bounds y (m + 2) ltac:(lia)).
    rewrite in_range_intro by lia.
    destruct Hm as [-> | [-> | [-> | ->]]]; cbn -[DateTime.in_range days_in_month];
      closed_mod; (rewrite in_range_intro; [|simpl; lia..]); cbn; do 2 f_equal; lia.
Qed.

Lemma marshal_roundtrip_aligned_witness :
  marshal_roundtrip (mkPeriod "15min" 2019 8 28 0 15) QuarterHour
  = Ok (mkPeriod "15min" 2019 8 28 0 15).
Proof.
  apply marshal_roundtrip_aligned.
  - reflexivity.
  - reflexivity.
  - reflexivity.
  - reflexivity.
Defined.

Example roundtrip_day :
  marshal_roundtrip (mkPeriod "D" 2019 8 28 0 0) Day = Ok (mkPeriod "D" 2019 8 28 0 0).
Proof. reflexivity. Qed.

Example roundtrip_month :
  _from_datetime_like (a_period (mkPeriod "M" 2019 2 1 0 0)) Month
    = Ok (mkTimePeriod Month (DateTime.mk 2019 2 1 0 0 0 0)) /\
  marshal_roundtrip (mkPeriod "M" 2019 2 1 0 0) Month = Ok (mkPeriod "M" 2019 2 1 0 0).
Proof. split; reflexivity. Qed.

Example roundtrip_quarter :
  marshal_roundtrip (mkPeriod "Q" 2019 4 1 0 0) Quarter = Ok (mkPeriod "Q" 2019 4 1 0 0).
Proof. reflexivity. Qed.

Example roundtrip_unaligned :
  _from_datetime_like (a_period (mkPeriod "15min" 2019 8 28 0 20)) QuarterHour
    = Ok (mkTimePeriod QuarterHour (DateTime.mk 2019 8 28 0 15 0 0)) /\
  marshal_roundtrip (mkPeriod "15min" 2019 8 28 0 20) QuarterHour
    = Ok (mkPeriod "15min" 2019 8 28 0 15).
Proof. split; reflexivity. Qed.

(** C10, as stated, fails: the quarter-hour period that starts at 00:20
    is marshalled to the engine's quarter-hour that contains 00:20, and
    comes back as the period that starts at 00:15. *)
Lemma marshal_roundtrip_counterexample :
  ~ (forall (p : Period) (time_period_type : PeriodType),
       FREQ_TO_PERIOD_TYPE !! freq p = Some time_period_type ->
       Period_valid p = true -> representable p = true ->
       marshal_roundtrip p time_period_type = Ok p).
Proof.
  intros H.
  specialize (H (mkPeriod "15min" 2019 8 28 0 20) QuarterHour eq_refl eq_refl eq_refl).
  discriminate H.
Qed.

(** ** The result of [intrinsic_value] *)

Example sample_valuation :
  fst (Sample.valuation Sample.daily_curve 100) = Ok Sample.results.
Proof. reflexivity. Qed.

Example three_days_construct :
  CmdtyStorage.__init__ "D" (a_date 2019 8 28) (a_date 2019 8 30)
    TestCmdtyStorage.constraints (dec 15 1000) (dec 2 100) None None None None None
  = Ok ThreeDays.storage.
Proof. reflexivity. Qed.

Example three_days_valuation : fst ThreeDays.valuation = Ok ThreeDays.results.
Proof. reflexivity. Qed.

Lemma bind_returns {S A B} (m : M S A) (k : A -> M S B) s b s'' :
  bind m k s = (Ok b, s'') -> exists a s', m s = (Ok a, s') /\ k a s' = (Ok b, s'').
Proof.
  unfold bind. destruct (m s) as [[a|e] s']; [eauto | discriminate].
Qed.

Lemma net_call_returns accepts c calls calls' :
  net_call accepts c calls = (Ok tt, calls') ->
  accepts calls c = None /\ calls' = calls ++ [c].
Proof.
  unfold net_call. destruct (accepts calls c); intros H; inversion H. by split.
Qed.

Lemma lift_returns {S A} (r : result A) (s s' : S) a :
  lift r s = (Ok a, s') -> r = Ok a /\ s' = s.
Proof. unfold lift. intros H; inversion H. by split. Qed.

Lemma in_range_elim y m d h mi s :
  DateTime.in_range y m d h mi s = true ->
  1 <= y <= 9999 /\ 1 <= m <= 12 /\ 1 <= d <= days_in_month y m /\
  0 <= h < 24 /\ 0 <= mi < 60 /\ 0 <= s < 60.
Proof. unfold DateTime.in_range. intros H. to_props. lia. Qed.

Lemma length_periods_from p n : length (periods_from p n) = n.
Proof. revert p. induction n as [|n IH]; intros p; simpl; [reflexivity | by rewrite IH]. Qed.

Lemma length_time_periods_from p n : length (time_periods_from p n) = n.
Proof. revert p. induction n as [|n IH]; intros p; simpl; [reflexivity | by rewrite IH]. Qed.

(** The pandas series made of an engine series: as many entries, the same
    values in the same order, and consecutive periods from the period of
    the first index on. *)
Lemma net_time_series_to_pandas_series_Ok ts f s :
  _net_time_series_to_pandas_series ts f = Ok s ->
  exists first_index v rest first,
    ts = (first_index, v) :: rest /\
    _net_time_period_to_pandas_period first_index f = Ok first /\
    index_freq s = f /\
    map fst (items s) = periods_from first (length ts) /\
    map snd (items s) = map snd ts.
Proof.
  unfold _net_time_series_to_pandas_series, pd_period_range.
  destruct ts as [|[first_index v] rest]; [discriminate|].
  destruct (_net_datetime_to_py_datetime (Start first_index)) as [dt|] eqn:Hdt;
    [|discriminate].
  simpl. destruct (pd_Period dt f) as [first|] eqn:Hfirst; [|discriminate].
  simpl. intros H. inversion H; subst s; clear H.
  exists first_index, v, rest, first. split; [reflexivity|].
  split; [unfold _net_time_period_to_pandas_period; by rewrite Hdt|].
  split; [reflexivity|].
  split; simpl; f_equal.
  - apply (fst_zip (periods_from (Period_next first) (length rest)) (map snd rest)).
    by rewrite length_periods_from, length_map.
  - apply (snd_zip (periods_from (Period_next first) (length rest)) (map snd rest)).
    by rewrite length_periods_from, length_map.
Qed.

Lemma carries_intro f ts s :
  _net_time_series_to_pandas_series ts f = Ok s -> carries f ts s.
Proof.
  intros H. apply net_time_series_to_pandas_series_Ok in H
    as (i & v & rest & first & E & Hfirst & _ & Hidx & Hval).
  exists i, first. rewrite E. rewrite E in Hidx, Hval. by repeat split.
Qed.

(** What a valuation that returns has done: the engine was configured,
    [Calculate] was called last, and its result was converted. *)
Lemma intrinsic_value_returns accepts calculate freqstr cmdty_storage val_date inventory
    forward_curve settlement_rule interest_rates num_inventory_grid_points
    numerical_tolerance r calls :
  intrinsic_value accepts calculate freqstr cmdty_storage val_date inventory forward_curve
    settlement_rule interest_rates num_inventory_grid_points numerical_tolerance []
  = (Ok r, calls) ->
  exists inputs net_val_results,
    calls = inputs ++ [Calculate] /\
    calculate inputs = inr net_val_results /\
    npv r = NetPresentValue net_val_results /\
    _net_time_series_to_pandas_series (DecisionProfile net_val_results)
      (CmdtyStorage._freq cmdty_storage) = Ok (decision_profile r) /\
    _net_time_series_to_pandas_series (CmdtyVolumeConsumed net_val_results)
      (CmdtyStorage._freq cmdty_storage) = Ok (cmdty_consumed r).
Proof.
  unfold intrinsic_value. intros H.
  apply bind_returns in H as (f & s0 & Hf & H). inversion Hf; subst f s0; clear Hf.
  destruct (negb _); [discriminate|].
  destruct (FREQ_TO_PERIOD_TYPE !! CmdtyStorage._freq cmdty_storage) as [ty|];
    [|discriminate].
  do 12 (apply bind_returns in H as (? & ? & _ & H)).
  apply bind_returns in H as (nr & s1 & Hcalc & H).
  apply bind_returns in H as (dp & s2 & [Hdp ->]%lift_returns & H).
  apply bind_returns in H as (cc & s3 & [Hcc ->]%lift_returns & H).
  inversion H; subst r calls; clear H.
  unfold net_calculate in Hcalc.
  match type of Hcalc with (of_net (calculate ?i), _) = _ => exists i, nr end.
  destruct (calculate _) as [e|nr'] eqn:Ecalc; simpl in Hcalc; inversion Hcalc; subst.
  by repeat split.
Qed.

(** *** The span of the series *)

Lemma last_map {A B} (g : A -> B) (l : list A) : last (map g l) = option_map g (last l).
Proof.
  induction l as [|a [|b l] IH]; [reflexivity | reflexivity |].
  change (map g (a :: b :: l)) with (g a :: g b :: map g l).
  rewrite !last_cons_cons. exact IH.
Qed.

Lemma TimePeriod_next_ptype p : ptype (TimePeriod_next p) = ptype p.
Proof. by destruct p. Qed.

(** The successor of the engine and the successor of pandas agree. *)
Lemma Period_of_next f ty p :
  FREQ_TO_PERIOD_TYPE !! f = Some ty -> ptype p = ty ->
  Period_of f (TimePeriod_next p) = Period_next (Period_of f p).
Proof.
  intros Hty Hp. apply FREQ_TO_PERIOD_TYPE_cases in Hty.
  destruct p as [ty' [y m d h mi s ms]]. simpl in Hp. subst ty'.
  repeat (apply elem_of_cons in Hty as [Hty|Hty]);
    [inversion Hty; subst f ty; clear Hty .. | by apply elem_of_nil in Hty];
    unfold Period_of, TimePeriod_next, Period_next, DateTime_add_minutes,
      DateTime_add_months, add_minutes, add_months;
    cbn -[Z.add Z.sub Z.ltb Z.leb next_day];
    repeat match goal with
      | |- context [if ?c then _ else _] => destruct c
      | |- context [next_day ?a ?b ?c] => destruct (next_day a b c) as [[? ?] ?]
      end;
    reflexivity.
Qed.

Lemma Period_of_periods_from f ty p n :
  FREQ_TO_PERIOD_TYPE !! f = Some ty -> ptype p = ty ->
  map (Period_of f) (time_periods_from p n) = periods_from (Period_of f p) n.
Proof.
  intros Hty. revert p. induction n as [|n IH]; intros p Hp; simpl; [reflexivity|].
  f_equal. rewrite <- (Period_of_next f ty p Hty Hp). apply IH.
  by rewrite TimePeriod_next_ptype.
Qed.

(** A period that the constructor made comes back as the pandas period
    that starts where it starts. *)
Lemma from_datetime_like_pandas_period f ty x np :
  FREQ_TO_PERIOD_TYPE !! f = Some ty ->
  _from_datetime_like x ty = Ok np ->
  ptype np = ty /\ _net_time_period_to_pandas_period np f = Ok (Period_of f np).
Proof.
  intros Hty. unfold _from_datetime_like.
  destruct (if hasattr_hour x then _ else _) as [[h mi] s].
  unfold DateTime.new.
  destruct (DateTime.in_range (attr_year x) (attr_month x) (attr_day x) h mi s) eqn:Hr;
    [|discriminate].
  intros H. inversion H; subst np; clear H. split; [reflexivity|].
  apply in_range_elim in Hr as (Hy & Hm & Hd & Hh & Hmi & Hs).
  generalize dependent (attr_day x). generalize dependent (attr_month x).
  generalize dependent (attr_year x). intros y Hy m Hm d Hd.
  apply FREQ_TO_PERIOD_TYPE_cases in Hty.
  unfold _net_time_period_to_pandas_period, _net_datetime_to_py_datetime, datetime.new,
    TimePeriodFactory.FromDateTime, Period_of, pd_Period.
  repeat (apply elem_of_cons in Hty as [Hty|Hty]);
    [inversion Hty; subst f ty; clear Hty .. | by apply elem_of_nil in Hty];
    cbn -[DateTime.in_range days_in_month Z.modulo Z.sub Z.add].
  - rewrite in_range_intro; [reflexivity | lia || (Z.to_euclidean_division_equations; lia) ..].
  - rewrite in_range_intro; [reflexivity | lia || (Z.to_euclidean_division_equations; lia) ..].
  - rewrite in_range_intro; [reflexivity | lia ..].
  - rewrite in_range_intro; [reflexivity | lia ..].
  - pose proof (days_in_month_bounds y m Hm).
    rewrite in_range_intro; [reflexivity | lia ..].
  - assert (m = 1 \/ m = 2 \/ m = 3 \/ m = 4 \/ m = 5 \/ m = 6 \/ m = 7 \/ m = 8 \/
            m = 9 \/ m = 10 \/ m = 11 \/ m = 12) as Hcases by lia.
    repeat destruct Hcases as [-> | Hcases]; try subst m; closed_mod;
      (rewrite in_range_intro; [reflexivity | simpl; lia ..]).
Qed.

(** The wrapper rebuilds the index of an engine series from its first
    period and its length: where the engine series runs from the start
    period of the storage to its end period, the pandas series runs from
    the pandas start period to the pandas end period. *)
Lemma pandas_series_spans f ty storage_start storage_end ns net_series s :
  FREQ_TO_PERIOD_TYPE !! f = Some ty ->
  _from_datetime_like storage_start ty = Ok (StartPeriod ns) ->
  _from_datetime_like storage_end ty = Ok (EndPeriod ns) ->
  spans_active_range ns net_series ->
  _net_time_series_to_pandas_series net_series f = Ok s ->
  spans_periods (Period_of f (StartPeriod ns)) (Period_of f (EndPeriod ns))
    (map fst (items s)).
Proof.
  intros Hty Hsp Hep (n & Hidx & Hlast) Hs.
  destruct (from_datetime_like_pandas_period _ _ _ _ Hty Hsp) as [Hptype Hstart].
  apply net_time_series_to_pandas_series_Ok in Hs
    as (i & v & rest & first & E & Hfirst & _ & Hindex & _).
  assert (i = StartPeriod ns) as -> by (rewrite E in Hidx; simpl in Hidx; congruence).
  rewrite Hstart in Hfirst. inversion Hfirst; subst first; clear Hfirst.
  assert (length net_series = S n) as Hlen
    by (rewrite <- (length_map fst), Hidx; apply length_time_periods_from).
  rewrite Hlen in Hindex. exists n. split; [exact Hindex|].
  rewrite Hindex, <- (Period_of_periods_from f ty _ _ Hty Hptype), <- Hidx, last_map.
  by rewrite Hlast.
Qed.

Section ValuationResult.
Variables (freq : string) (storage_start storage_end : datetime_like).
Variable constraints : list (datetime_like * list (Qc * Qc * Qc)).
Variables (injection_cost withdrawal_cost : Qc).
Variables (cmdty_consumed_inject cmdty_consumed_withdraw : option Qc).
Variable terminal_storage_npv : option (Qc -> Qc -> Qc).
Variables (inventory_loss inventory_cost : option Qc).
Variable cmdty_storage : CmdtyStorage.t.
Variable accepts : list NetCall -> NetCall -> option NetException.
Variable calculate : list NetCall -> NetException + NetValResults.
Variable freqstr : string -> string.

Hypothesis constructed :
  CmdtyStorage.__init__ freq storage_start storage_end constraints injection_cost
    withdrawal_cost cmdty_consumed_inject cmdty_consumed_withdraw terminal_storage_npv
    inventory_loss inventory_cost = Ok cmdty_storage.

(** The engine, as the spec has it: the two series of a result span the
    active range of the storage. *)
Hypothesis engine_spans :
  forall inputs net_val_results,
    calculate inputs = inr net_val_results ->
    spans_active_range (CmdtyStorage._net_storage cmdty_storage)
      (DecisionProfile net_val_results) /\
    spans_active_range (CmdtyStorage._net_storage cmdty_storage)
      (CmdtyVolumeConsumed net_val_results).

End ValuationResult.



(** * Further properties of the module *)

(** ** The constructor and the frequency *)

Lemma from_datetime_like_raises_net x ty e :
  _from_datetime_like x ty = Raise e -> exists ne, e = DotNet ne.
Proof.
  unfold _from_datetime_like, DateTime.new.
  destruct (hasattr_hour x); simpl;
    match goal with |- context [if ?c then _ else _] => destruct c end;
    intros H; inversion H; eauto.
Qed.

Lemma mapR_raises {A B} (P : exn -> Prop) (f : A -> result B) l e :
  (forall a e, f a = Raise e -> P e) -> mapR f l = Raise e -> P e.
Proof.
  intros Hf. induction l as [|a l IH]; simpl; [discriminate|].
  destruct (f a) as [b|e'] eqn:Hfa.
  - destruct (mapR f l); [discriminate|]. intros H; inversion H; subst. by apply IH.
  - intros H; inversion H; subst. by eapply Hf.
Qed.

Lemma net_constraint_raises_net ty item e :
  net_constraint ty item = Raise e -> exists ne, e = DotNet ne.
Proof.
  destruct item as [period rates]. unfold net_constraint.
  destruct (_from_datetime_like period ty) eqn:Hp; simpl.
  - destruct (mapR net_rate_by_inventory rates) eqn:Hr; simpl; [discriminate|].
    intros H; inversion H; subst.
    apply (mapR_raises (fun e => exists ne, e = DotNet ne) _ _ _) in Hr; [done|].
    intros [[i lo] hi] e'. unfold net_rate_by_inventory, NetInjectWithdrawRange_new.
    destruct (Qcltb hi lo); simpl; [|discriminate]. intros H'; inversion H'; eauto.
  - intros H; inversion H; subst. by eapply from_datetime_like_raises_net.
Qed.

(** A constructor that has found the frequency in the table fails, when
    it fails, in the .NET code. *)
Lemma init_raises_net freq storage_start storage_end constraints injection_cost
    withdrawal_cost cmdty_consumed_inject cmdty_consumed_withdraw terminal_storage_npv
    inventory_loss inventory_cost ty e :
  FREQ_TO_PERIOD_TYPE !! freq = Some ty ->
  CmdtyStorage.__init__ freq storage_start storage_end constraints injection_cost
    withdrawal_cost cmdty_consumed_inject cmdty_consumed_withdraw terminal_storage_npv
    inventory_loss inventory_cost = Raise e ->
  exists ne, e = DotNet ne.
Proof.
  intros Hty. unfold CmdtyStorage.__init__. rewrite Hty.
  destruct (_from_datetime_like storage_start ty) as [sp|] eqn:Hsp; simpl;
    [|intros H; inversion H; subst; by eapply from_datetime_like_raises_net].
  destruct (_from_datetime_like storage_end ty) as [ep|] eqn:Hep; simpl;
    [|intros H; inversion H; subst; by eapply from_datetime_like_raises_net].
  unfold bind at 1, Builder.WithActiveTimePeriod.
  destruct (CompareTo sp ep); try (intros H; inversion H; by eauto).
  unfold bind at 1, lift.
  destruct (mapR (net_constraint ty) constraints) as [rs|] eqn:Hrs;
    [|simpl; intros H; inversion H; subst;
      apply (mapR_raises (fun e => exists ne, e = DotNet ne)) in Hrs;
      [exact Hrs | apply net_constraint_raises_net]].
  unfold Builder.modify at 1. unfold bind at 1.
  unfold Builder.WithTimeAndInventoryVaryingInjectWithdrawRatesPiecewiseLinear.
  destruct (forallb _ rs); [|intros H; inversion H; by eauto].
  destruct cmdty_consumed_inject, cmdty_consumed_withdraw, terminal_storage_npv,
    inventory_loss, inventory_cost; simpl; discriminate.
Qed.

(** X1.  The constructor raises [ValueError] exactly when [freq] is none
    of the six keys of [FREQ_TO_PERIOD_TYPE]; the message names the
    value.  With one of the keys, a constructor that fails raises a .NET
    exception. *)
Theorem init_unsupported_freq freq storage_start storage_end constraints injection_cost
    withdrawal_cost cmdty_consumed_inject cmdty_consumed_withdraw terminal_storage_npv
    inventory_loss inventory_cost :
  (freq ∉ ["15min"; "30min"; "H"; "D"; "M"; "Q"] <->
   exists msg,
     CmdtyStorage.__init__ freq storage_start storage_end constraints injection_cost
       withdrawal_cost cmdty_consumed_inject cmdty_consumed_withdraw terminal_storage_npv
       inventory_loss inventory_cost = Raise (ValueError msg)) /\
  (freq ∉ ["15min"; "30min"; "H"; "D"; "M"; "Q"] ->
   CmdtyStorage.__init__ freq storage_start storage_end constraints injection_cost
     withdrawal_cost cmdty_consumed_inject cmdty_consumed_withdraw terminal_storage_npv
     inventory_loss inventory_cost
   = Raise (ValueError ("freq parameter value of '" ++ freq ++
       "' not supported. The allowable values can be found in the keys of the dict curves.FREQ_TO_PERIOD_TYPE.")%string)) /\
  (forall e,
     CmdtyStorage.__init__ freq storage_start storage_end constraints injection_cost
       withdrawal_cost cmdty_consumed_inject cmdty_consumed_withdraw terminal_storage_npv
       inventory_loss inventory_cost = Raise e ->
     (exists msg, e = ValueError msg) \/ (exists ne, e = DotNet ne)).
Proof.
  assert (freq ∉ ["15min"; "30min"; "H"; "D"; "M"; "Q"] <->
          FREQ_TO_PERIOD_TYPE !! freq = None) as Hkeys.
  { unfold FREQ_TO_PERIOD_TYPE. rewrite <- not_elem_of_list_to_map. reflexivity. }
  rewrite Hkeys.
  destruct (FREQ_TO_PERIOD_TYPE !! freq) as [ty|] eqn:Hty.
  - split; [split; [discriminate|] | split; [discriminate|]].
    + intros [msg H]. apply (init_raises_net _ _ _ _ _ _ _ _ _ _ _ _ _ Hty) in H as [ne E].
      discriminate E.
    + intros e H. right. by eapply init_raises_net.
  - unfold CmdtyStorage.__init__. rewrite Hty.
    split; [split; eauto | split; [reflexivity|]].
    intros e H. inversion H. eauto.
Qed.

Lemma init_unsupported_freq_witness :
  exists msg,
    CmdtyStorage.__init__ "W" (a_date 2019 8 28) (a_date 2019 9 25)
      TestCmdtyStorage.constraints TestCmdtyStorage.constant_injection_cost
      TestCmdtyStorage.constant_withdrawal_cost None None None None None
    = Raise (ValueError msg).
Proof.
  apply (proj1 (init_unsupported_freq "W" (a_date 2019 8 28) (a_date 2019 9 25)
                  TestCmdtyStorage.constraints TestCmdtyStorage.constant_injection_cost
                  TestCmdtyStorage.constant_withdrawal_cost None None None None None)).
  rewrite !not_elem_of_cons. repeat split; try discriminate. apply not_elem_of_nil.
Defined.

(** X2.  A constructed storage keeps the frequency it was given, and that
    frequency is a key of [FREQ_TO_PERIOD_TYPE]: the lookup in
    [_net_time_period] never raises [KeyError], and a period is
    marshalled at the period type of the storage. *)
Theorem constructed_freq_supported freq storage_start storage_end constraints
    injection_cost withdrawal_cost cmdty_consumed_inject cmdty_consumed_withdraw
    terminal_storage_npv inventory_loss inventory_cost self :
  CmdtyStorage.__init__ freq storage_start storage_end constraints injection_cost
    withdrawal_cost cmdty_consumed_inject cmdty_consumed_withdraw terminal_storage_npv
    inventory_loss inventory_cost = Ok self ->
  CmdtyStorage.eval CmdtyStorage.freq self = Ok freq /\
  exists time_period_type,
    FREQ_TO_PERIOD_TYPE !! freq = Some time_period_type /\
    forall period,
      CmdtyStorage.eval (CmdtyStorage._net_time_period period) self
      = _from_datetime_like period time_period_type.
Proof.
  intros H. apply init_Ok in H as (ty & sp & ep & rs & Hty & _ & _ & _ & _ & _ & ->).
  split; [reflexivity|]. exists ty. split; [exact Hty|].
  intros period. unfold CmdtyStorage.eval, CmdtyStorage._net_time_period, bind, get.
  simpl. by rewrite Hty.
Qed.

Lemma constructed_freq_supported_witness :
  CmdtyStorage.eval CmdtyStorage.freq TestCmdtyStorage.storage = Ok "D" /\
  exists time_period_type,
    FREQ_TO_PERIOD_TYPE !! "D" = Some time_period_type /\
    forall period,
      CmdtyStorage.eval (CmdtyStorage._net_time_period period) TestCmdtyStorage.storage
      = _from_datetime_like period time_period_type.
Proof.
  exact (constructed_freq_supported "D" (a_date 2019 8 28) (a_date 2019 9 25)
           TestCmdtyStorage.constraints TestCmdtyStorage.constant_injection_cost
           TestCmdtyStorage.constant_withdrawal_cost
           (Some TestCmdtyStorage.constant_pcnt_consumed_inject)
           (Some TestCmdtyStorage.constant_pcnt_consumed_withdraw)
           None None None TestCmdtyStorage.storage eq_refl).
Defined.

(** ** Marshalling of dates and datetimes *)

Lemma in_range_time y m d h mi s :
  time_in_range h mi s = true ->
  DateTime.in_range y m d h mi s = DateTime.in_range y m d 0 0 0.
Proof.
  unfold time_in_range, DateTime.in_range. intros H.
  rewrite <- !andb_assoc in H. rewrite <- !andb_assoc.
  do 6 f_equal. rewrite H. reflexivity.
Qed.

(** X3.  At a period type of whole days, months or quarters the time of
    day is dropped: a datetime is marshalled to the same period as its
    date. *)
Theorem from_datetime_like_drops_time time_period_type y m d h mi s us :
  time_period_type ∈ [Day; Month; Quarter] ->
  time_in_range h mi s = true ->
  _from_datetime_like (a_datetime (datetime.mk y m d h mi s us)) time_period_type
  = _from_datetime_like (a_date y m d) time_period_type.
Proof.
  intros Hty Htime. unfold _from_datetime_like, DateTime.new. simpl.
  rewrite (in_range_time _ _ _ _ _ _ Htime).
  destruct (DateTime.in_range y m d 0 0 0); [|reflexivity].
  repeat (apply elem_of_cons in Hty as [-> | Hty]); [reflexivity .. |].
  by apply elem_of_nil in Hty.
Qed.

Lemma from_datetime_like_drops_time_witness :
  _from_datetime_like (a_datetime (datetime.mk 2019 8 29 13 45 10 250)) Day
  = _from_datetime_like (a_date 2019 8 29) Day.
Proof.
  apply from_datetime_like_drops_time.
  - apply list_elem_of_here.
  - reflexivity.
Defined.

(** ** Accessors *)

(** X8.  When the period of an accessor call cannot be marshalled (say
    30 February), the call raises that error whatever the engine would
    answer. *)
Theorem accessor_rejects_period net op period time_period_type self e :
  operation_period op = Some period ->
  FREQ_TO_PERIOD_TYPE !! CmdtyStorage._freq self = Some time_period_type ->
  _from_datetime_like period time_period_type = Raise e ->
  CmdtyStorage.eval (CmdtyStorage.perform net op) self = Raise e.
Proof.
  intros Hop Hty Hp.
  assert (CmdtyStorage._net_time_period period self = (Raise e, self)) as Hnp.
  { unfold CmdtyStorage._net_time_period, bind, get, lift. by rewrite Hty, Hp. }
  destruct op; simpl in Hop; inversion Hop; subst;
    unfold CmdtyStorage.eval, CmdtyStorage.perform, CmdtyStorage.fmap,
      CmdtyStorage.inject_withdraw_range, CmdtyStorage.min_inventory,
      CmdtyStorage.max_inventory, CmdtyStorage.injection_cost,
      CmdtyStorage.cmdty_consumed_inject, CmdtyStorage.withdrawal_cost,
      CmdtyStorage.cmdty_consumed_withdraw, CmdtyStorage.inventory_pcnt_loss,
      CmdtyStorage.inventory_cost;
    unfold bind at 1; unfold bind at 1; by rewrite Hnp.
Qed.

Lemma accessor_rejects_period_witness :
  CmdtyStorage.eval
    (CmdtyStorage.perform SampleEngine.net (CmdtyStorage.call_min_inventory (a_date 2019 2 30)))
    TestCmdtyStorage.storage
  = Raise (DotNet (ArgumentOutOfRangeException
             "Year, Month, and Day parameters describe an un-representable DateTime.")).
Proof.
  apply (accessor_rejects_period SampleEngine.net
           (CmdtyStorage.call_min_inventory (a_date 2019 2 30)) (a_date 2019 2 30) Day).
  - reflexivity.
  - reflexivity.
  - reflexivity.
Defined.

(** X9.  A cost accessor ([injection_cost], [withdrawal_cost],
    [inventory_cost]) returns 0.0 when the engine reports no cash flow,
    and otherwise the amount of the first cash flow, whatever follows
    it. *)
Theorem cost_accessors_first_cash_flow net self period time_period_type np
    inventory volume :
  FREQ_TO_PERIOD_TYPE !! CmdtyStorage._freq self = Some time_period_type ->
  _from_datetime_like period time_period_type = Ok np ->
  (forall costs,
     InjectionCost net (CmdtyStorage._net_storage self) np inventory volume = inr costs ->
     CmdtyStorage.eval (CmdtyStorage.injection_cost net period inventory volume) self
     = Ok (match costs with [] => 0%Qc | c :: _ => Amount c end)) /\
  (forall costs,
     WithdrawalCost net (CmdtyStorage._net_storage self) np inventory volume = inr costs ->
     CmdtyStorage.eval (CmdtyStorage.withdrawal_cost net period inventory volume) self
     = Ok (match costs with [] => 0%Qc | c :: _ => Amount c end)) /\
  (forall costs,
     CmdtyInventoryCost net (CmdtyStorage._net_storage self) np inventory = inr costs ->
     CmdtyStorage.eval (CmdtyStorage.inventory_cost net period inventory) self
     = Ok (match costs with [] => 0%Qc | c :: _ => Amount c end)).
Proof.
  intros Hty Hp. pose proof (net_time_period_Ok _ _ _ _ Hty Hp) as Hnp.
  repeat split; intros costs Hc;
    unfold CmdtyStorage.eval, CmdtyStorage.injection_cost, CmdtyStorage.withdrawal_cost,
      CmdtyStorage.inventory_cost;
    unfold bind at 1; rewrite Hnp; unfold bind, get, lift, ret; rewrite Hc;
    destruct costs; reflexivity.
Qed.

Lemma cost_accessors_first_cash_flow_witness :
  CmdtyStorage.eval
    (CmdtyStorage.injection_cost SampleEngine.net (a_date 2019 8 29) (dec 1000 1) (dec 10 1))
    TestCmdtyStorage.storage = Ok 0%Qc /\
  CmdtyStorage.eval
    (CmdtyStorage.withdrawal_cost SampleEngine.net (a_date 2019 8 29) (dec 1000 1) (dec 10 1))
    TestCmdtyStorage.storage = Ok (dec 2 100 * dec 10 1)%Qc.
Proof.
  pose proof (cost_accessors_first_cash_flow SampleEngine.net TestCmdtyStorage.storage
                (a_date 2019 8 29) Day (SampleEngine.day 2019 8 29) (dec 1000 1) (dec 10 1)
                eq_refl eq_refl) as (Hi & Hw & _).
  split.
  - exact (Hi [] eq_refl).
  - exact (Hw _ eq_refl).
Defined.

(** ** Series *)

Lemma series_to_time_series_Forall2 series time_period_type ts :
  _series_to_time_series series time_period_type = Ok ts ->
  Forall2 (fun item net =>
             _from_datetime_like (a_period item.1) time_period_type = Ok net.1 /\
             net.2 = item.2)
          (items series) ts.
Proof.
  unfold _series_to_time_series. revert ts.
  induction (items series) as [|[p v] l IH]; intros ts; simpl.
  - intros H; inversion H; constructor.
  - destruct (_from_datetime_like (a_period p) time_period_type) as [n|] eqn:Hp;
      [|discriminate]. simpl.
    destruct (mapR _ l) as [ts'|]; [|discriminate].
    intros H; inversion H; subst. constructor; [by split | by apply IH].
Qed.



(** X5.  [_net_time_series_to_pandas_series] reads the first index of
    the engine series and no other: two engine series with the same first
    index and the same values give the same pandas series.  An empty
    engine series raises. *)
Theorem net_time_series_to_pandas_series_first_index first v rest1 rest2 f :
  is_raise (_net_time_series_to_pandas_series [] f) = true /\
  (map snd rest1 = map snd rest2 ->
   _net_time_series_to_pandas_series ((first, v) :: rest1) f
   = _net_time_series_to_pandas_series ((first, v) :: rest2) f).
Proof.
  split; [reflexivity|]. intros Hv.
  unfold _net_time_series_to_pandas_series. simpl.
  assert (length rest1 = length rest2) as ->
    by (rewrite <- (length_map snd rest1), Hv; apply length_map).
  by rewrite Hv.
Qed.

Lemma net_time_series_to_pandas_series_first_index_witness :
  _net_time_series_to_pandas_series
    [ (SampleEngine.day 2019 8 28, dec 5 1); (SampleEngine.day 2019 8 29, dec 6 1) ] "D"
  = _net_time_series_to_pandas_series
      [ (SampleEngine.day 2019 8 28, dec 5 1); (SampleEngine.day 2031 1 1, dec 6 1) ] "D".
Proof.
  apply (proj2 (net_time_series_to_pandas_series_first_index
                  (SampleEngine.day 2019 8 28) (dec 5 1)
                  [ (SampleEngine.day 2019 8 29, dec 6 1) ]
                  [ (SampleEngine.day 2031 1 1, dec 6 1) ] "D")).
  reflexivity.
Defined.

Lemma zip_fst_snd {A B} (l : list (A * B)) : zip (map fst l) (map snd l) = l.
Proof. induction l as [|[a b] l IH]; simpl; [reflexivity | by rewrite IH]. Qed.

(** X6.  A pandas series goes to the engine and back unchanged when its
    index runs over consecutive periods of its frequency and its first
    period is marshalled to itself. *)
Theorem series_roundtrip series time_period_type first ts :
  map fst (items series) = periods_from first (length (items series)) ->
  items series <> [] ->
  freq first = index_freq series ->
  marshal_roundtrip first time_period_type = Ok first ->
  _series_to_time_series series time_period_type = Ok ts ->
  _net_time_series_to_pandas_series ts (index_freq series) = Ok series.
Proof.
  intros Hidx Hne Hf Hfirst Hts.
  pose proof (series_to_time_series_Forall2 series time_period_type ts Hts) as Hall.
  destruct series as [f l]. simpl in *.
  destruct l as [|[p v] l]; [done|]. clear Hne.
  inversion Hall as [|? [n v'] ? ts' [Hp Hv] Hrest]; subst. simpl in Hp, Hv. subst v'.
  simpl in Hidx. inversion Hidx as [[Ep Hidx']]. subst p.
  unfold marshal_roundtrip in Hfirst. rewrite Hp in Hfirst. simpl in Hfirst.
  unfold _net_time_period_to_pandas_period in Hfirst.
  unfold _net_time_series_to_pandas_series, pd_period_range.
  destruct (_net_datetime_to_py_datetime (Start n)) as [dt|]; [|discriminate].
  simpl. rewrite Hfirst. simpl.
  assert (map snd ts' = map snd l) as Hvals.
  { clear -Hrest. induction Hrest as [|[? ?] [? ?] ? ? [_ Hv] _ IH]; simpl in *;
      [reflexivity | by rewrite Hv, IH]. }
  assert (length ts' = length l) as Hlen
    by (symmetry; eapply Forall2_length; eauto).
  rewrite Hlen, Hvals, <- Hidx'. by rewrite zip_fst_snd.
Qed.

Lemma series_roundtrip_witness :
  _net_time_series_to_pandas_series
    [ (SampleEngine.day 2019 8 28, dec 50 1); (SampleEngine.day 2019 8 29, dec 51 1) ] "D"
  = Ok Sample.daily_curve.
Proof.
  apply (series_roundtrip Sample.daily_curve Day (mkPeriod "D" 2019 8 28 0 0)).
  - reflexivity.
  - discriminate.
  - reflexivity.
  - reflexivity.
  - reflexivity.
Defined.

(** A quarterly series comes back from the engine as it went. *)
Example quarterly_series_roundtrip :
  (let? ts := _series_to_time_series Quarterly.curve Quarter in
   _net_time_series_to_pandas_series ts "Q")%py = Ok Quarterly.curve.
Proof. reflexivity. Qed.

(** ** The calls of a valuation *)

(** X7.  A valuation that returns has configured the engine completely
    and in a fixed order before the one call of [Calculate], which comes
    last: storage, starting inventory, current period (the marshalled
    valuation date), forward curve (the marshalled series), settlement
    rule, interest rates, number of grid points, interpolation and
    tolerance, each argument handed on unchanged. *)
Theorem intrinsic_value_calls accepts calculate freqstr cmdty_storage val_date inventory
    forward_curve settlement_rule interest_rates num_inventory_grid_points
    numerical_tolerance r calls :
  intrinsic_value accepts calculate freqstr cmdty_storage val_date inventory forward_curve
    settlement_rule interest_rates num_inventory_grid_points numerical_tolerance []
  = (Ok r, calls) ->
  exists time_period_type current_period net_forward_curve,
    FREQ_TO_PERIOD_TYPE !! CmdtyStorage._freq cmdty_storage = Some time_period_type /\
    _from_datetime_like val_date time_period_type = Ok current_period /\
    _series_to_time_series forward_curve time_period_type = Ok net_forward_curve /\
    calls =
      [ ForStorage (CmdtyStorage._net_storage cmdty_storage);
        WithStartingInventory inventory;
        ForCurrentPeriod current_period;
        WithForwardCurve net_forward_curve;
        WithCmdtySettlementRule settlement_rule;
        WithAct365ContinuouslyCompoundedInterestRate (interest_rate_func interest_rates);
        WithFixedNumberOfPointsOnGlobalInventoryRange num_inventory_grid_points;
        WithLinearInventorySpaceInterpolation;
        WithNumericalTolerance numerical_tolerance;
        Calculate ].
Proof.
  unfold intrinsic_value. intros H.
  apply bind_returns in H as (f & s0 & Hf & H). inversion Hf; subst f s0; clear Hf.
  destruct (negb _); [discriminate|].
  destruct (FREQ_TO_PERIOD_TYPE !! CmdtyStorage._freq cmdty_storage) as [ty|];
    [|discriminate].
  apply bind_returns in H as (ns & s1 & Hns & H). inversion Hns; subst ns s1; clear Hns.
  apply bind_returns in H as ([] & s2 & [_ ->]%net_call_returns & H).
  apply bind_returns in H as ([] & s3 & [_ ->]%net_call_returns & H).
  apply bind_returns in H as (cp & s4 & [Hcp ->]%lift_returns & H).
  apply bind_returns in H as ([] & s5 & [_ ->]%net_call_returns & H).
  apply bind_returns in H as (fc & s6 & [Hfc ->]%lift_returns & H).
  apply bind_returns in H as ([] & s7 & [_ ->]%net_call_returns & H).
  apply bind_returns in H as ([] & s8 & [_ ->]%net_call_returns & H).
  apply bind_returns in H as ([] & s9 & [_ ->]%net_call_returns & H).
  apply bind_returns in H as ([] & s10 & [_ ->]%net_call_returns & H).
  apply bind_returns in H as ([] & s11 & [_ ->]%net_call_returns & H).
  apply bind_returns in H as ([] & s12 & [_ ->]%net_call_returns & H).
  apply bind_returns in H as (nr & s13 & Hcalc & H).
  unfold net_calculate in Hcalc. inversion Hcalc; subst s13; clear Hcalc.
  apply bind_returns in H as (dp & s14 & [_ ->]%lift_returns & H).
  apply bind_returns in H as (cc & s15 & [_ ->]%lift_returns & H).
  inversion H; subst.
  exists ty, cp, fc. repeat split; assumption || reflexivity.
Qed.

Lemma intrinsic_value_calls_witness :
  exists time_period_type current_period net_forward_curve,
    FREQ_TO_PERIOD_TYPE !! "D" = Some time_period_type /\
    _from_datetime_like (a_date 2019 8 28) time_period_type = Ok current_period /\
    _series_to_time_series Sample.daily_curve time_period_type = Ok net_forward_curve /\
    snd (Sample.valuation Sample.daily_curve 100) =
      [ ForStorage (CmdtyStorage._net_storage TestCmdtyStorage.storage);
        WithStartingInventory 0%Qc;
        ForCurrentPeriod current_period;
        WithForwardCurve net_forward_curve;
        WithCmdtySettlementRule Sample.settlement_rule;
        WithAct365ContinuouslyCompoundedInterestRate
          (interest_rate_func Sample.interest_rates);
        WithFixedNumberOfPointsOnGlobalInventoryRange 100;
        WithLinearInventorySpaceInterpolation;
        WithNumericalTolerance (dec 1 1000000000000);
        Calculate ].
Proof.
  apply (intrinsic_value_calls Sample.accepts Sample.calculate Sample.freqstr
           TestCmdtyStorage.storage
           (a_date 2019 8 28) 0%Qc Sample.daily_curve Sample.settlement_rule
           Sample.interest_rates 100 (dec 1 1000000000000) Sample.results).
  reflexivity.
Defined.

Lemma snd_bind {S A B} (m : M S A) (k : A -> M S B) s :
  snd (bind m k s) =
  match m s with
  | (Ok a, s') => snd (k a s')
  | (Raise _, s') => s'
  end.
Proof. unfold bind. by destruct (m s) as [[a|e] s']. Qed.

Ltac not_calculate H :=
  simpl in H;
  repeat (apply elem_of_cons in H as [H|H]; [discriminate|]);
  by apply elem_of_nil in H.

Ltac step_call H Hacc :=
  rewrite snd_bind in H;
  match type of H with
  | context [net_call ?accepts ?c ?calls] =>
      unfold net_call at 1 in H;
      destruct (accepts calls c) eqn:Hacc; [not_calculate H|]
  end.

Ltac step_lift H E :=
  rewrite snd_bind in H; unfold lift at 1 in H; cbv beta iota in H;
  match type of H with
  | _ ∈ match ?r with _ => _ end => destruct r eqn:E; [|not_calculate H]
  end.

(** X10.  [Calculate] is only ever called on a completely configured
    engine: if the valuation, returning or raising, has called it, then
    the valuation date and the curve were marshalled, the engine accepted
    each of the nine configuration calls, and [Calculate] was called once,
    last.  So a rejected call or a date that cannot be marshalled stops
    the valuation before any computation. *)
Theorem intrinsic_value_calculates_when_configured accepts calculate freqstr cmdty_storage
    val_date inventory forward_curve settlement_rule interest_rates
    num_inventory_grid_points numerical_tolerance :
  Calculate ∈ snd (intrinsic_value accepts calculate freqstr cmdty_storage val_date inventory
                     forward_curve settlement_rule interest_rates
                     num_inventory_grid_points numerical_tolerance []) ->
  exists time_period_type current_period net_forward_curve inputs,
    FREQ_TO_PERIOD_TYPE !! CmdtyStorage._freq cmdty_storage = Some time_period_type /\
    _from_datetime_like val_date time_period_type = Ok current_period /\
    _series_to_time_series forward_curve time_period_type = Ok net_forward_curve /\
    inputs =
      [ ForStorage (CmdtyStorage._net_storage cmdty_storage);
        WithStartingInventory inventory;
        ForCurrentPeriod current_period;
        WithForwardCurve net_forward_curve;
        WithCmdtySettlementRule settlement_rule;
        WithAct365ContinuouslyCompoundedInterestRate (interest_rate_func interest_rates);
        WithFixedNumberOfPointsOnGlobalInventoryRange num_inventory_grid_points;
        WithLinearInventorySpaceInterpolation;
        WithNumericalTolerance numerical_tolerance ] /\
    (forall k c, inputs !! k = Some c -> accepts (take k inputs) c = None) /\
    snd (intrinsic_value accepts calculate freqstr cmdty_storage val_date inventory
           forward_curve settlement_rule interest_rates
           num_inventory_grid_points numerical_tolerance [])
    = inputs ++ [Calculate].
Proof.
  unfold intrinsic_value. intros H.
  rewrite snd_bind. rewrite snd_bind in H. simpl in H |- *.
  destruct (negb _); [not_calculate H|].
  destruct (FREQ_TO_PERIOD_TYPE !! CmdtyStorage._freq cmdty_storage) as [ty|] eqn:Hty;
    [|not_calculate H].
  rewrite snd_bind. rewrite snd_bind in H. simpl in H |- *.
  step_call H A1. step_call H A2. step_lift H Ecp. step_call H A3.
  step_lift H Efc. step_call H A4. step_call H A5. step_call H A6.
  step_call H A7. step_call H A8. step_call H A9.
  match type of Ecp with _ = Ok ?cp => match type of Efc with _ = Ok ?fc =>
    exists ty, cp, fc; eexists;
    split; [reflexivity|]; split; [exact Ecp|]; split; [exact Efc|];
    split; [reflexivity|] end end.
  split.
  - intros k c Hk. simpl in *.
    do 9 (destruct k as [|k];
          [inversion Hk; subst;
           first [exact A1 | exact A2 | exact A3 | exact A4 | exact A5
                 | exact A6 | exact A7 | exact A8 | exact A9]|]).
    inversion Hk.
  - simpl in A1, A2, A3, A4, A5, A6, A7, A8, A9.
    do 11 (rewrite snd_bind; unfold net_call, lift; simpl;
           try first [ rewrite A1 | rewrite A2 | rewrite A3 | rewrite A4 | rewrite A5
                     | rewrite A6 | rewrite A7 | rewrite A8 | rewrite A9 ]; simpl).
    unfold net_calculate, bind, lift, ret. simpl.
    destruct (of_net (calculate _)) as [nr|]; [|reflexivity].
    destruct (_net_time_series_to_pandas_series (DecisionProfile nr) _); [|reflexivity].
    destruct (_net_time_series_to_pandas_series (CmdtyVolumeConsumed nr) _); reflexivity.
Qed.

Lemma intrinsic_value_calculates_when_configured_witness :
  exists inputs,
    length inputs = 9%nat /\
    snd (Sample.valuation Sample.daily_curve 100) = inputs ++ [Calculate].
Proof.
  destruct (intrinsic_value_calculates_when_configured Sample.accepts Sample.calculate
              Sample.freqstr
              TestCmdtyStorage.storage (a_date 2019 8 28) 0%Qc Sample.daily_curve
              Sample.settlement_rule Sample.interest_rates 100 (dec 1 1000000000000))
    as (ty & cp & fc & inputs & _ & _ & _ & Hin & _ & Hcalls).
  - apply list_elem_of_lookup. exists 9%nat. reflexivity.
  - exists inputs. split; [by subst inputs | exact Hcalls].
Defined.

(** * The sample notebook *)

(** ** Reading the ratchet sheet *)

Lemma contents_ext h h' (ratchets : list storage_gui.item) :
  (forall it, it ∈ ratchets -> storage_gui.lists h' !! it.2 = storage_gui.lists h !! it.2) ->
  storage_gui.contents h' ratchets = storage_gui.contents h ratchets.
Proof.
  intros H. unfold storage_gui.contents. apply map_ext_in.
  intros it Hin. rewrite H; [reflexivity | by apply list_elem_of_In].
Qed.

Lemma contents_app h (r1 r2 : list storage_gui.item) :
  storage_gui.contents h (r1 ++ r2) = storage_gui.contents h r1 ++ storage_gui.contents h r2.
Proof. unfold storage_gui.contents. apply map_app. Qed.

Lemma numbered_lt (ratchets : list storage_gui.item) n it :
  map snd ratchets = seq 0 n -> it ∈ ratchets -> (it.2 < n)%nat.
Proof.
  intros Hn Hin.
  assert (it.2 ∈ seq 0 n) as H.
  { rewrite <- Hn. apply list_elem_of_In, in_map, list_elem_of_In, Hin. }
  apply elem_of_seq in H. lia.
Qed.

Lemma read_ratchets_step_invariant st done ratch st' :
  storage_gui.read_ratchets_invariant st done ->
  storage_gui.read_ratchets_step st ratch = inr st' ->
  storage_gui.read_ratchets_invariant st' (done ++ [ratch]).
Proof.
  destruct st as [[h ratchets] dt_item].
  intros (Hnum & Hlast & groups & Hcat & Hgroups).
  unfold storage_gui.read_ratchets_step, storage_gui.new_breakpoint,
    storage_gui.parse_period.
  destruct (storage_gui.date ratch) as [[[y m] d]|] eqn:Hdate.
  - destruct (storage_gui.is_date (y, m, d)); [|discriminate].
    destruct (storage_gui.inject_rate ratch) as [x|] eqn:Hx; [|discriminate].
    intros H; inversion H; subst st'; clear H.
    unfold storage_gui.read_ratchets_invariant.
    cbn [storage_gui.next storage_gui.lists].
    split; [|split].
    + rewrite map_app, seq_S. simpl. f_equal. exact Hnum.
    + by rewrite last_snoc.
    + exists (groups ++ [[ratch]]). split.
      * rewrite concat_app, Hcat. reflexivity.
      * rewrite contents_app. apply Forall2_app.
        -- rewrite (contents_ext h); [exact Hgroups|].
           intros it Hin. simpl. apply lookup_insert_ne.
           pose proof (numbered_lt _ _ _ Hnum Hin). lia.
        -- constructor; [|constructor]. simpl. rewrite lookup_insert_eq. simpl.
           split; [eauto|]. split; [constructor|].
           constructor; [|constructor]. repeat split; simpl.
           by rewrite Qcopp_involutive.
  - destruct dt_item as [[p l]|]; [|discriminate].
    destruct (storage_gui.inject_rate ratch) as [x|] eqn:Hx; [|discriminate].
    intros H; inversion H; subst st'; clear H.
    unfold storage_gui.read_ratchets_invariant.
    cbn [storage_gui.next storage_gui.lists].
    split; [exact Hnum|]. split; [exact Hlast|].
    symmetry in Hlast. apply last_Some in Hlast as [rs0 ->].
    rewrite contents_app in Hgroups.
    apply Forall2_app_inv_l in Hgroups as (g0 & glast & Hg0 & Hglast & ->).
    inversion Hglast as [|c g ? gs Hg Hnil]; subst. inversion Hnil; subst.
    assert (l ∉ map snd rs0) as Hfresh.
    { rewrite map_app in Hnum. simpl in Hnum.
      destruct (storage_gui.next h) as [|n]; [by destruct rs0|].
      rewrite seq_S in Hnum. simpl in Hnum.
      apply app_inj_2 in Hnum as [Hrs0 Hl]; [|reflexivity].
      inversion Hl; subst l. intros Hin.
      assert (n ∈ seq 0 n) as Hn by (rewrite <- Hrs0; exact Hin).
      apply elem_of_seq in Hn. lia. }
    exists (g0 ++ [g ++ [ratch]]). split.
    + rewrite !concat_app. simpl. rewrite ?app_nil_r. by rewrite app_assoc.
    + rewrite contents_app. apply Forall2_app.
      * rewrite (contents_ext h); [exact Hg0|].
        intros it Hin. simpl. apply lookup_alter_ne.
        intros ->. apply Hfresh. apply list_elem_of_In, in_map, list_elem_of_In, Hin.
      * constructor; [|constructor]. simpl in *. rewrite lookup_alter_eq.
        destruct g as [|r0 rest]; [done|].
        destruct Hg as (Hd & Hrest & Hbps). simpl.
        split; [exact Hd|]. split.
        -- apply Forall_app. split; [exact Hrest | by constructor].
        -- destruct (storage_gui.lists h !! l) as [old|]; simpl in *.
           ++ change (r0 :: rest ++ [ratch]) with ((r0 :: rest) ++ [ratch]).
              apply Forall2_app; [exact Hbps|].
              constructor; [|constructor]. repeat split; simpl.
              by rewrite Qcopp_involutive.
           ++ inversion Hbps.
Qed.

Lemma read_ratchets_loop_invariant rows st done st' :
  storage_gui.read_ratchets_invariant st done ->
  storage_gui.read_ratchets_loop st rows = inr st' ->
  storage_gui.read_ratchets_invariant st' (done ++ rows).
Proof.
  revert st done. induction rows as [|ratch rows IH]; intros st done Hinv; simpl.
  - intros H; inversion H; subst. by rewrite app_nil_r.
  - destruct (storage_gui.read_ratchets_step st ratch) as [e|st1] eqn:Hstep; [discriminate|].
    intros H. rewrite (cons_middle ratch done rows), app_assoc.
    eapply IH; [|exact H]. by eapply read_ratchets_step_invariant.
Qed.

(** X11.  [read_ratchets] loses no row and keeps the order: when it
    returns, the rows read from the sheet are cut into consecutive groups,
    one for each returned ratchet; a group starts with a row that has a
    date, the period of the ratchet, and goes on with the rows without a
    date that follow it; the list of the ratchet holds one breakpoint for
    each row of the group, in order.  The rows added after the tuple was
    put into the list are there, as tuple and variable share the list. *)
Theorem read_ratchets_groups sheet h ratchets :
  storage_gui.read_ratchets sheet = inr (h, ratchets) ->
  storage_gui.grouped (storage_gui.contents h ratchets)
    (storage_gui.enumerate_ratchets sheet).
Proof.
  unfold storage_gui.read_ratchets.
  destruct (storage_gui.read_ratchets_loop _ _) as [e|[[h' rs] dt]] eqn:Hloop;
    [discriminate|].
  intros H; inversion H; subst.
  apply (read_ratchets_loop_invariant _ _ []) in Hloop as (_ & _ & Hg); [exact Hg|].
  repeat split. exists []. split; [reflexivity | constructor].
Qed.

Lemma read_ratchets_groups_witness :
  match storage_gui.read_ratchets (storage_gui.sheet_of storage_gui.test_rows) with
  | inr (h, ratchets) =>
      length ratchets = 2%nat /\
      storage_gui.grouped (storage_gui.contents h ratchets)
        (storage_gui.enumerate_ratchets (storage_gui.sheet_of storage_gui.test_rows))
  | inl _ => False
  end.
Proof.
  destruct (storage_gui.read_ratchets (storage_gui.sheet_of storage_gui.test_rows))
    as [e|[h ratchets]] eqn:E.
  - vm_compute in E. discriminate E.
  - split.
    + vm_compute in E. by inversion E.
    + exact (read_ratchets_groups _ _ _ E).
Defined.

Lemma read_ratchets_loop_bound st rows :
  st.2 <> None ->
  (exists st', storage_gui.read_ratchets_loop st rows = inr st') <->
  Forall storage_gui.row_readable rows.
Proof.
  revert st. induction rows as [|ratch rows IH]; intros [[h rs] dt] Hdt; simpl in *.
  - split; [constructor | eauto].
  - rewrite Forall_cons.
    unfold storage_gui.row_readable at 1, storage_gui.new_breakpoint,
      storage_gui.parse_period.
    destruct dt as [[p l]|]; [|done].
    destruct (storage_gui.date ratch) as [[[y m] d]|].
    + destruct (storage_gui.is_date (y, m, d)).
      * destruct (storage_gui.inject_rate ratch) as [x|].
        -- rewrite IH; [|simpl; discriminate].
           split; [intros ?; by repeat split | by intros [_ ?]].
        -- split; [intros [? H]; discriminate H | intros [[? _] _]; done].
      * split; [intros [? H]; discriminate H | intros [[_ H] _]; discriminate H].
    + destruct (storage_gui.inject_rate ratch) as [x|].
      * rewrite IH; [|simpl; discriminate].
        split; [intros ?; by repeat split | by intros [_ ?]].
      * split; [intros [? H]; discriminate H | intros [[? _] _]; done].
Qed.

(** X12.  With date cells in the format of the sheet, [read_ratchets]
    returns exactly when the sheet has no ratchet row, or its first row
    has a date and every row read has a number in the fourth column (the
    one that is negated) and a date cell that is blank or names a day of
    the calendar.  When the first row has no date it raises
    [UnboundLocalError]: [dt_item] is used before any assignment.  When
    the date of the first row names no day (2019-02-30), it raises the
    [DateParseError] of [pd.Period]. *)
Theorem read_ratchets_returns sheet :
  Forall storage_gui.date_in_format (storage_gui.enumerate_ratchets sheet) ->
  ((exists res, storage_gui.read_ratchets sheet = inr res) <->
   match storage_gui.enumerate_ratchets sheet with
   | [] => True
   | ratch :: rows =>
       storage_gui.date ratch <> None /\
       Forall storage_gui.row_readable (ratch :: rows)
   end) /\
  (forall ratch rows,
     storage_gui.enumerate_ratchets sheet = ratch :: rows ->
     storage_gui.date ratch = None ->
     storage_gui.read_ratchets sheet = inl (storage_gui.UnboundLocalError "dt_item")) /\
  (forall ratch rows ymd,
     storage_gui.enumerate_ratchets sheet = ratch :: rows ->
     storage_gui.date ratch = Some ymd -> storage_gui.is_date ymd = false ->
     exists msg, storage_gui.read_ratchets sheet = inl (storage_gui.DateParseError msg)).
Proof.
  intros _. unfold storage_gui.read_ratchets.
  destruct (storage_gui.enumerate_ratchets sheet) as [|ratch rows]; simpl.
  - split; [split; eauto | split; discriminate].
  - rewrite Forall_cons.
    unfold storage_gui.row_readable at 1, storage_gui.new_breakpoint,
      storage_gui.parse_period.
    destruct (storage_gui.date ratch) as [[[y m] d]|] eqn:Hdate.
    + destruct (storage_gui.is_date (y, m, d)) eqn:Hd.
      * split; [|split; [intros ? ? H Hn; inversion H; subst; congruence
                        |intros ? ? ? H Hs Hf; inversion H; subst; congruence]].
        destruct (storage_gui.inject_rate ratch) as [x|] eqn:Hx.
        -- match goal with |- context [storage_gui.read_ratchets_loop ?st rows] =>
             pose proof (read_ratchets_loop_bound st rows ltac:(simpl; discriminate))
               as Hloop
           end.
           rewrite <- Hloop. split.
           ++ intros [res H].
              destruct (storage_gui.read_ratchets_loop _ rows) as [e|st'] eqn:E;
                [discriminate|]. repeat split; eauto; discriminate.
           ++ intros (_ & _ & st' & ->). destruct st' as [[h rs] dt]. eauto.
        -- split; [intros [? H]; discriminate H | intros (_ & [? _] & _); done].
      * split; [|split; [intros ? ? H Hn; inversion H; subst; congruence
                        |intros ? ? ? _ _ _; eauto]].
        split; [intros [? H]; discriminate H | intros (_ & [_ H] & _); discriminate H].
    + split; [|split; [intros ? ? _ _; reflexivity
                      |intros ? ? ? H Hs; inversion H; subst; congruence]].
      split; [intros [? H]; discriminate H | intros [? _]; done].
Qed.

(** The text 2019-02-30 in the date cell of the first row. *)
Example read_ratchets_impossible_date :
  storage_gui.read_ratchets
    (storage_gui.sheet_of
       [ storage_gui.mk_row (Some (2019, 2, 30)) (Some 0%Qc) (Some (dec 650 1))
           (Some (dec 7027 10)) ])
  = inl (storage_gui.DateParseError "day is out of range for month").
Proof. reflexivity. Qed.

Lemma enumerate_ratchets_from_prefix sheet remaining start :
  exists n,
    (n <= remaining)%nat /\
    storage_gui.enumerate_ratchets_from sheet remaining start =
      map (fun k => storage_gui.mkRatchetRow
                      (storage_gui.column0 (sheet k)) (storage_gui.column1 (sheet k))
                      (storage_gui.column3 (sheet k)) (storage_gui.column2 (sheet k)))
          (seq start n) /\
    (forall k, (start <= k < start + n)%nat -> storage_gui.column1 (sheet k) <> None) /\
    ((n < remaining)%nat -> storage_gui.column1 (sheet (start + n)%nat) = None).
Proof.
  revert start. induction remaining as [|remaining IH]; intros start; simpl.
  - exists 0%nat. split; [lia|]. split; [reflexivity|]. split; [intros k Hk; lia | lia].
  - destruct (storage_gui.column1 (sheet start)) as [x|] eqn:Hx.
    + destruct (IH (S start)) as (n & Hn & -> & Hfull & Hstop).
      exists (S n). split; [lia|]. split; [simpl; by rewrite Hx|]. split.
      * intros k Hk. destruct (decide (k = start)) as [-> | Hne]; [by rewrite Hx|].
        apply Hfull. lia.
      * intros Hlt. replace (start + S n)%nat with (S start + n)%nat by lia.
        apply Hstop. lia.
    + exists 0%nat. split; [lia|]. split; [reflexivity|]. split; [intros k Hk; lia|].
      intros _. by rewrite Nat.add_0_r.
Qed.

(** X13.  [enumerate_ratchets] yields the rows of the sheet from the top
    down to the first row whose inventory cell is blank, and at most 20 of
    them; each row yielded has an inventory, and takes its [inject_rate]
    from the fourth column and its [withdraw_rate] from the third. *)
Theorem enumerate_ratchets_prefix sheet :
  exists n,
    (n <= 20)%nat /\
    storage_gui.enumerate_ratchets sheet =
      map (fun k => storage_gui.mkRatchetRow
                      (storage_gui.column0 (sheet k)) (storage_gui.column1 (sheet k))
                      (storage_gui.column3 (sheet k)) (storage_gui.column2 (sheet k)))
          (seq 0 n) /\
    (forall k, (k < n)%nat -> storage_gui.column1 (sheet k) <> None) /\
    ((n < 20)%nat -> storage_gui.column1 (sheet n) = None).
Proof.
  destruct (enumerate_ratchets_from_prefix sheet storage_gui.num_ratch_rows 0)
    as (n & Hn & E & Hfull & Hstop).
  exists n. split; [exact Hn|]. split; [exact E|]. split; [|exact Hstop].
  intros k Hk. apply Hfull. lia.
Qed.

Lemma read_ratchets_returns_witness :
  storage_gui.read_ratchets
    (storage_gui.sheet_of
       [ storage_gui.mk_row None (Some 0%Qc) (Some (dec 650 1)) (Some (dec 7027 10)) ])
  = inl (storage_gui.UnboundLocalError "dt_item").
Proof.
  assert (Forall storage_gui.date_in_format
            (storage_gui.enumerate_ratchets
               (storage_gui.sheet_of
                  [ storage_gui.mk_row None (Some 0%Qc) (Some (dec 650 1))
                      (Some (dec 7027 10)) ]))) as Hformat
    by (repeat constructor).
  eapply (proj1 (proj2 (read_ratchets_returns _ Hformat))).
  - reflexivity.
  - reflexivity.
Defined.

(** ** The settlement date *)

Lemma Period_next_day y m d :
  Period_next (mkPeriod "D" y m d 0 0)
  = (let '(y', m', d') := next_day y m d in mkPeriod "D" y' m' d' 0 0).
Proof. reflexivity. Qed.

Lemma Period_add_S p (n : nat) :
  storage_gui.Period_add p (S n) = storage_gui.Period_add (Period_next p) n.
Proof. reflexivity. Qed.

Lemma Period_add_days y m d (n : nat) :
  d + Z.of_nat n <= days_in_month y m ->
  storage_gui.Period_add (mkPeriod "D" y m d 0 0) n
  = mkPeriod "D" y m (d + Z.of_nat n) 0 0.
Proof.
  revert d. induction n as [|n IH]; intros d Hd.
  - simpl. do 2 f_equal. lia.
  - rewrite Period_add_S, Period_next_day. unfold next_day.
    assert ((d <? days_in_month y m) = true) as -> by (apply Z.ltb_lt; lia).
    rewrite IH by lia. f_equal. lia.
Qed.

(** X14.  [twentieth_of_next_month] gives, for a day of any month, the
    20th day of the month after, in January of the next year for a day of
    December; for a longer period the month is the one in which the
    period ends. *)
Theorem twentieth_of_next_month_is period :
  1 <= Period_month period <= 12 ->
  storage_gui.twentieth_of_next_month period
  = if Period_month period =? 12
    then mkPeriod "D" (Period_year period + 1) 1 20 0 0
    else mkPeriod "D" (Period_year period) (Period_month period + 1) 20 0 0.
Proof.
  unfold storage_gui.twentieth_of_next_month, storage_gui.asfreq_D_end,
    storage_gui.asfreq_M.
  cbn [start_year start_month].
  generalize (Period_month period), (Period_year period). intros m y Hm.
  rewrite (Period_add_S _ 19), Period_next_day. unfold next_day.
  rewrite Z.ltb_irrefl.
  destruct (m =? 12) eqn:E.
  - apply Z.eqb_eq in E. subst m. change (12 <? 12) with false. cbv iota beta.
    rewrite Period_add_days by (simpl; lia). reflexivity.
  - apply Z.eqb_neq in E.
    assert ((m <? 12) = true) as -> by (apply Z.ltb_lt; lia).
    pose proof (days_in_month_bounds y (m + 1) ltac:(lia)).
    rewrite Period_add_days by (simpl; lia). reflexivity.
Qed.

Lemma twentieth_of_next_month_is_witness :
  storage_gui.twentieth_of_next_month (mkPeriod "D" 2019 12 5 0 0)
  = mkPeriod "D" 2020 1 20 0 0.
Proof.
  apply (twentieth_of_next_month_is (mkPeriod "D" 2019 12 5 0 0)).
  vm_compute. split; discriminate.
Defined.

Example twentieth_of_next_month_quarter :
  storage_gui.twentieth_of_next_month (mkPeriod "Q" 2019 4 1 0 0)
  = mkPeriod "D" 2019 7 20 0 0.
Proof. reflexivity. Qed.

(** * Marshalling, further *)

(** X16.  For a date, the engine period converted back is the pandas
    period of that date: marshalling [date(y, m, d)] at a supported
    frequency and converting back gives [pd.Period(date, freq)]. *)
Theorem date_roundtrip_is_period f time_period_type y m d :
  FREQ_TO_PERIOD_TYPE !! f = Some time_period_type ->
  DateTime.in_range y m d 0 0 0 = true ->
  (let? n := _from_datetime_like (a_date y m d) time_period_type in
   _net_time_period_to_pandas_period n f)%py
  = pd_Period (datetime.mk y m d 0 0 0 0) f.
Proof.
  intros Hty Hr. apply FREQ_TO_PERIOD_TYPE_cases in Hty.
  pose proof (in_range_elim _ _ _ _ _ _ Hr) as (Hy & Hm & Hd & _).
  unfold _from_datetime_like, _net_time_period_to_pandas_period,
    _net_datetime_to_py_datetime, DateTime.new, datetime.new,
    TimePeriodFactory.FromDateTime.
  cbn [hasattr_hour attr_year attr_month attr_day]. rewrite Hr.
  repeat (apply elem_of_cons in Hty as [Hty|Hty]);
    [inversion Hty; subst f time_period_type; clear Hty .. | by apply elem_of_nil in Hty];
    cbn -[DateTime.in_range days_in_month Z.modulo Z.sub Z.add].
  - closed_mod. change (0 - 0) with 0. rewrite Hr. reflexivity.
  - closed_mod. change (0 - 0) with 0. rewrite Hr. reflexivity.
  - rewrite Hr. reflexivity.
  - rewrite Hr. reflexivity.
  - pose proof (days_in_month_bounds y m Hm).
    rewrite in_range_intro; [reflexivity | lia ..].
  - assert (m = 1 \/ m = 2 \/ m = 3 \/ m = 4 \/ m = 5 \/ m = 6 \/ m = 7 \/ m = 8 \/
            m = 9 \/ m = 10 \/ m = 11 \/ m = 12) as Hcases by lia.
    repeat destruct Hcases as [-> | Hcases]; try subst m; closed_mod;
      (rewrite in_range_intro; [reflexivity | simpl; lia ..]).
Qed.

Lemma date_roundtrip_is_period_witness :
  (let? n := _from_datetime_like (a_date 2019 8 28) Month in
   _net_time_period_to_pandas_period n "M")%py = Ok (mkPeriod "M" 2019 8 1 0 0).
Proof.
  apply (date_roundtrip_is_period "M" Month 2019 8 28).
  - reflexivity.
  - reflexivity.
Defined.

Lemma marshal_roundtrip_unfold p ty :
  marshal_roundtrip p ty =
  if DateTime.in_range (Period_year p) (Period_month p) (Period_day p)
       (Period_hour p) (Period_minute p) (Period_second p)
  then
    let s := floor_to ty (DateTime.mk (Period_year p) (Period_month p) (Period_day p)
                            (Period_hour p) (Period_minute p) (Period_second p) 0) in
    if DateTime.in_range (DateTime.Year s) (DateTime.Month s) (DateTime.Day s)
         (DateTime.Hour s) (DateTime.Minute s) (DateTime.Second s)
       && (0 <=? DateTime.Millisecond s * 1000)
       && (DateTime.Millisecond s * 1000 <? 1000000)
    then pd_Period (datetime.mk (DateTime.Year s) (DateTime.Month s) (DateTime.Day s)
                      (DateTime.Hour s) (DateTime.Minute s) (DateTime.Second s)
                      (DateTime.Millisecond s * 1000)) (freq p)
    else Raise (ValueError "datetime field is out of range")
  else Raise (DotNet (ArgumentOutOfRangeException
         "Year, Month, and Day parameters describe an un-representable DateTime.")).
Proof.
  unfold marshal_roundtrip, _from_datetime_like, DateTime.new. simpl hasattr_hour.
  cbn [attr_year attr_month attr_day attr_hour attr_minute attr_second].
  destruct (DateTime.in_range _ _ _ _ _ _); [|reflexivity].
  unfold rbind, _net_time_period_to_pandas_period, _net_datetime_to_py_datetime,
    datetime.new, TimePeriodFactory.FromDateTime. cbn [Start].
  destruct (_ && _ && _); reflexivity.
Qed.

Ltac roundtrip_step :=
  cbv zeta;
  unfold Period_year, Period_month, Period_day, Period_hour, Period_minute,
    Period_second, pd_Period, floor_to;
  cbn -[DateTime.in_range days_in_month Z.modulo Z.sub Z.add].

Ltac roundtrip_returned H E :=
  match type of H with
  | (if ?c then _ else _) = _ =>
      destruct c eqn:E; [|discriminate H];
      cbn -[DateTime.in_range days_in_month Z.modulo Z.sub Z.add] in H;
      rewrite ?andb_true_r in E
  end.

(** X15.  Marshalling normalises a period: whatever period goes to the
    engine, the period that comes back is marshalled to itself. *)
Theorem marshal_roundtrip_idempotent (p q : Period) (time_period_type : PeriodType) :
  FREQ_TO_PERIOD_TYPE !! freq p = Some time_period_type ->
  marshal_roundtrip p time_period_type = Ok q ->
  marshal_roundtrip q time_period_type = Ok q.
Proof.
  destruct p as [f y m d h mi]. simpl. intros Hty H.
  apply FREQ_TO_PERIOD_TYPE_cases in Hty.
  rewrite marshal_roundtrip_unfold in H. rewrite marshal_roundtrip_unfold.
  repeat (apply elem_of_cons in Hty as [Hty|Hty]);
    [inversion Hty; subst f time_period_type; clear Hty .. | by apply elem_of_nil in Hty];
    revert H; roundtrip_step; intros H;
    roundtrip_returned H E1; roundtrip_returned H E2;
    inversion H; subst q; clear H;
    apply in_range_elim in E1 as (Hy & Hm & Hd & Hh & Hmi & _);
    roundtrip_step.
  - repeat (rewrite in_range_intro;
            [|lia || (Z.to_euclidean_division_equations; lia) ..];
            cbn -[DateTime.in_range days_in_month Z.modulo Z.sub Z.add]).
    do 2 f_equal. Z.to_euclidean_division_equations; lia.
  - repeat (rewrite in_range_intro;
            [|lia || (Z.to_euclidean_division_equations; lia) ..];
            cbn -[DateTime.in_range days_in_month Z.modulo Z.sub Z.add]).
    do 2 f_equal. Z.to_euclidean_division_equations; lia.
  - repeat (rewrite in_range_intro; [|lia ..]; cbn -[DateTime.in_range]).
    reflexivity.
  - repeat (rewrite in_range_intro; [|lia ..]; cbn -[DateTime.in_range]).
    reflexivity.
  - pose proof (days_in_month_bounds y m Hm).
    repeat (rewrite in_range_intro; [|lia ..]; cbn -[DateTime.in_range days_in_month]).
    reflexivity.
  - assert (m = -1 \/ m = 0 \/ m = 1 \/ m = 2 \/ m = 3 \/ m = 4 \/ m = 5 \/ m = 6 \/
            m = 7 \/ m = 8 \/ m = 9 \/ m = 10) as Hcases by lia.
    repeat destruct Hcases as [-> | Hcases]; try subst m;
      cbn -[DateTime.in_range days_in_month Z.modulo]; closed_mod;
      cbn -[DateTime.in_range days_in_month];
      repeat (rewrite in_range_intro; [|simpl; lia ..];
              cbn -[DateTime.in_range days_in_month]);
      reflexivity.
Qed.

Lemma marshal_roundtrip_idempotent_witness :
  marshal_roundtrip (mkPeriod "15min" 2019 8 28 0 15) QuarterHour
  = Ok (mkPeriod "15min" 2019 8 28 0 15).
Proof.
  apply (marshal_roundtrip_idempotent (mkPeriod "15min" 2019 8 28 0 20)).
  - reflexivity.
  - reflexivity.
Defined.

(** * The loop of the constructor *)

Lemma mapR_Forall2 {A B} (f : A -> result B) l l' :
  mapR f l = Ok l' -> Forall2 (fun a b => f a = Ok b) l l'.
Proof.
  revert l'. induction l as [|a l IH]; intros l' H; simpl in H.
  - inversion H. constructor.
  - destruct (f a) as [b|] eqn:Hfa; [|discriminate].
    destruct (mapR f l) as [bs|]; [|discriminate].
    inversion H; subst. constructor; [exact Hfa | by apply IH].
Qed.

(** X17.  The loop of the constructor hands the constraints to the engine
    as they are given: one ratchet for each constraint, in order, with the
    period of the constraint marshalled at the period type of the storage
    and with the same breakpoints (inventory, minimum rate, maximum rate)
    in the same order. *)
Theorem constructor_loop_keeps_constraints time_period_type constraints net_constraints :
  mapR (net_constraint time_period_type) constraints = Ok net_constraints ->
  Forall2
    (fun (c : datetime_like * list (Qc * Qc * Qc)) r =>
       _from_datetime_like c.1 time_period_type = Ok (RatchetPeriod r) /\
       map (fun b => (Inventory b, MinInjectWithdrawRate (Rates b),
                      MaxInjectWithdrawRate (Rates b)))
           (InjectWithdrawRanges r) = c.2)
    constraints net_constraints.
Proof.
  intros H. apply mapR_Forall2 in H.
  induction H as [|[period rates] r cs rs Hr _ IH]; constructor; [|exact IH].
  unfold net_constraint in Hr.
  destruct (_from_datetime_like period time_period_type) as [np|] eqn:Hp; [|discriminate].
  simpl in Hr.
  destruct (mapR net_rate_by_inventory rates) as [nrs|] eqn:Hrates; [|discriminate].
  simpl in Hr. inversion Hr; subst r; clear Hr. simpl. split; [exact Hp|].
  apply mapR_Forall2 in Hrates.
  induction Hrates as [|[[i lo] hi] b ? ? Hb _ IHr]; simpl; [reflexivity|].
  rewrite IHr. f_equal.
  unfold net_rate_by_inventory, NetInjectWithdrawRange_new in Hb.
  destruct (Qcltb hi lo); [discriminate|]. simpl in Hb. by inversion Hb.
Qed.

Lemma constructor_loop_keeps_constraints_witness :
  Forall2
    (fun (c : datetime_like * list (Qc * Qc * Qc)) r =>
       _from_datetime_like c.1 Day = Ok (RatchetPeriod r) /\
       map (fun b => (Inventory b, MinInjectWithdrawRate (Rates b),
                      MaxInjectWithdrawRate (Rates b)))
           (InjectWithdrawRanges r) = c.2)
    TestCmdtyStorage.constraints
    (Ratchets (CmdtyStorage._net_storage TestCmdtyStorage.storage)).
Proof.
  apply (constructor_loop_keeps_constraints Day TestCmdtyStorage.constraints).
  reflexivity.
Defined.
